(** * The [User] controller of frappe: [frappe/core/doctype/user/user.py]

    A shallow embedding of the controller's validation pipeline, of its
    role reconciliation, of the password policy and reset-token flow and of
    the public account endpoints, followed by the properties established
    about them.

    Conventions of the embedding.
    - A [DF.Data | None] column that the controller only reads through its
      truthiness is a [string] whose empty value stands for both [None] and
      [""].  Where the code tells the two apart ([new_password], the [role]
      of a child row) the column is an [option string].
    - [DF.Check] and [DF.Int] columns are [Z]; a Python value is truthy when
      it is not [0].
    - A [str] is a [string] whose characters are the code points below 256;
      [strip] and [lower] are Python's on these code points.
    - A datetime is a number of microseconds ([Z]) counted from
      [datetime.min], the start of the year 1; [timedelta(seconds=n)] is
      [n * 1000000].  Python holds a [timedelta] of at most 999999999 days
      and a datetime up to the end of the year 9999, and raises
      [OverflowError] beyond; see [add_seconds].
    - A Python [set] is a duplicate-free list; its iteration order is not
      specified by Python and no statement below depends on it.
    - An exception is a value of [Exn]; a raising computation keeps the
      state it reached, as the in-memory document does in Python. *)

From Stdlib Require Import String Ascii List ZArith Bool Lia.
Import ListNotations.

Local Open Scope Z_scope.
Local Open Scope list_scope.
Local Open Scope string_scope.

(** ** Python strings *)

Definition truthy (s : string) : bool := negb (s =? "").

Definition truthy_opt (o : option string) : bool :=
  match o with
  | Some s => truthy s
  | None => false
  end.

Definition or_empty (o : option string) : string :=
  match o with
  | Some s => s
  | None => ""
  end.

Fixpoint lstrip (drop : ascii -> bool) (s : string) : string :=
  match s with
  | EmptyString => EmptyString
  | String c rest => if drop c then lstrip drop rest else s
  end.

Fixpoint reversed (s : string) : string :=
  match s with
  | EmptyString => EmptyString
  | String c rest => reversed rest ++ String c EmptyString
  end.

(** [s.strip(chars)] *)
Definition strip_chars (drop : ascii -> bool) (s : string) : string :=
  reversed (lstrip drop (reversed (lstrip drop s))).

(** [c.isspace()]: the white space of [str.strip()] below 256 is the ASCII
    white space 9 to 13 and 32, the separators 28 to 31, and the code points
    133 (next line) and 160 (no-break space). *)
Definition is_space (c : ascii) : bool :=
  let n := nat_of_ascii c in
  (Nat.eqb n 32 || (Nat.leb 9 n && Nat.leb n 13) || (Nat.leb 28 n && Nat.leb n 31)
   || Nat.eqb n 133 || Nat.eqb n 160)%bool.

(** [s.strip()] *)
Definition strip (s : string) : string := strip_chars is_space s.

(** [c.lower()]: below 256 the capitals are A to Z (65 to 90) and the
    accented capitals 192 to 222 but for the multiplication sign 215; each
    has its small letter 32 places on. *)
Definition lower_ascii (c : ascii) : ascii :=
  let n := nat_of_ascii c in
  if ((Nat.leb 65 n && Nat.leb n 90)
      || (Nat.leb 192 n && Nat.leb n 222 && negb (Nat.eqb n 215)))%bool
  then ascii_of_nat (n + 32) else c.

(** [s.lower()] *)
Fixpoint lower (s : string) : string :=
  match s with
  | EmptyString => EmptyString
  | String c rest => String (lower_ascii c) (lower rest)
  end.

(** [sep.join(parts)] *)
Definition join (sep : string) (parts : list string) : string := String.concat sep parts.

Definition len (s : string) : Z := Z.of_nat (String.length s).

Definition mem_str (s : string) (l : list string) : bool := existsb (String.eqb s) l.

Definition eqb_opt (a b : option string) : bool :=
  match a, b with
  | Some x, Some y => x =? y
  | None, None => true
  | _, _ => false
  end.

Definition mem_opt (a : option string) (l : list (option string)) : bool :=
  existsb (eqb_opt a) l.

(** [frappe.utils.cint] on a value that is already an integer *)
Definition cint (z : Z) : Z := z.

Definition nonzero (z : Z) : bool := negb (z =? 0)%Z.

(** ** Datetimes *)

(** [datetime.max], the last microsecond of the year 9999: day 3652059
    counted from the first of January of the year 1. *)
Definition datetime_max : Z := 3652059 * 86400 * 1000000 - 1.

(** [t + timedelta(seconds=n)].  [None] stands for Python's
    [OverflowError]: [timedelta] holds at most 999999999 days on either
    side of zero, and the sum has to be a datetime of the years 1 to 9999. *)
Definition add_seconds (t n : Z) : option Z :=
  if ((-999999999 <=? n / 86400)%Z && (n / 86400 <=? 999999999)%Z
      && (0 <=? t + n * 1000000)%Z && (t + n * 1000000 <=? datetime_max)%Z)%bool
  then Some (t + n * 1000000)%Z
  else None.

(** ** Exceptions and the state monad of the controller *)

Inductive Exn : Type :=
| ValidationError (msg : string)
| DoesNotExistError (doctype docname : string)
| DuplicateEntryError (doctype docname : string)
| AuthenticationError
| OutgoingEmailError
| PythonError (kind : string).

Definition M (S A : Type) : Type := S -> S * (Exn + A).

Definition ret {S A : Type} (a : A) : M S A := fun s => (s, inr a).

Definition bind {S A B : Type} (m : M S A) (f : A -> M S B) : M S B :=
  fun s =>
    match m s with
    | (s', inr a) => f a s'
    | (s', inl e) => (s', inl e)
    end.

Definition raise {S A : Type} (e : Exn) : M S A := fun s => (s, inl e).

Definition gets {S A : Type} (f : S -> A) : M S A := fun s => (s, inr (f s)).

Definition modify {S : Type} (f : S -> S) : M S unit := fun s => (f s, inr tt).

(** [try: m  except <those h accepts>: handler] *)
Definition try_except {S A : Type} (m : M S A) (h : Exn -> option (M S A)) : M S A :=
  fun s =>
    match m s with
    | (s', inr a) => (s', inr a)
    | (s', inl e) =>
        match h e with
        | Some handler => handler s'
        | None => (s', inl e)
        end
    end.

Definition when {S : Type} (b : bool) (m : M S unit) : M S unit :=
  if b then m else ret tt.

(** [frappe.throw(msg)]: raises [frappe.ValidationError] *)
Definition throw {S A : Type} (msg : string) : M S A := raise (ValidationError msg).

Declare Scope py_scope.
Delimit Scope py_scope with py.
Notation "x <- m ;; k" := (bind m (fun x => k))
  (at level 100, m at next level, right associativity) : py_scope.
Notation "m ;; k" := (bind m (fun _ => k))
  (at level 100, right associativity) : py_scope.
Local Open Scope py_scope.

(** ** Documents *)

(** Child rows, by the column the controller reads. *)
Record HasRole : Type := { role : option string }.
Record UserRoleProfile : Type := { role_profile : string }.
Record BlockModule : Type := { module : string }.
Record UserEmail : Type := { email_account : string }.
Record UserSocialLogin : Type := { provider : string; userid : string }.

(** [doc.flags] and [doc.__islocal] *)
Record Flags : Type := {
  in_insert : bool;
  ignore_password_policy : bool;
  no_welcome_mail : bool;
  email_sent : bool;
  islocal : bool
}.

Definition with_in_insert (v : bool) (f : Flags) : Flags :=
  {| in_insert := v; ignore_password_policy := ignore_password_policy f;
     no_welcome_mail := no_welcome_mail f; email_sent := email_sent f;
     islocal := islocal f |}.

Definition with_ignore_password_policy (v : bool) (f : Flags) : Flags :=
  {| in_insert := in_insert f; ignore_password_policy := v;
     no_welcome_mail := no_welcome_mail f; email_sent := email_sent f;
     islocal := islocal f |}.

Definition with_email_sent (v : bool) (f : Flags) : Flags :=
  {| in_insert := in_insert f; ignore_password_policy := ignore_password_policy f;
     no_welcome_mail := no_welcome_mail f; email_sent := v; islocal := islocal f |}.

Definition with_islocal (v : bool) (f : Flags) : Flags :=
  {| in_insert := in_insert f; ignore_password_policy := ignore_password_policy f;
     no_welcome_mail := no_welcome_mail f; email_sent := email_sent f; islocal := v |}.

Definition no_flags : Flags :=
  {| in_insert := false; ignore_password_policy := false; no_welcome_mail := false;
     email_sent := false; islocal := false |}.

(** The [User] document: the columns and child tables the controller
    touches, then what lives only on the in-memory object
    ([is_admin], [is_guest], the private holder [__new_password], [flags]). *)
Record User : Type := {
  name : string;
  email : string;
  first_name : string;
  middle_name : string;
  last_name : string;
  full_name : string;
  username : string;
  birth_date : string;
  new_password : option string;
  enabled : Z;
  user_type : string;
  role_profile_name : string;
  role_profiles : list UserRoleProfile;
  roles : list HasRole;
  module_profile : string;
  block_modules : list BlockModule;
  user_emails : list UserEmail;
  user_image : string;
  time_zone : string;
  language : string;
  social_logins : list UserSocialLogin;
  thread_notify : Z;
  send_me_a_copy : Z;
  allowed_in_mentions : Z;
  send_welcome_email : Z;
  logout_all_sessions : Z;
  reset_password_key : string;
  last_reset_password_key_generated_on : option Z;
  last_password_reset_date : option Z;
  redirect_url : string;
  university : string;
  major : string;
  creation : Z;
  is_admin : bool;
  is_guest : bool;
  __new_password : option string;
  flags : Flags
}.

Definition with_name (v : string) (u : User) : User :=
  {| name := v; email := email u; first_name := first_name u; middle_name := middle_name u;
     last_name := last_name u; full_name := full_name u; username := username u;
     birth_date := birth_date u; new_password := new_password u; enabled := enabled u;
     user_type := user_type u; role_profile_name := role_profile_name u;
     role_profiles := role_profiles u; roles := roles u;
     module_profile := module_profile u; block_modules := block_modules u;
     user_emails := user_emails u; user_image := user_image u; time_zone := time_zone u;
     language := language u; social_logins := social_logins u;
     thread_notify := thread_notify u; send_me_a_copy := send_me_a_copy u;
     allowed_in_mentions := allowed_in_mentions u;
     send_welcome_email := send_welcome_email u;
     logout_all_sessions := logout_all_sessions u;
     reset_password_key := reset_password_key u;
     last_reset_password_key_generated_on := last_reset_password_key_generated_on u;
     last_password_reset_date := last_password_reset_date u;
     redirect_url := redirect_url u; university := university u; major := major u;
     creation := creation u; is_admin := is_admin u; is_guest := is_guest u;
     __new_password := __new_password u; flags := flags u |}.

Definition with_email (v : string) (u : User) : User :=
  {| name := name u; email := v; first_name := first_name u; middle_name := middle_name u;
     last_name := last_name u; full_name := full_name u; username := username u;
     birth_date := birth_date u; new_password := new_password u; enabled := enabled u;
     user_type := user_type u; role_profile_name := role_profile_name u;
     role_profiles := role_profiles u; roles := roles u;
     module_profile := module_profile u; block_modules := block_modules u;
     user_emails := user_emails u; user_image := user_image u; time_zone := time_zone u;
     language := language u; social_logins := social_logins u;
     thread_notify := thread_notify u; send_me_a_copy := send_me_a_copy u;
     allowed_in_mentions := allowed_in_mentions u;
     send_welcome_email := send_welcome_email u;
     logout_all_sessions := logout_all_sessions u;
     reset_password_key := reset_password_key u;
     last_reset_password_key_generated_on := last_reset_password_key_generated_on u;
     last_password_reset_date := last_password_reset_date u;
     redirect_url := redirect_url u; university := university u; major := major u;
     creation := creation u; is_admin := is_admin u; is_guest := is_guest u;
     __new_password := __new_password u; flags := flags u |}.

Definition with_full_name (v : string) (u : User) : User :=
  {| name := name u; email := email u; first_name := first_name u;
     middle_name := middle_name u; last_name := last_name u; full_name := v;
     username := username u; birth_date := birth_date u; new_password := new_password u;
     enabled := enabled u; user_type := user_type u;
     role_profile_name := role_profile_name u; role_profiles := role_profiles u;
     roles := roles u; module_profile := module_profile u;
     block_modules := block_modules u; user_emails := user_emails u;
     user_image := user_image u; time_zone := time_zone u; language := language u;
     social_logins := social_logins u; thread_notify := thread_notify u;
     send_me_a_copy := send_me_a_copy u; allowed_in_mentions := allowed_in_mentions u;
     send_welcome_email := send_welcome_email u;
     logout_all_sessions := logout_all_sessions u;
     reset_password_key := reset_password_key u;
     last_reset_password_key_generated_on := last_reset_password_key_generated_on u;
     last_password_reset_date := last_password_reset_date u;
     redirect_url := redirect_url u; university := university u; major := major u;
     creation := creation u; is_admin := is_admin u; is_guest := is_guest u;
     __new_password := __new_password u; flags := flags u |}.

Definition with_username (v : string) (u : User) : User :=
  {| name := name u; email := email u; first_name := first_name u;
     middle_name := middle_name u; last_name := last_name u; full_name := full_name u;
     username := v; birth_date := birth_date u; new_password := new_password u;
     enabled := enabled u; user_type := user_type u;
     role_profile_name := role_profile_name u; role_profiles := role_profiles u;
     roles := roles u; module_profile := module_profile u;
     block_modules := block_modules u; user_emails := user_emails u;
     user_image := user_image u; time_zone := time_zone u; language := language u;
     social_logins := social_logins u; thread_notify := thread_notify u;
     send_me_a_copy := send_me_a_copy u; allowed_in_mentions := allowed_in_mentions u;
     send_welcome_email := send_welcome_email u;
     logout_all_sessions := logout_all_sessions u;
     reset_password_key := reset_password_key u;
     last_reset_password_key_generated_on := last_reset_password_key_generated_on u;
     last_password_reset_date := last_password_reset_date u;
     redirect_url := redirect_url u; university := university u; major := major u;
     creation := creation u; is_admin := is_admin u; is_guest := is_guest u;
     __new_password := __new_password u; flags := flags u |}.

Definition with_new_password (v : option string) (u : User) : User :=
  {| name := name u; email := email u; first_name := first_name u;
     middle_name := middle_name u; last_name := last_name u; full_name := full_name u;
     username := username u; birth_date := birth_date u; new_password := v;
     enabled := enabled u; user_type := user_type u;
     role_profile_name := role_profile_name u; role_profiles := role_profiles u;
     roles := roles u; module_profile := module_profile u;
     block_modules := block_modules u; user_emails := user_emails u;
     user_image := user_image u; time_zone := time_zone u; language := language u;
     social_logins := social_logins u; thread_notify := thread_notify u;
     send_me_a_copy := send_me_a_copy u; allowed_in_mentions := allowed_in_mentions u;
     send_welcome_email := send_welcome_email u;
     logout_all_sessions := logout_all_sessions u;
     reset_password_key := reset_password_key u;
     last_reset_password_key_generated_on := last_reset_password_key_generated_on u;
     last_password_reset_date := last_password_reset_date u;
     redirect_url := redirect_url u; university := university u; major := major u;
     creation := creation u; is_admin := is_admin u; is_guest := is_guest u;
     __new_password := __new_password u; flags := flags u |}.

Definition with_enabled (v : Z) (u : User) : User :=
  {| name := name u; email := email u; first_name := first_name u;
     middle_name := middle_name u; last_name := last_name u; full_name := full_name u;
     username := username u; birth_date := birth_date u; new_password := new_password u;
     enabled := v; user_type := user_type u; role_profile_name := role_profile_name u;
     role_profiles := role_profiles u; roles := roles u;
     module_profile := module_profile u; block_modules := block_modules u;
     user_emails := user_emails u; user_image := user_image u; time_zone := time_zone u;
     language := language u; social_logins := social_logins u;
     thread_notify := thread_notify u; send_me_a_copy := send_me_a_copy u;
     allowed_in_mentions := allowed_in_mentions u;
     send_welcome_email := send_welcome_email u;
     logout_all_sessions := logout_all_sessions u;
     reset_password_key := reset_password_key u;
     last_reset_password_key_generated_on := last_reset_password_key_generated_on u;
     last_password_reset_date := last_password_reset_date u;
     redirect_url := redirect_url u; university := university u; major := major u;
     creation := creation u; is_admin := is_admin u; is_guest := is_guest u;
     __new_password := __new_password u; flags := flags u |}.

Definition with_user_type (v : string) (u : User) : User :=
  {| name := name u; email := email u; first_name := first_name u;
     middle_name := middle_name u; last_name := last_name u; full_name := full_name u;
     username := username u; birth_date := birth_date u; new_password := new_password u;
     enabled := enabled u; user_type := v; role_profile_name := role_profile_name u;
     role_profiles := role_profiles u; roles := roles u;
     module_profile := module_profile u; block_modules := block_modules u;
     user_emails := user_emails u; user_image := user_image u; time_zone := time_zone u;
     language := language u; social_logins := social_logins u;
     thread_notify := thread_notify u; send_me_a_copy := send_me_a_copy u;
     allowed_in_mentions := allowed_in_mentions u;
     send_welcome_email := send_welcome_email u;
     logout_all_sessions := logout_all_sessions u;
     reset_password_key := reset_password_key u;
     last_reset_password_key_generated_on := last_reset_password_key_generated_on u;
     last_password_reset_date := last_password_reset_date u;
     redirect_url := redirect_url u; university := university u; major := major u;
     creation := creation u; is_admin := is_admin u; is_guest := is_guest u;
     __new_password := __new_password u; flags := flags u |}.

Definition with_role_profile_name (v : string) (u : User) : User :=
  {| name := name u; email := email u; first_name := first_name u;
     middle_name := middle_name u; last_name := last_name u; full_name := full_name u;
     username := username u; birth_date := birth_date u; new_password := new_password u;
     enabled := enabled u; user_type := user_type u; role_profile_name := v;
     role_profiles := role_profiles u; roles := roles u;
     module_profile := module_profile u; block_modules := block_modules u;
     user_emails := user_emails u; user_image := user_image u; time_zone := time_zone u;
     language := language u; social_logins := social_logins u;
     thread_notify := thread_notify u; send_me_a_copy := send_me_a_copy u;
     allowed_in_mentions := allowed_in_mentions u;
     send_welcome_email := send_welcome_email u;
     logout_all_sessions := logout_all_sessions u;
     reset_password_key := reset_password_key u;
     last_reset_password_key_generated_on := last_reset_password_key_generated_on u;
     last_password_reset_date := last_password_reset_date u;
     redirect_url := redirect_url u; university := university u; major := major u;
     creation := creation u; is_admin := is_admin u; is_guest := is_guest u;
     __new_password := __new_password u; flags := flags u |}.

Definition with_role_profiles (v : list UserRoleProfile) (u : User) : User :=
  {| name := name u; email := email u; first_name := first_name u;
     middle_name := middle_name u; last_name := last_name u; full_name := full_name u;
     username := username u; birth_date := birth_date u; new_password := new_password u;
     enabled := enabled u; user_type := user_type u;
     role_profile_name := role_profile_name u; role_profiles := v; roles := roles u;
     module_profile := module_profile u; block_modules := block_modules u;
     user_emails := user_emails u; user_image := user_image u; time_zone := time_zone u;
     language := language u; social_logins := social_logins u;
     thread_notify := thread_notify u; send_me_a_copy := send_me_a_copy u;
     allowed_in_mentions := allowed_in_mentions u;
     send_welcome_email := send_welcome_email u;
     logout_all_sessions := logout_all_sessions u;
     reset_password_key := reset_password_key u;
     last_reset_password_key_generated_on := last_reset_password_key_generated_on u;
     last_password_reset_date := last_password_reset_date u;
     redirect_url := redirect_url u; university := university u; major := major u;
     creation := creation u; is_admin := is_admin u; is_guest := is_guest u;
     __new_password := __new_password u; flags := flags u |}.

Definition with_roles (v : list HasRole) (u : User) : User :=
  {| name := name u; email := email u; first_name := first_name u;
     middle_name := middle_name u; last_name := last_name u; full_name := full_name u;
     username := username u; birth_date := birth_date u; new_password := new_password u;
     enabled := enabled u; user_type := user_type u;
     role_profile_name := role_profile_name u; role_profiles := role_profiles u;
     roles := v; module_profile := module_profile u; block_modules := block_modules u;
     user_emails := user_emails u; user_image := user_image u; time_zone := time_zone u;
     language := language u; social_logins := social_logins u;
     thread_notify := thread_notify u; send_me_a_copy := send_me_a_copy u;
     allowed_in_mentions := allowed_in_mentions u;
     send_welcome_email := send_welcome_email u;
     logout_all_sessions := logout_all_sessions u;
     reset_password_key := reset_password_key u;
     last_reset_password_key_generated_on := last_reset_password_key_generated_on u;
     last_password_reset_date := last_password_reset_date u;
     redirect_url := redirect_url u; university := university u; major := major u;
     creation := creation u; is_admin := is_admin u; is_guest := is_guest u;
     __new_password := __new_password u; flags := flags u |}.

Definition with_block_modules (v : list BlockModule) (u : User) : User :=
  {| name := name u; email := email u; first_name := first_name u;
     middle_name := middle_name u; last_name := last_name u; full_name := full_name u;
     username := username u; birth_date := birth_date u; new_password := new_password u;
     enabled := enabled u; user_type := user_type u;
     role_profile_name := role_profile_name u; role_profiles := role_profiles u;
     roles := roles u; module_profile := module_profile u; block_modules := v;
     user_emails := user_emails u; user_image := user_image u; time_zone := time_zone u;
     language := language u; social_logins := social_logins u;
     thread_notify := thread_notify u; send_me_a_copy := send_me_a_copy u;
     allowed_in_mentions := allowed_in_mentions u;
     send_welcome_email := send_welcome_email u;
     logout_all_sessions := logout_all_sessions u;
     reset_password_key := reset_password_key u;
     last_reset_password_key_generated_on := last_reset_password_key_generated_on u;
     last_password_reset_date := last_password_reset_date u;
     redirect_url := redirect_url u; university := university u; major := major u;
     creation := creation u; is_admin := is_admin u; is_guest := is_guest u;
     __new_password := __new_password u; flags := flags u |}.

Definition with_time_zone (v : string) (u : User) : User :=
  {| name := name u; email := email u; first_name := first_name u;
     middle_name := middle_name u; last_name := last_name u; full_name := full_name u;
     username := username u; birth_date := birth_date u; new_password := new_password u;
     enabled := enabled u; user_type := user_type u;
     role_profile_name := role_profile_name u; role_profiles := role_profiles u;
     roles := roles u; module_profile := module_profile u;
     block_modules := block_modules u; user_emails := user_emails u;
     user_image := user_image u; time_zone := v; language := language u;
     social_logins := social_logins u; thread_notify := thread_notify u;
     send_me_a_copy := send_me_a_copy u; allowed_in_mentions := allowed_in_mentions u;
     send_welcome_email := send_welcome_email u;
     logout_all_sessions := logout_all_sessions u;
     reset_password_key := reset_password_key u;
     last_reset_password_key_generated_on := last_reset_password_key_generated_on u;
     last_password_reset_date := last_password_reset_date u;
     redirect_url := redirect_url u; university := university u; major := major u;
     creation := creation u; is_admin := is_admin u; is_guest := is_guest u;
     __new_password := __new_password u; flags := flags u |}.

Definition with_language (v : string) (u : User) : User :=
  {| name := name u; email := email u; first_name := first_name u;
     middle_name := middle_name u; last_name := last_name u; full_name := full_name u;
     username := username u; birth_date := birth_date u; new_password := new_password u;
     enabled := enabled u; user_type := user_type u;
     role_profile_name := role_profile_name u; role_profiles := role_profiles u;
     roles := roles u; module_profile := module_profile u;
     block_modules := block_modules u; user_emails := user_emails u;
     user_image := user_image u; time_zone := time_zone u; language := v;
     social_logins := social_logins u; thread_notify := thread_notify u;
     send_me_a_copy := send_me_a_copy u; allowed_in_mentions := allowed_in_mentions u;
     send_welcome_email := send_welcome_email u;
     logout_all_sessions := logout_all_sessions u;
     reset_password_key := reset_password_key u;
     last_reset_password_key_generated_on := last_reset_password_key_generated_on u;
     last_password_reset_date := last_password_reset_date u;
     redirect_url := redirect_url u; university := university u; major := major u;
     creation := creation u; is_admin := is_admin u; is_guest := is_guest u;
     __new_password := __new_password u; flags := flags u |}.

Definition with_social_logins (v : list UserSocialLogin) (u : User) : User :=
  {| name := name u; email := email u; first_name := first_name u;
     middle_name := middle_name u; last_name := last_name u; full_name := full_name u;
     username := username u; birth_date := birth_date u; new_password := new_password u;
     enabled := enabled u; user_type := user_type u;
     role_profile_name := role_profile_name u; role_profiles := role_profiles u;
     roles := roles u; module_profile := module_profile u;
     block_modules := block_modules u; user_emails := user_emails u;
     user_image := user_image u; time_zone := time_zone u; language := language u;
     social_logins := v; thread_notify := thread_notify u;
     send_me_a_copy := send_me_a_copy u; allowed_in_mentions := allowed_in_mentions u;
     send_welcome_email := send_welcome_email u;
     logout_all_sessions := logout_all_sessions u;
     reset_password_key := reset_password_key u;
     last_reset_password_key_generated_on := last_reset_password_key_generated_on u;
     last_password_reset_date := last_password_reset_date u;
     redirect_url := redirect_url u; university := university u; major := major u;
     creation := creation u; is_admin := is_admin u; is_guest := is_guest u;
     __new_password := __new_password u; flags := flags u |}.

Definition with_thread_notify (v : Z) (u : User) : User :=
  {| name := name u; email := email u; first_name := first_name u;
     middle_name := middle_name u; last_name := last_name u; full_name := full_name u;
     username := username u; birth_date := birth_date u; new_password := new_password u;
     enabled := enabled u; user_type := user_type u;
     role_profile_name := role_profile_name u; role_profiles := role_profiles u;
     roles := roles u; module_profile := module_profile u;
     block_modules := block_modules u; user_emails := user_emails u;
     user_image := user_image u; time_zone := time_zone u; language := language u;
     social_logins := social_logins u; thread_notify := v;
     send_me_a_copy := send_me_a_copy u; allowed_in_mentions := allowed_in_mentions u;
     send_welcome_email := send_welcome_email u;
     logout_all_sessions := logout_all_sessions u;
     reset_password_key := reset_password_key u;
     last_reset_password_key_generated_on := last_reset_password_key_generated_on u;
     last_password_reset_date := last_password_reset_date u;
     redirect_url := redirect_url u; university := university u; major := major u;
     creation := creation u; is_admin := is_admin u; is_guest := is_guest u;
     __new_password := __new_password u; flags := flags u |}.

Definition with_send_me_a_copy (v : Z) (u : User) : User :=
  {| name := name u; email := email u; first_name := first_name u;
     middle_name := middle_name u; last_name := last_name u; full_name := full_name u;
     username := username u; birth_date := birth_date u; new_password := new_password u;
     enabled := enabled u; user_type := user_type u;
     role_profile_name := role_profile_name u; role_profiles := role_profiles u;
     roles := roles u; module_profile := module_profile u;
     block_modules := block_modules u; user_emails := user_emails u;
     user_image := user_image u; time_zone := time_zone u; language := language u;
     social_logins := social_logins u; thread_notify := thread_notify u;
     send_me_a_copy := v; allowed_in_mentions := allowed_in_mentions u;
     send_welcome_email := send_welcome_email u;
     logout_all_sessions := logout_all_sessions u;
     reset_password_key := reset_password_key u;
     last_reset_password_key_generated_on := last_reset_password_key_generated_on u;
     last_password_reset_date := last_password_reset_date u;
     redirect_url := redirect_url u; university := university u; major := major u;
     creation := creation u; is_admin := is_admin u; is_guest := is_guest u;
     __new_password := __new_password u; flags := flags u |}.

Definition with_allowed_in_mentions (v : Z) (u : User) : User :=
  {| name := name u; email := email u; first_name := first_name u;
     middle_name := middle_name u; last_name := last_name u; full_name := full_name u;
     username := username u; birth_date := birth_date u; new_password := new_password u;
     enabled := enabled u; user_type := user_type u;
     role_profile_name := role_profile_name u; role_profiles := role_profiles u;
     roles := roles u; module_profile := module_profile u;
     block_modules := block_modules u; user_emails := user_emails u;
     user_image := user_image u; time_zone := time_zone u; language := language u;
     social_logins := social_logins u; thread_notify := thread_notify u;
     send_me_a_copy := send_me_a_copy u; allowed_in_mentions := v;
     send_welcome_email := send_welcome_email u;
     logout_all_sessions := logout_all_sessions u;
     reset_password_key := reset_password_key u;
     last_reset_password_key_generated_on := last_reset_password_key_generated_on u;
     last_password_reset_date := last_password_reset_date u;
     redirect_url := redirect_url u; university := university u; major := major u;
     creation := creation u; is_admin := is_admin u; is_guest := is_guest u;
     __new_password := __new_password u; flags := flags u |}.

Definition with_reset_password_key (v : string) (u : User) : User :=
  {| name := name u; email := email u; first_name := first_name u;
     middle_name := middle_name u; last_name := last_name u; full_name := full_name u;
     username := username u; birth_date := birth_date u; new_password := new_password u;
     enabled := enabled u; user_type := user_type u;
     role_profile_name := role_profile_name u; role_profiles := role_profiles u;
     roles := roles u; module_profile := module_profile u;
     block_modules := block_modules u; user_emails := user_emails u;
     user_image := user_image u; time_zone := time_zone u; language := language u;
     social_logins := social_logins u; thread_notify := thread_notify u;
     send_me_a_copy := send_me_a_copy u; allowed_in_mentions := allowed_in_mentions u;
     send_welcome_email := send_welcome_email u;
     logout_all_sessions := logout_all_sessions u; reset_password_key := v;
     last_reset_password_key_generated_on := last_reset_password_key_generated_on u;
     last_password_reset_date := last_password_reset_date u;
     redirect_url := redirect_url u; university := university u; major := major u;
     creation := creation u; is_admin := is_admin u; is_guest := is_guest u;
     __new_password := __new_password u; flags := flags u |}.

Definition with_last_reset_password_key_generated_on (v : option Z) (u : User) : User :=
  {| name := name u; email := email u; first_name := first_name u;
     middle_name := middle_name u; last_name := last_name u; full_name := full_name u;
     username := username u; birth_date := birth_date u; new_password := new_password u;
     enabled := enabled u; user_type := user_type u;
     role_profile_name := role_profile_name u; role_profiles := role_profiles u;
     roles := roles u; module_profile := module_profile u;
     block_modules := block_modules u; user_emails := user_emails u;
     user_image := user_image u; time_zone := time_zone u; language := language u;
     social_logins := social_logins u; thread_notify := thread_notify u;
     send_me_a_copy := send_me_a_copy u; allowed_in_mentions := allowed_in_mentions u;
     send_welcome_email := send_welcome_email u;
     logout_all_sessions := logout_all_sessions u;
     reset_password_key := reset_password_key u; last_reset_password_key_generated_on := v;
     last_password_reset_date := last_password_reset_date u;
     redirect_url := redirect_url u; university := university u; major := major u;
     creation := creation u; is_admin := is_admin u; is_guest := is_guest u;
     __new_password := __new_password u; flags := flags u |}.

Definition with_last_password_reset_date (v : option Z) (u : User) : User :=
  {| name := name u; email := email u; first_name := first_name u;
     middle_name := middle_name u; last_name := last_name u; full_name := full_name u;
     username := username u; birth_date := birth_date u; new_password := new_password u;
     enabled := enabled u; user_type := user_type u;
     role_profile_name := role_profile_name u; role_profiles := role_profiles u;
     roles := roles u; module_profile := module_profile u;
     block_modules := block_modules u; user_emails := user_emails u;
     user_image := user_image u; time_zone := time_zone u; language := language u;
     social_logins := social_logins u; thread_notify := thread_notify u;
     send_me_a_copy := send_me_a_copy u; allowed_in_mentions := allowed_in_mentions u;
     send_welcome_email := send_welcome_email u;
     logout_all_sessions := logout_all_sessions u;
     reset_password_key := reset_password_key u;
     last_reset_password_key_generated_on := last_reset_password_key_generated_on u;
     last_password_reset_date := v; redirect_url := redirect_url u;
     university := university u; major := major u; creation := creation u;
     is_admin := is_admin u; is_guest := is_guest u; __new_password := __new_password u;
     flags := flags u |}.

Definition with_redirect_url (v : string) (u : User) : User :=
  {| name := name u; email := email u; first_name := first_name u;
     middle_name := middle_name u; last_name := last_name u; full_name := full_name u;
     username := username u; birth_date := birth_date u; new_password := new_password u;
     enabled := enabled u; user_type := user_type u;
     role_profile_name := role_profile_name u; role_profiles := role_profiles u;
     roles := roles u; module_profile := module_profile u;
     block_modules := block_modules u; user_emails := user_emails u;
     user_image := user_image u; time_zone := time_zone u; language := language u;
     social_logins := social_logins u; thread_notify := thread_notify u;
     send_me_a_copy := send_me_a_copy u; allowed_in_mentions := allowed_in_mentions u;
     send_welcome_email := send_welcome_email u;
     logout_all_sessions := logout_all_sessions u;
     reset_password_key := reset_password_key u;
     last_reset_password_key_generated_on := last_reset_password_key_generated_on u;
     last_password_reset_date := last_password_reset_date u; redirect_url := v;
     university := university u; major := major u; creation := creation u;
     is_admin := is_admin u; is_guest := is_guest u; __new_password := __new_password u;
     flags := flags u |}.

Definition with_university (v : string) (u : User) : User :=
  {| name := name u; email := email u; first_name := first_name u;
     middle_name := middle_name u; last_name := last_name u; full_name := full_name u;
     username := username u; birth_date := birth_date u; new_password := new_password u;
     enabled := enabled u; user_type := user_type u;
     role_profile_name := role_profile_name u; role_profiles := role_profiles u;
     roles := roles u; module_profile := module_profile u;
     block_modules := block_modules u; user_emails := user_emails u;
     user_image := user_image u; time_zone := time_zone u; language := language u;
     social_logins := social_logins u; thread_notify := thread_notify u;
     send_me_a_copy := send_me_a_copy u; allowed_in_mentions := allowed_in_mentions u;
     send_welcome_email := send_welcome_email u;
     logout_all_sessions := logout_all_sessions u;
     reset_password_key := reset_password_key u;
     last_reset_password_key_generated_on := last_reset_password_key_generated_on u;
     last_password_reset_date := last_password_reset_date u;
     redirect_url := redirect_url u; university := v; major := major u;
     creation := creation u; is_admin := is_admin u; is_guest := is_guest u;
     __new_password := __new_password u; flags := flags u |}.

Definition with_major (v : string) (u : User) : User :=
  {| name := name u; email := email u; first_name := first_name u;
     middle_name := middle_name u; last_name := last_name u; full_name := full_name u;
     username := username u; birth_date := birth_date u; new_password := new_password u;
     enabled := enabled u; user_type := user_type u;
     role_profile_name := role_profile_name u; role_profiles := role_profiles u;
     roles := roles u; module_profile := module_profile u;
     block_modules := block_modules u; user_emails := user_emails u;
     user_image := user_image u; time_zone := time_zone u; language := language u;
     social_logins := social_logins u; thread_notify := thread_notify u;
     send_me_a_copy := send_me_a_copy u; allowed_in_mentions := allowed_in_mentions u;
     send_welcome_email := send_welcome_email u;
     logout_all_sessions := logout_all_sessions u;
     reset_password_key := reset_password_key u;
     last_reset_password_key_generated_on := last_reset_password_key_generated_on u;
     last_password_reset_date := last_password_reset_date u;
     redirect_url := redirect_url u; university := university u; major := v;
     creation := creation u; is_admin := is_admin u; is_guest := is_guest u;
     __new_password := __new_password u; flags := flags u |}.

Definition with_creation (v : Z) (u : User) : User :=
  {| name := name u; email := email u; first_name := first_name u;
     middle_name := middle_name u; last_name := last_name u; full_name := full_name u;
     username := username u; birth_date := birth_date u; new_password := new_password u;
     enabled := enabled u; user_type := user_type u;
     role_profile_name := role_profile_name u; role_profiles := role_profiles u;
     roles := roles u; module_profile := module_profile u;
     block_modules := block_modules u; user_emails := user_emails u;
     user_image := user_image u; time_zone := time_zone u; language := language u;
     social_logins := social_logins u; thread_notify := thread_notify u;
     send_me_a_copy := send_me_a_copy u; allowed_in_mentions := allowed_in_mentions u;
     send_welcome_email := send_welcome_email u;
     logout_all_sessions := logout_all_sessions u;
     reset_password_key := reset_password_key u;
     last_reset_password_key_generated_on := last_reset_password_key_generated_on u;
     last_password_reset_date := last_password_reset_date u;
     redirect_url := redirect_url u; university := university u; major := major u;
     creation := v; is_admin := is_admin u; is_guest := is_guest u;
     __new_password := __new_password u; flags := flags u |}.

Definition with___new_password (v : option string) (u : User) : User :=
  {| name := name u; email := email u; first_name := first_name u;
     middle_name := middle_name u; last_name := last_name u; full_name := full_name u;
     username := username u; birth_date := birth_date u; new_password := new_password u;
     enabled := enabled u; user_type := user_type u;
     role_profile_name := role_profile_name u; role_profiles := role_profiles u;
     roles := roles u; module_profile := module_profile u;
     block_modules := block_modules u; user_emails := user_emails u;
     user_image := user_image u; time_zone := time_zone u; language := language u;
     social_logins := social_logins u; thread_notify := thread_notify u;
     send_me_a_copy := send_me_a_copy u; allowed_in_mentions := allowed_in_mentions u;
     send_welcome_email := send_welcome_email u;
     logout_all_sessions := logout_all_sessions u;
     reset_password_key := reset_password_key u;
     last_reset_password_key_generated_on := last_reset_password_key_generated_on u;
     last_password_reset_date := last_password_reset_date u;
     redirect_url := redirect_url u; university := university u; major := major u;
     creation := creation u; is_admin := is_admin u; is_guest := is_guest u;
     __new_password := v; flags := flags u |}.

Definition with_flags (v : Flags) (u : User) : User :=
  {| name := name u; email := email u; first_name := first_name u;
     middle_name := middle_name u; last_name := last_name u; full_name := full_name u;
     username := username u; birth_date := birth_date u; new_password := new_password u;
     enabled := enabled u; user_type := user_type u;
     role_profile_name := role_profile_name u; role_profiles := role_profiles u;
     roles := roles u; module_profile := module_profile u;
     block_modules := block_modules u; user_emails := user_emails u;
     user_image := user_image u; time_zone := time_zone u; language := language u;
     social_logins := social_logins u; thread_notify := thread_notify u;
     send_me_a_copy := send_me_a_copy u; allowed_in_mentions := allowed_in_mentions u;
     send_welcome_email := send_welcome_email u;
     logout_all_sessions := logout_all_sessions u;
     reset_password_key := reset_password_key u;
     last_reset_password_key_generated_on := last_reset_password_key_generated_on u;
     last_password_reset_date := last_password_reset_date u;
     redirect_url := redirect_url u; university := university u; major := major u;
     creation := creation u; is_admin := is_admin u; is_guest := is_guest u;
     __new_password := __new_password u; flags := v |}.

(** A document built from a dict by [frappe.get_doc({...})]: every column
    unset, [__islocal] set. *)
Definition new_doc : User :=
  {| name := ""; email := ""; first_name := ""; middle_name := ""; last_name := "";
     full_name := ""; username := ""; birth_date := ""; new_password := None; enabled := 0;
     user_type := ""; role_profile_name := ""; role_profiles := []; roles := [];
     module_profile := ""; block_modules := []; user_emails := []; user_image := "";
     time_zone := ""; language := ""; social_logins := []; thread_notify := 0;
     send_me_a_copy := 0; allowed_in_mentions := 0; send_welcome_email := 0;
     logout_all_sessions := 0; reset_password_key := "";
     last_reset_password_key_generated_on := None; last_password_reset_date := None;
     redirect_url := ""; university := ""; major := ""; creation := 0;
     is_admin := false; is_guest := false; __new_password := None;
     flags := with_islocal true no_flags |}.

(** What a save writes to [tabUser]: the columns of the document.  The
    private holder and the flags belong to the Python object only. *)
Definition as_row (u : User) : User :=
  with___new_password None (with_flags no_flags u).

(** ** The site: settings, catalogues and collaborators *)

Record Role : Type := { role_name : string; desk_access : Z; disabled : Z }.

(** A [User Type] document.  [user_type_role] is its [role] field;
    [user_linked_with_permission_on_doctype] is the imported function of that
    name, applied to this document. *)
Record UserType : Type := {
  is_standard : Z;
  user_type_role : string;
  user_linked_with_permission_on_doctype : string -> bool;
  (** Modelled from the spec: the method [update_modules_in_user] of the
      User Type document, whose code is not part of this file.  "Let the
      type's module template populate allowed/blocked modules": it yields the
      new content of [block_modules] and touches nothing else. *)
  update_modules_in_user : User -> list BlockModule
}.

(** What [frappe.utils.password_strength.test_password_strength] reports. *)
Record Zxcvbn : Type := {
  score : Z;
  zx_warning : string;
  zx_suggestions : list string
}.

Record Site : Type := {
  (* frappe.flags *)
  in_test : bool;
  in_import : bool;
  (* System Settings *)
  enable_password_policy : bool;
  minimum_password_score : Z;
  reset_password_link_expiry_duration : Z;
  logout_on_password_reset : Z;
  (* site configuration, Website and Portal Settings *)
  throttle_user_limit : Z;
  is_signup_disabled : bool;
  default_role : string;
  get_system_timezone : string;
  get_default_path : string;
  get_home_page : string;
  (* frappe.auth.MAX_PASSWORD_SIZE *)
  MAX_PASSWORD_SIZE : Z;
  (* catalogues: Role, Role Profile, User Type, Module Profile *)
  tabRole : list Role;
  role_profile_doc : string -> option (list HasRole);
  user_type_doc : string -> option UserType;
  module_profile_doc : string -> option (list BlockModule);
  (* helpers of the framework *)
  _test_password_strength : string -> option (list string) -> Zxcvbn;
  validate_email_address : string -> bool;
  scrub : string -> string;
  escape_html : string -> string;
  sha256_hash : string -> string;
  (* the n-th value drawn from frappe.generate_hash / random_string *)
  generate_hash : nat -> string;
  get_url : string -> string;
  (* whether frappe.local has a login manager *)
  login_manager : bool;
  (* how the n-th call of frappe.sendmail ends: None when it returns *)
  sendmail : nat -> option Exn
}.

(** Modelled from the spec: [frappe.STANDARD_USERS], declared outside this
    file.  "Two reserved identities: Administrator and Guest". *)
Definition STANDARD_USERS : list string := ["Administrator"; "Guest"].

(** ** The world a request runs in *)

(** Calls to collaborators that only matter by having happened. *)
Inductive Event : Type :=
| Msgprint (msg : string)
| DeprecationWarning (msg : string)
| Logout (user : string)
| ToggleNotifications (user : string) (enable : Z)
| AskPassUpdate
| ClearCache (user : string)
| DeleteDoc (doctype docname : string)
| CreateNotificationSettings (user : string)
| CacheDeleteKey (key : string)
| ClearSessions (user : string)
| ShareWithSelf (user : string)
| ClearNotifications (user : string)
| Enqueue (method user : string)
| SetDefault (key value user : string)
| LocaleDefaults (user language : string)
| Cascade (user : string)
| ClearLastMessage
| ClearMessages
| SendMail (recipient template link : string)
| LogError (msg : string)
| RespondAsWebPage (title : string) (status : Z)
| LoginAs (user : string).

Record World : Type := {
  tabUser : list User;
  auth : list (string * string);
  redirect_after_login : list (string * string);
  session_user : string;
  now : Z;
  hashes_drawn : nat;
  mails_sent : nat;
  http_status_code : option Z;
  log : list Event
}.

Definition with_tabUser (v : list User) (w : World) : World :=
  {| tabUser := v; auth := auth w; redirect_after_login := redirect_after_login w;
     session_user := session_user w; now := now w; hashes_drawn := hashes_drawn w;
     mails_sent := mails_sent w; http_status_code := http_status_code w; log := log w |}.

Definition with_auth (v : list (string * string)) (w : World) : World :=
  {| tabUser := tabUser w; auth := v; redirect_after_login := redirect_after_login w;
     session_user := session_user w; now := now w; hashes_drawn := hashes_drawn w;
     mails_sent := mails_sent w; http_status_code := http_status_code w; log := log w |}.

Definition with_redirect_after_login (v : list (string * string)) (w : World) : World :=
  {| tabUser := tabUser w; auth := auth w; redirect_after_login := v;
     session_user := session_user w; now := now w; hashes_drawn := hashes_drawn w;
     mails_sent := mails_sent w; http_status_code := http_status_code w; log := log w |}.

Definition with_session_user (v : string) (w : World) : World :=
  {| tabUser := tabUser w; auth := auth w; redirect_after_login := redirect_after_login w;
     session_user := v; now := now w; hashes_drawn := hashes_drawn w;
     mails_sent := mails_sent w; http_status_code := http_status_code w; log := log w |}.

Definition with_hashes_drawn (v : nat) (w : World) : World :=
  {| tabUser := tabUser w; auth := auth w; redirect_after_login := redirect_after_login w;
     session_user := session_user w; now := now w; hashes_drawn := v;
     mails_sent := mails_sent w; http_status_code := http_status_code w; log := log w |}.

Definition with_mails_sent (v : nat) (w : World) : World :=
  {| tabUser := tabUser w; auth := auth w; redirect_after_login := redirect_after_login w;
     session_user := session_user w; now := now w; hashes_drawn := hashes_drawn w;
     mails_sent := v; http_status_code := http_status_code w; log := log w |}.

Definition with_http_status_code (v : option Z) (w : World) : World :=
  {| tabUser := tabUser w; auth := auth w; redirect_after_login := redirect_after_login w;
     session_user := session_user w; now := now w; hashes_drawn := hashes_drawn w;
     mails_sent := mails_sent w; http_status_code := v; log := log w |}.

Definition with_log (v : list Event) (w : World) : World :=
  {| tabUser := tabUser w; auth := auth w; redirect_after_login := redirect_after_login w;
     session_user := session_user w; now := now w; hashes_drawn := hashes_drawn w;
     mails_sent := mails_sent w; http_status_code := http_status_code w; log := v |}.

(** The state of a controller method: the document it runs on ([self]),
    the world, and the methods [validate] has called so far. *)
Record Ctx : Type := { self : User; world : World; calls : list string }.

Definition with_self (v : User) (c : Ctx) : Ctx :=
  {| self := v; world := world c; calls := calls c |}.

Definition with_world (v : World) (c : Ctx) : Ctx :=
  {| self := self c; world := v; calls := calls c |}.

Definition with_calls (v : list string) (c : Ctx) : Ctx :=
  {| self := self c; world := world c; calls := v |}.

(** [self.field = value] *)
Definition assign (f : User -> User) : M Ctx unit :=
  modify (fun c => with_self (f (self c)) c).

(** [self.flags.field = value] *)
Definition assign_flag (f : Flags -> Flags) : M Ctx unit :=
  assign (fun u => with_flags (f (flags u)) u).

Definition emit_w (e : Event) : M World unit :=
  modify (fun w => with_log (log w ++ [e])%list w).

(** Runs a function of the module inside a method. *)
Definition on_world {A : Type} (m : M World A) : M Ctx A :=
  fun c =>
    match m (world c) with
    | (w, r) => (with_world w c, r)
    end.

Definition emit (e : Event) : M Ctx unit := on_world (emit_w e).

(** A call site of [validate]: records the method, then runs it. *)
Definition call {A : Type} (method : string) (m : M Ctx A) : M Ctx A :=
  modify (fun c => with_calls (calls c ++ [method])%list c) ;; m.

(** Runs a method on a document; yields the document as the method left it. *)
Definition on_doc {A : Type} (d : User) (m : M Ctx A) : M World (User * A) :=
  fun w =>
    match m {| self := d; world := w; calls := [] |} with
    | (c, inr a) => (world c, inr (self c, a))
    | (c, inl e) => (world c, inl e)
    end.

(** ** The database: [tabUser] *)

Definition lookup (user : string) (rows : list User) : option User :=
  find (fun r => name r =? user) rows.

(** [frappe.get_doc("User", user)]: a fresh object over the stored columns *)
Definition get_doc (user : string) : M World User :=
  w <- gets (fun w => w) ;;
  match lookup user (tabUser w) with
  | Some r => ret (as_row r)
  | None => raise (DoesNotExistError "User" user)
  end.

Definition update_rows (user : string) (f : User -> User) (rows : list User) : list User :=
  map (fun r => if name r =? user then f r else r) rows.

(** [frappe.db.set_value("User", user, field, value)] *)
Definition db_set_value (user : string) (f : User -> User) : M World unit :=
  modify (fun w => with_tabUser (update_rows user f (tabUser w)) w).

(** [self.db_set(field, value)]: on the document and on its row *)
Definition db_set (f : User -> User) : M Ctx unit :=
  assign f ;;
  u <- gets self ;;
  on_world (db_set_value (name u) f).

(** The next value of [frappe.generate_hash()] or [random_string()]. *)
Definition draw_hash (site : Site) : M World string :=
  n <- gets hashes_drawn ;;
  modify (with_hashes_drawn (S n)) ;;
  ret (generate_hash site n).

(** [frappe.db.get_creation_count("User", minutes)] *)
Definition get_creation_count (minutes : Z) (w : World) : Z :=
  Z.of_nat (List.length
    (filter (fun r => now w - minutes * 60 * 1000000 <=? creation r)%Z (tabUser w))).

(** ** The controller *)

Section Controller.

Context (site : Site).

(** *** Password policy *)

Record Feedback : Type := {
  warning : string;
  suggestions : list string;
  password_policy_validation_passed : bool
}.

(** What [test_password_strength] returns: [{}] when the policy is off,
    [None] when it falls off its end (no password), else the scored result. *)
Inductive StrengthResult : Type :=
| EmptyDict
| ReturnsNone
| Result (result_score : Z) (feedback : Feedback).

Definition user_data_of (u : User) : list string :=
  [first_name u; middle_name u; last_name u; email u; birth_date u].

Definition test_password_strength (new_password : string) (key old_password : option string)
    (user_data : option (list string)) : M World StrengthResult :=
  when (match key, old_password with None, None => false | _, _ => true end)
    (emit_w (DeprecationWarning
       "Arguments `key` and `old_password` are deprecated in function `test_password_strength`.")) ;;
  if negb (enable_password_policy site) then ret EmptyDict
  else
    w <- gets (fun w => w) ;;
    let user_data :=
      match user_data with
      | Some d => Some d
      | None => option_map user_data_of (lookup (session_user w) (tabUser w))
      end in
    if truthy new_password then
      let result := _test_password_strength site new_password user_data in
      let minimum_password_score := cint (minimum_password_score site) in
      (* score should be greater than 0 and minimum_password_score *)
      let passed := (nonzero (score result) && (minimum_password_score <=? score result)%Z)%bool in
      ret (Result (score result)
             {| warning := zx_warning result; suggestions := zx_suggestions result;
                password_policy_validation_passed := passed |})
    else ret ReturnsNone.

(** The message [handle_password_test_fail] raises with.  (Its backward
    compatibility branch looks for a key ["feedback"] inside the feedback,
    which the feedback built above never has.) *)
Definition password_test_fail_message (feedback : Feedback) : string :=
  join " " (warning feedback :: suggestions feedback).

Definition handle_password_test_fail {S A : Type} (feedback : Feedback) : M S A :=
  throw (password_test_fail_message feedback).

(** [feedback = result.get("feedback", None)] and the test after it, shared
    by [User.password_strength_test] and [update_password]. *)
Definition check_feedback {S : Type} (result : StrengthResult) : M S unit :=
  match result with
  | EmptyDict => ret tt
  | ReturnsNone => raise (PythonError "AttributeError")
  | Result _ feedback =>
      if negb (password_policy_validation_passed feedback)
      then handle_password_test_fail feedback
      else ret tt
  end.

Definition password_strength_test : M Ctx unit :=
  u <- gets self ;;
  if ignore_password_policy (flags u) then ret tt
  else if truthy_opt (__new_password u) then
    result <- on_world (test_password_strength (or_empty (__new_password u)) None None
                          (Some (user_data_of u))) ;;
    check_feedback result
  else ret tt.

(** *** Steps of the pipeline *)

(** [validate_email_address(email.strip(), True)] raises
    [InvalidEmailAddressError], a [ValidationError], on a malformed address. *)
Definition validate_email_type {S : Type} (email : string) : M S unit :=
  if validate_email_address site (strip email) then ret tt
  else raise (ValidationError (strip email ++ " is not a valid Email Address")).

Definition move_role_profile_name_to_role_profiles : M Ctx unit :=
  u <- gets self ;;
  if negb (truthy (role_profile_name u)) then ret tt
  else
    let current_role_profiles := map role_profile (role_profiles u) in
    if mem_str (role_profile_name u) current_role_profiles
    then assign (with_role_profile_name "")
    else
      emit (DeprecationWarning
        "The field `role_profile_name` is deprecated and will be removed in v16, use `role_profiles` child table instead.") ;;
      assign (fun u => with_role_profiles
                (role_profiles u ++ [{| role_profile := role_profile_name u |}])%list u) ;;
      assign (with_role_profile_name "").

(** [s.add(x)] and [s.update(xs)] on a set of role names *)
Definition set_add (s : list (option string)) (x : option string) : list (option string) :=
  if mem_opt x s then s else (s ++ [x])%list.

Definition set_update (s xs : list (option string)) : list (option string) :=
  fold_left set_add xs s.

(** The loop of [populate_role_profile_roles]; [frappe.get_cached_doc]
    raises when the profile does not exist. *)
Fixpoint profile_roles {S : Type} (profiles : list UserRoleProfile)
    (new_roles : list (option string)) : M S (list (option string)) :=
  match profiles with
  | [] => ret new_roles
  | rp :: rest =>
      match role_profile_doc site (role_profile rp) with
      | None => raise (DoesNotExistError "Role Profile" (role_profile rp))
      | Some rows => profile_roles rest (set_update new_roles (map role rows))
      end
  end.

(** [current_roles] is read once, before the loop. *)
Definition append_roles (new : list (option string)) : M Ctx unit :=
  u <- gets self ;;
  let current_roles := map role (roles u) in
  let missing := filter (fun r => negb (mem_opt r current_roles)) new in
  assign (fun u => with_roles (roles u ++ map (fun r => {| role := r |}) missing)%list u).

Definition populate_role_profile_roles : M Ctx unit :=
  u <- gets self ;;
  match role_profiles u with
  | [] => ret tt
  | _ :: _ =>
      if mem_str (name u) STANDARD_USERS then assign (with_role_profiles [])
      else
        new_roles <- profile_roles (role_profiles u) [] ;;
        (* Remove invalid roles and add new ones *)
        assign (fun u => with_roles (filter (fun r => mem_opt (role r) new_roles) (roles u)) u) ;;
        append_roles new_roles
  end.

Definition is_new (u : User) : bool := islocal (flags u).

Definition check_roles_added : M Ctx unit :=
  u <- gets self ;;
  if (negb (user_type u =? "System User")
      || match roles u with [] => false | _ :: _ => true end
      || negb (is_new u))%bool
  then ret tt
  else emit (Msgprint ("Newly created user <b>" ++ name u ++ "</b> has no roles enabled.")).

(** Return true if any of the set roles has desk access: the count of the
    [Role] rows with [desk_access = 1] whose name is one of the user's roles. *)
Definition has_desk_access (u : User) : bool :=
  match roles u with
  | [] => false
  | _ :: _ =>
      negb (List.length
              (filter (fun r => ((desk_access r =? 1)%Z
                                 && mem_opt (Some (role_name r)) (map role (roles u)))%bool)
                      (tabRole site)) =? 0)%nat
  end.

Definition set_roles_and_modules_based_on_user_type : M Ctx unit :=
  u <- gets self ;;
  match user_type_doc site (user_type u) with
  | None => raise (DoesNotExistError "User Type" (user_type u))
  | Some user_type_doc =>
      when (truthy (user_type_role user_type_doc))
        (assign (with_roles []) ;;
         (* Check whether User has linked with the 'Apply User Permission On' doctype or not *)
         when (user_linked_with_permission_on_doctype user_type_doc (name u))
           (assign (fun u => with_roles
                      (roles u ++ [{| role := Some (user_type_role user_type_doc) |}])%list u) ;;
            emit (Msgprint ("Role has been set as per the user type " ++ user_type u)))) ;;
      assign (fun u => with_block_modules (update_modules_in_user user_type_doc u) u)
  end.

Definition user_type_mapper (user : string) : option string :=
  if user =? "Administrator" then Some "System User"
  else if user =? "Guest" then Some "Website User"
  else None.

(** [frappe.get_cached_value("User Type", user_type, "is_standard")]:
    [None] when there is no such document. *)
Definition user_type_is_standard (user_type : string) : bool :=
  match user_type_doc site user_type with
  | Some d => nonzero (is_standard d)
  | None => false
  end.

(** For the standard users like admin and guest, the user type is fixed. *)
Definition set_system_user : M Ctx unit :=
  u <- gets self ;;
  if (truthy (user_type u) && negb (user_type_is_standard (user_type u)))%bool then
    match user_type_mapper (name u) with
    | Some fixed => assign (with_user_type fixed)
    | None => set_roles_and_modules_based_on_user_type
    end
  else
    (* Set as System User if any of the given roles has desk_access *)
    assign (fun u => with_user_type
              (if has_desk_access u then "System User" else "Website User") u).

Definition set_full_name : M Ctx unit :=
  assign (fun u => with_full_name (join " " (filter truthy [first_name u; last_name u])) u).

Definition disable_email_fields_if_user_disabled : M Ctx unit :=
  u <- gets self ;;
  when (negb (nonzero (enabled u)))
    (assign (with_thread_notify 0) ;;
     assign (with_send_me_a_copy 0) ;;
     assign (with_allowed_in_mentions 0)).

Definition check_enable_disable : M Ctx unit :=
  u <- gets self ;;
  (* do not allow disabling administrator/guest *)
  (if (negb (nonzero (cint (enabled u))) && mem_str (name u) STANDARD_USERS)%bool
   then throw ("User " ++ name u ++ " cannot be disabled")
   else ret tt) ;;
  (* clear sessions if disabled *)
  when (negb (nonzero (cint (enabled u))) && login_manager site)%bool
    (emit (Logout (name u))) ;;
  (* toggle notifications based on the user's status *)
  emit (ToggleNotifications (name u) (cint (enabled u))) ;;
  disable_email_fields_if_user_disabled.

(** The loop of [ensure_unique_roles] over a copy of the table.  Child rows
    are compared by identity, so [self.roles.remove(d)] takes out the row
    [d] itself; [exists_] is the set [exists] of the source. *)
Fixpoint unique_roles (exists_ : list (option string)) (rows : list HasRole) : list HasRole :=
  match rows with
  | [] => []
  | d :: rest =>
      let kept := unique_roles (set_add exists_ (role d)) rest in
      if (negb (truthy_opt (role d)) || mem_opt (role d) exists_)%bool then kept else d :: kept
  end.

Definition ensure_unique_roles : M Ctx unit :=
  assign (fun u => with_roles (unique_roles [] (roles u)) u).

Fixpoint unique_role_profiles (seen : list string) (rows : list UserRoleProfile)
    : list UserRoleProfile :=
  match rows with
  | [] => []
  | rp :: rest =>
      let kept :=
        unique_role_profiles
          (if mem_str (role_profile rp) seen then seen else (seen ++ [role_profile rp])%list) rest in
      if mem_str (role_profile rp) seen then kept else rp :: kept
  end.

Definition ensure_unique_role_profiles : M Ctx unit :=
  assign (fun u => with_role_profiles (unique_role_profiles [] (role_profiles u)) u).

Definition remove_all_roles_for_guest : M Ctx unit :=
  u <- gets self ;;
  when (name u =? "Guest")
    (assign (fun u => with_roles (filter (fun d => eqb_opt (role d) (Some "Guest")) (roles u)) u)).

(** [frappe.db.get_value("User", {"username": username or self.username,
    "name": ("!=", self.name)})]: the name of a matching row, or [None]. *)
Definition username_exists (username_arg : string) (u : User) (w : World) : option string :=
  let wanted := if truthy username_arg then username_arg else username u in
  option_map name
    (find (fun r => ((username r =? wanted) && negb (name r =? name u))%bool) (tabUser w)).

Definition username_taken (username_arg : string) (u : User) (w : World) : bool :=
  truthy_opt (username_exists username_arg u w).

Definition _check_suggestion (u : User) (w : World) (suggestion : string) : option string :=
  if (negb (username u =? suggestion) && negb (username_taken suggestion u w))%bool
  then Some suggestion
  else None.

Definition suggest_username : M Ctx (option string) :=
  u <- gets self ;;
  w <- gets world ;;
  (* @firstname *)
  let username := _check_suggestion u w (scrub site (first_name u)) in
  let username :=
    if negb (truthy_opt username)
    then (* @firstname_last_name *)
      _check_suggestion u w (scrub site (first_name u ++ " " ++ last_name u))
    else username in
  when (truthy_opt username) (emit (Msgprint ("Suggested Username: " ++ or_empty username))) ;;
  ret username.

Definition strip_space_at (s : string) : string :=
  strip_chars (fun c => (Ascii.eqb c " " || Ascii.eqb c "@")%bool) s.

Definition validate_username : M Ctx unit :=
  u <- gets self ;;
  when (negb (truthy (username u)) && is_new u && truthy (first_name u))%bool
    (assign (with_username (scrub site (first_name u)))) ;;
  u <- gets self ;;
  if negb (truthy (username u)) then ret tt
  else
    (* strip space and @ *)
    assign (with_username (strip_space_at (username u))) ;;
    u <- gets self ;;
    w <- gets world ;;
    when (username_taken "" u w)
      (when (user_type u =? "System User")
         (emit (Msgprint ("Username " ++ username u ++ " already exists")) ;;
          suggest_username ;;
          ret tt) ;;
       assign (with_username "")).

Definition disabled_roles : list string :=
  map role_name (filter (fun r => (disabled r =? 1)%Z) (tabRole site)).

Definition is_disabled_role (r : option string) : bool :=
  match r with
  | Some s => mem_str s disabled_roles
  | None => false
  end.

Definition remove_disabled_roles : M Ctx unit :=
  assign (fun u => with_roles (filter (fun r => negb (is_disabled_role (role r))) (roles u)) u).

(** check if same email account added in User Emails twice *)
Definition validate_user_email_inbox : M Ctx unit :=
  u <- gets self ;;
  let email_accounts := map email_account (user_emails u) in
  if negb (List.length email_accounts =? List.length (nodup string_dec email_accounts))%nat
  then throw "Email Account added multiple times"
  else ret tt.

(** Updates the system default that lists the users awaiting a password;
    the list is kept by the defaults collaborator. *)
Definition ask_pass_update : M World unit := emit_w AskPassUpdate.

Definition validate_allowed_modules : M Ctx unit :=
  u <- gets self ;;
  if truthy (module_profile u) then
    match module_profile_doc site (module_profile u) with
    | None => raise (DoesNotExistError "Module Profile" (module_profile u))
    | Some rows =>
        assign (with_block_modules []) ;;
        assign (fun u => with_block_modules
                  (block_modules u ++ map (fun d => {| module := module d |}) rows)%list u)
    end
  else ret tt.

Definition validate_user_image : M Ctx unit :=
  u <- gets self ;;
  if (truthy (user_image u) && (2000 <? len (user_image u))%Z)%bool
  then throw "Not a valid User Image."
  else ret tt.

Definition set_time_zone : M Ctx unit :=
  u <- gets self ;;
  when (negb (truthy (time_zone u))) (assign (with_time_zone (get_system_timezone site))).

Definition get_social_login_userid (provider_name : string) (u : User) : option string :=
  option_map userid (find (fun p => provider p =? provider_name) (social_logins u)).

Definition set_social_login_userid (provider_name user_id : string) : M Ctx unit :=
  assign (fun u => with_social_logins
            (social_logins u ++ [{| provider := provider_name; userid := user_id |}])%list u).

(** *** The pipeline *)

(** The first two statements of [validate]: "clear new password". *)
Definition clear_new_password : M Ctx unit :=
  assign (fun u => with___new_password (new_password u) u) ;;
  assign (with_new_password (Some "")).

Definition validate : M Ctx unit :=
  clear_new_password ;;
  when (negb (in_test site)) (call "password_strength_test" password_strength_test) ;;
  u <- gets self ;;
  when (negb (mem_str (name u) STANDARD_USERS))
    (assign (with_email (name u)) ;;
     call "validate_email_type" (validate_email_type (name u))) ;;
  call "move_role_profile_name_to_role_profiles" move_role_profile_name_to_role_profiles ;;
  call "populate_role_profile_roles" populate_role_profile_roles ;;
  call "check_roles_added" check_roles_added ;;
  call "set_system_user" set_system_user ;;
  call "set_full_name" set_full_name ;;
  call "check_enable_disable" check_enable_disable ;;
  call "ensure_unique_roles" ensure_unique_roles ;;
  call "ensure_unique_role_profiles" ensure_unique_role_profiles ;;
  call "remove_all_roles_for_guest" remove_all_roles_for_guest ;;
  call "validate_username" validate_username ;;
  call "remove_disabled_roles" remove_disabled_roles ;;
  call "validate_user_email_inbox" validate_user_email_inbox ;;
  u <- gets self ;;
  when (match user_emails u with [] => false | _ :: _ => true end)
    (call "ask_pass_update" (on_world ask_pass_update)) ;;
  call "validate_allowed_modules" validate_allowed_modules ;;
  call "validate_user_image" validate_user_image ;;
  call "set_time_zone" set_time_zone ;;
  u <- gets self ;;
  when (language u =? "Loading...") (assign (with_language "")) ;;
  u <- gets self ;;
  when (negb (mem_str (name u) ["Administrator"; "Guest"])
        && negb (truthy_opt (get_social_login_userid "frappe" u)))%bool
    (h <- on_world (draw_hash site) ;;
     call "set_social_login_userid" (set_social_login_userid "frappe" h)).

(** *** Passwords, reset tokens and mail *)

(** Modelled from the spec: [frappe.utils.password.update_password], the
    password-utility collaborator.  It stores the credential of [user] and,
    when asked, ends the user's other sessions.  The store keeps the
    password itself where the collaborator keeps its hash. *)
Definition _update_password (user pwd : string) (logout_all_sessions : Z) : M World unit :=
  modify (fun w => with_auth
            ((user, pwd) :: filter (fun e => negb (fst e =? user)) (auth w)) w) ;;
  when (nonzero logout_all_sessions) (emit_w (ClearSessions user)).

(** Modelled from the spec: [check_password] of the login manager. "Verify
    it against the current stored hash via the collaborator; fail
    [AuthenticationError] on mismatch." *)
Definition check_password (user pwd : string) : M World unit :=
  w <- gets (fun w => w) ;;
  match find (fun e => fst e =? user) (auth w) with
  | Some (_, stored) => if stored =? pwd then ret tt else raise AuthenticationError
  | None => raise AuthenticationError
  end.

(** [frappe.sendmail]: the dispatch is recorded, then ends as the site's
    mail transport decides. *)
Definition frappe_sendmail (recipient template link : string) : M World unit :=
  n <- gets mails_sent ;;
  modify (with_mails_sent (S n)) ;;
  emit_w (SendMail recipient template link) ;;
  match sendmail site n with
  | None => ret tt
  | Some e => raise e
  end.

(** send mail with login details *)
Definition send_login_mail (template link : string) : M Ctx unit :=
  u <- gets self ;;
  on_world (frappe_sendmail (email u) template link).

Definition password_reset_mail (link : string) : M Ctx unit :=
  send_login_mail "password_reset" link.

(** [User.reset_password]: issues a reset token and returns the link that
    carries the raw key; only the hash of the key is stored. *)
Definition User_reset_password (send_email password_expired : bool) : M Ctx string :=
  key <- on_world (draw_hash site) ;;
  let hashed_key := sha256_hash site key in
  db_set (with_reset_password_key hashed_key) ;;
  w <- gets world ;;
  db_set (with_last_reset_password_key_generated_on (Some (now w))) ;;
  let url := "/update-password?key=" ++ key in
  let url := if password_expired
             then "/update-password?key=" ++ key ++ "&password_expired=true"
             else url in
  let link := get_url site url in
  when send_email (password_reset_mail link) ;;
  ret link.

Definition send_welcome_mail_to_user : M Ctx unit :=
  link <- User_reset_password false false ;;
  send_login_mail "new_user" link.

Definition email_new_password (new_password : option string) : M Ctx unit :=
  u <- gets self ;;
  when (truthy_opt new_password && negb (in_insert (flags u)))%bool
    (on_world (_update_password (name u) (or_empty new_password) (logout_all_sessions u))).

Definition send_password_notification (new_password : option string) : M Ctx unit :=
  try_except
    (u <- gets self ;;
     if in_insert (flags u) then
       when (negb (mem_str (name u) STANDARD_USERS))
         (when (truthy_opt new_password)
            (* new password given, no email required *)
            (on_world (_update_password (name u) (or_empty new_password)
                         (logout_all_sessions u))) ;;
          when (negb (no_welcome_mail (flags u))
                && nonzero (cint (send_welcome_email u))
                && negb (email_sent (flags u)))%bool
            (send_welcome_mail_to_user ;;
             assign_flag (with_email_sent true) ;;
             w <- gets world ;;
             when (negb (session_user w =? "Guest")) (emit (Msgprint "Welcome email sent"))))
     else email_new_password new_password)
    (fun e =>
       match e with
       | OutgoingEmailError =>
           Some (emit ClearLastMessage ;;
                 emit (Msgprint
                   "Please setup default outgoing Email Account from Settings > Email Account") ;;
                 (* email server not set, don't send email *)
                 emit (LogError "Unable to send new password notification"))
       | _ => None
       end).

(** *** Lifecycle hooks *)

(** set name as Email Address *)
Definition autoname : M Ctx unit :=
  u <- gets self ;;
  if (is_admin u || is_guest u)%bool then assign (with_name (first_name u))
  else
    assign (with_email (lower (strip (email u)))) ;;
    assign (fun u => with_name (email u) u).

Definition throttle_user_creation : M World unit :=
  if in_import site then ret tt
  else
    w <- gets (fun w => w) ;;
    if (throttle_user_limit site <? get_creation_count 60 w)%Z then throw "Throttled"
    else ret tt.

Definition before_insert : M Ctx unit :=
  assign_flag (with_in_insert true) ;;
  on_world throttle_user_creation.

Definition after_insert : M Ctx unit :=
  u <- gets self ;;
  emit (CreateNotificationSettings (name u)) ;;
  emit (CacheDeleteKey "users_for_mentions") ;;
  emit (CacheDeleteKey "enabled_users").

(** [self.has_value_changed(field)], against the row as it was before this
    save ([before]); always true when there was none. *)
Definition has_value_changed {A : Type} (eqb : A -> A -> bool) (field : User -> A)
    (before : option User) (u : User) : bool :=
  match before with
  | None => true
  | Some previous => negb (eqb (field previous) (field u))
  end.

(** The calls that go to collaborators (sharing, notifications, caches, the
    job queue, defaults) are recorded as events. *)
Definition on_update (before : option User) : M Ctx unit :=
  u <- gets self ;;
  when (negb (mem_str (name u) STANDARD_USERS)) (emit (ShareWithSelf (name u))) ;;
  emit (ClearNotifications (name u)) ;;
  emit (ClearCache (name u)) ;;
  send_password_notification (__new_password u) ;;
  u <- gets self ;;
  emit (Enqueue "frappe.core.doctype.user.user.create_contact" (name u)) ;;
  when (negb (mem_str (name u) STANDARD_USERS) && negb (truthy (user_image u)))%bool
    (emit (Enqueue "frappe.core.doctype.user.user.update_gravatar" (name u))) ;;
  (* Set user selected timezone *)
  when (truthy (time_zone u)) (emit (SetDefault "time_zone" (time_zone u) (name u))) ;;
  when (has_value_changed String.eqb language before u)
    (emit (LocaleDefaults (name u) (language u))) ;;
  if has_value_changed Z.eqb enabled before u then
    emit (CacheDeleteKey "users_for_mentions") ;;
    emit (CacheDeleteKey "enabled_users")
  else
    (* the first test reads "allow_in_mentions", which is not a field: never changed *)
    when (has_value_changed String.eqb user_type before u)
      (emit (CacheDeleteKey "users_for_mentions")).

(** The records that reference the user in other tables (to-dos, events,
    shares, messages, contacts, permissions, OAuth data, filters, notes) are
    kept by the framework; their removal is recorded as one event. *)
Definition on_trash : M Ctx unit :=
  u <- gets self ;;
  emit (ClearCache (name u)) ;;
  (if mem_str (name u) STANDARD_USERS
   then throw ("User " ++ name u ++ " cannot be deleted")
   else ret tt) ;;
  (* disable the user and log him/her out *)
  assign (with_enabled 0) ;;
  when (login_manager site) (emit (Logout (name u))) ;;
  emit (Cascade (name u)).

Definition validate_rename (old_name new_name : string) : M Ctx unit :=
  u <- gets self ;;
  (* do not allow renaming administrator and guest *)
  (if mem_str old_name STANDARD_USERS
   then throw ("User " ++ name u ++ " cannot be renamed")
   else ret tt) ;;
  validate_email_type new_name.

Definition before_rename (old_name new_name : string) (merge : bool) : M Ctx unit :=
  (* if merging, delete the old user notification settings *)
  when merge (emit (DeleteDoc "Notification Settings" old_name)) ;;
  emit (ClearCache old_name) ;;
  validate_rename old_name new_name.

(** *** The persistence layer *)

Definition put_row (r : User) (rows : list User) : list User :=
  map (fun x => if name x =? name r then r else x) rows.

(** Modelled from the spec: [Document.insert] of the persistence layer,
    whose code is not part of this file.  "Created via sign-up or
    administrative creation, then validated and inserted"; "validation
    failures abort synchronously before any persistence".  It stamps the
    creation time, runs [before_insert], names the document, validates it,
    writes the row (a name already present is a [DuplicateEntryError]), then
    runs [after_insert] and [on_update] with [flags.in_insert] set. *)
Definition insert : M Ctx unit :=
  w <- gets world ;;
  assign (with_creation (now w)) ;;
  before_insert ;;
  autoname ;;
  assign_flag (with_in_insert true) ;;
  validate ;;
  assign_flag (with_in_insert false) ;;
  u <- gets self ;;
  w <- gets world ;;
  match lookup (name u) (tabUser w) with
  | Some _ => raise (DuplicateEntryError "User" (name u))
  | None =>
      on_world (modify (fun w => with_tabUser (tabUser w ++ [as_row u])%list w)) ;;
      after_insert ;;
      assign_flag (with_in_insert true) ;;
      on_update None ;;
      assign_flag (with_in_insert false) ;;
      assign_flag (with_islocal false)
  end.

(** Modelled from the spec: [Document.save] of the persistence layer.
    "Each update re-runs the same validation pipeline"; a document that is
    still local is inserted.  It validates, writes the row, then runs
    [on_update]. *)
Definition save : M Ctx unit :=
  u <- gets self ;;
  if (is_new u || negb (truthy (name u)))%bool then insert
  else
    w <- gets world ;;
    let before := lookup (name u) (tabUser w) in
    validate ;;
    u <- gets self ;;
    on_world (modify (fun w => with_tabUser (put_row (as_row u) (tabUser w)) w)) ;;
    on_update before.

(** Add roles to user and save *)
Definition add_roles (new : list (option string)) : M Ctx unit :=
  append_roles new ;;
  save.

(** Modelled from the spec: [frappe.delete_doc("User", user)].  "On delete
    request": the controller's [on_trash] runs first, then the row goes. *)
Definition delete_doc (user : string) : M World unit :=
  d <- get_doc user ;;
  on_doc d on_trash ;;
  modify (fun w => with_tabUser (filter (fun r => negb (name r =? user)) (tabUser w)) w).

(** Modelled from the spec: [frappe.rename_doc("User", old, new)].
    [before_rename] runs first; then the row takes the new name and, as
    [after_rename] does, the new name as its [email]. *)
Definition rename_doc (old_name new_name : string) (merge : bool) : M World unit :=
  d <- get_doc old_name ;;
  on_doc d (before_rename old_name new_name merge) ;;
  db_set_value old_name (fun r => with_email new_name (with_name new_name r)).

(** *** Public endpoints *)

(** [a or b] on strings *)
Definition por (a b : string) : string := if truthy a then a else b.

(** The [frappe._dict] that [_get_user_for_update_password] fills:
    [found] is its key ["user"], [message] its key ["message"]. *)
Record UserForUpdate : Type := { found : option string; message : option string }.

Definition reset_link_expired_message : string := "The reset password link has been expired".

Definition reset_link_invalid_message : string :=
  "The reset password link has either been used before or is invalid".

Definition _get_user_for_update_password (key old_password : option string)
    : M World UserForUpdate :=
  w <- gets (fun w => w) ;;
  if truthy_opt key then
    let hashed_key := sha256_hash site (or_empty key) in
    match find (fun r => reset_password_key r =? hashed_key) (tabUser w) with
    | Some r =>
        if truthy (name r) then
          let reset_password_link_expiry := cint (reset_password_link_expiry_duration site) in
          if nonzero reset_password_link_expiry then
            match last_reset_password_key_generated_on r with
            | Some generated_on =>
                match add_seconds generated_on reset_password_link_expiry with
                | Some ends =>
                    if (ends <? now w)%Z
                    then ret {| found := Some (name r);
                                message := Some reset_link_expired_message |}
                    else ret {| found := Some (name r); message := None |}
                | None => raise (PythonError "OverflowError")
                end
            | None => raise (PythonError "TypeError")
            end
          else ret {| found := Some (name r); message := None |}
        else ret {| found := None; message := Some reset_link_invalid_message |}
    | None => ret {| found := None; message := Some reset_link_invalid_message |}
    end
  else if truthy_opt old_password then
    (* verify old password *)
    check_password (session_user w) (or_empty old_password) ;;
    ret {| found := Some (session_user w); message := None |}
  else ret {| found := None; message := None |}.

Definition reset_user_data (user : string) : M World (User * string) :=
  user_doc <- get_doc user ;;
  let redirect := redirect_url user_doc in
  let user_doc := with_reset_password_key "" user_doc in
  let user_doc := with_redirect_url "" user_doc in
  saved <- on_doc user_doc save ;;
  ret (fst saved, redirect).

(** [today()], as a day number *)
Definition today (w : World) : Z := now w / 86400000000.

Definition hget (key : string) (cache : list (string * string)) : option string :=
  option_map snd (find (fun e => fst e =? key) cache).

Definition hdel (key : string) (cache : list (string * string)) : list (string * string) :=
  filter (fun e => negb (fst e =? key)) cache.

Definition hset (key value : string) (cache : list (string * string))
    : list (string * string) :=
  (key, value) :: hdel key cache.

(** Update password for the current user.  The result is the landing path,
    or the message of a rejected reset link (sent with status 410). *)
Definition update_password (new_password : string) (logout_all_sessions : Z)
    (key old_password : option string) : M World string :=
  (if (MAX_PASSWORD_SIZE site <? len new_password)%Z
   then throw "Password size exceeded the maximum allowed size."
   else ret tt) ;;
  result <- test_password_strength new_password None None None ;;
  check_feedback result ;;
  res <- _get_user_for_update_password key old_password ;;
  if truthy_opt (message res) then
    modify (with_http_status_code (Some 410)) ;;
    ret (or_empty (message res))
  else
    match found res with
    | None => raise (PythonError "KeyError")
    | Some user =>
        let logout_all_sessions :=
          if nonzero (cint logout_all_sessions) then cint logout_all_sessions
          else logout_on_password_reset site in
        _update_password user new_password (cint logout_all_sessions) ;;
        data <- reset_user_data user ;;
        let user_doc := fst data in
        let redirect := snd data in
        (* get redirect url from cache *)
        w <- gets (fun w => w) ;;
        let redirect_to := hget user (redirect_after_login w) in
        when (truthy_opt redirect_to)
          (modify (fun w => with_redirect_after_login (hdel user (redirect_after_login w)) w)) ;;
        let redirect := if truthy_opt redirect_to then or_empty redirect_to else redirect in
        emit_w (LoginAs user) ;;
        modify (with_session_user user) ;;
        w <- gets (fun w => w) ;;
        db_set_value user (with_last_password_reset_date (Some (today w))) ;;
        db_set_value user (with_reset_password_key "") ;;
        if user_type user_doc =? "System User"
        then ret (por (get_default_path site) "/app")
        else ret (por redirect (por (get_default_path site) (get_home_page site)))
    end.

Definition sign_up_thanks : string := "Please check your email for verification".

Definition sign_up (email_arg first_name_arg last_name_arg redirect_to : string)
    (university_arg major_arg : string) : M World (Z * string) :=
  (if is_signup_disabled site then throw "Sign Up is disabled" else ret tt) ;;
  w <- gets (fun w => w) ;;
  match find (fun r => email r =? email_arg) (tabUser w) with
  | Some user =>
      if nonzero (enabled user) then ret (0, "Already Registered")
      else ret (0, "Registered but disabled")
  | None =>
      when (300 <? get_creation_count 60 w)%Z
        (emit_w (RespondAsWebPage "Temporarily Disabled" 429)) ;;
      pwd <- draw_hash site ;;
      let user :=
        {| name := ""; email := email_arg; first_name := escape_html site first_name_arg;
           middle_name := ""; last_name := escape_html site last_name_arg; full_name := "";
           username := ""; birth_date := ""; new_password := Some pwd; enabled := 1;
           user_type := "Website User"; role_profile_name := ""; role_profiles := [];
           roles := []; module_profile := ""; block_modules := []; user_emails := [];
           user_image := ""; time_zone := ""; language := ""; social_logins := [];
           thread_notify := 0; send_me_a_copy := 0; allowed_in_mentions := 0;
           send_welcome_email := 1; logout_all_sessions := 0; reset_password_key := "";
           last_reset_password_key_generated_on := None; last_password_reset_date := None;
           redirect_url := ""; university := university_arg; major := major_arg;
           creation := 0; is_admin := false; is_guest := false; __new_password := None;
           flags := with_in_insert true
                      (with_ignore_password_policy true (with_islocal true no_flags)) |} in
      (* Insert the user *)
      inserted <- on_doc user insert ;;
      let user := fst inserted in
      (* Set any additional fields without triggering timestamp updates *)
      when (truthy university_arg) (db_set_value (name user) (with_university university_arg)) ;;
      when (truthy major_arg) (db_set_value (name user) (with_major major_arg)) ;;
      (* set default signup role as per Portal Settings *)
      user <- (if truthy (default_role site)
               then saved <- on_doc user (add_roles [Some (default_role site)]) ;;
                    ret (fst saved)
               else ret user) ;;
      (* Handle redirect *)
      when (truthy redirect_to)
        (modify (fun w => with_redirect_after_login
                   (hset (name user) redirect_to (redirect_after_login w)) w)) ;;
      (* Send welcome email *)
      try_except
        (on_doc user send_welcome_mail_to_user ;;
         ret (1, sign_up_thanks))
        (fun e =>
           Some (emit_w (LogError ("Failed to send welcome email to " ++ email_arg)) ;;
                 (* Still return success *)
                 ret (1, sign_up_thanks)))
  end.

(** The endpoint [reset_password(user)]; [None] is the value of
    [frappe.msgprint]. *)
Definition reset_password (user : string) : M World (option string) :=
  try_except
    (d <- get_doc user ;;
     if name d =? "Administrator" then ret (Some "not allowed")
     else if negb (nonzero (enabled d)) then ret (Some "disabled")
     else
       on_doc d (User_reset_password true false) ;;
       emit_w (Msgprint ("Password reset instructions have been sent to "
                         ++ full_name d ++ "'s email")) ;;
       ret None)
    (fun e =>
       match e with
       | DoesNotExistError _ _ =>
           Some (modify (with_http_status_code (Some 404)) ;;
                 emit_w ClearMessages ;;
                 ret (Some "not found"))
       | _ => None
       end).

End Controller.

(** * Reasoning about the monad *)

(** [wp m Q E s]: run from [s], [m] ends in a state in [Q] when it returns
    and in a state in [E] when it raises.  [triple P m Q E] says so of every
    state in [P]. *)
Definition wp {S A : Type} (m : M S A) (Q : A -> S -> Prop) (E : Exn -> S -> Prop)
    (s : S) : Prop :=
  match m s with
  | (s', inr a) => Q a s'
  | (s', inl e) => E e s'
  end.

Definition triple {S A : Type} (P : S -> Prop) (m : M S A)
    (Q : A -> S -> Prop) (E : Exn -> S -> Prop) : Prop :=
  forall s, P s -> wp m Q E s.

(** [stable I m]: [m] keeps [I], whether it returns or raises. *)
Definition stable {S A : Type} (I : S -> Prop) (m : M S A) : Prop :=
  triple I m (fun _ => I) (fun _ => I).

(** [returns m s]: [m] does not raise from [s]. *)
Definition returns {S A : Type} (m : M S A) (s : S) : Prop :=
  exists a, snd (m s) = inr a.

Definition raises {S A : Type} (m : M S A) (s : S) : Prop :=
  exists e, snd (m s) = inl e.

Section Rules.

Context {S : Type}.

Lemma triple_ret {A} (P : S -> Prop) (a : A) (Q : A -> S -> Prop) E :
  (forall s, P s -> Q a s) -> triple P (ret a) Q E.
Proof. intros H s Hs. unfold wp. simpl. auto. Qed.

Lemma triple_raise {A} (P : S -> Prop) (e : Exn) (Q : A -> S -> Prop) (E : Exn -> S -> Prop) :
  (forall s, P s -> E e s) -> triple P (raise e) Q E.
Proof. intros H s Hs. unfold wp. simpl. auto. Qed.

Lemma triple_gets {A} (P : S -> Prop) (f : S -> A) (Q : A -> S -> Prop) E :
  (forall s, P s -> Q (f s) s) -> triple P (gets f) Q E.
Proof. intros H s Hs. unfold wp. simpl. auto. Qed.

Lemma triple_modify (P : S -> Prop) (f : S -> S) (Q : unit -> S -> Prop) E :
  (forall s, P s -> Q tt (f s)) -> triple P (modify f) Q E.
Proof. intros H s Hs. unfold wp. simpl. auto. Qed.

Lemma triple_bind {A B} (P : S -> Prop) (m : M S A) (f : A -> M S B)
    (R : A -> S -> Prop) (Q : B -> S -> Prop) E :
  triple P m R E -> (forall a, triple (R a) (f a) Q E) -> triple P (bind m f) Q E.
Proof.
  intros Hm Hf s Hs. specialize (Hm s Hs). unfold wp, bind in *.
  destruct (m s) as [s' [e | a]]; [exact Hm | exact (Hf a s' Hm)].
Qed.

Lemma triple_conseq {A} (P P' : S -> Prop) (m : M S A) (Q Q' : A -> S -> Prop)
    (E E' : Exn -> S -> Prop) :
  triple P' m Q' E' ->
  (forall s, P s -> P' s) -> (forall a s, Q' a s -> Q a s) -> (forall e s, E' e s -> E e s) ->
  triple P m Q E.
Proof.
  intros H HP HQ HE s Hs. specialize (H s (HP s Hs)). unfold wp in *.
  destruct (m s) as [s' [e | a]]; auto.
Qed.

Lemma triple_pure {A} (P : S -> Prop) (F : Prop) (m : M S A) Q E :
  (F -> triple P m Q E) -> triple (fun s => F /\ P s) m Q E.
Proof. intros H s [HF Hs]. exact (H HF s Hs). Qed.

Lemma triple_and {A} (P : S -> Prop) (m : M S A) (Q1 Q2 : A -> S -> Prop)
    (E1 E2 : Exn -> S -> Prop) :
  triple P m Q1 E1 -> triple P m Q2 E2 ->
  triple P m (fun a s => Q1 a s /\ Q2 a s) (fun e s => E1 e s /\ E2 e s).
Proof.
  intros H1 H2 s Hs. specialize (H1 s Hs). specialize (H2 s Hs). unfold wp in *.
  destruct (m s) as [s' [e | a]]; auto.
Qed.

Lemma triple_false {A} (m : M S A) Q E : triple (fun _ => False) m Q E.
Proof. intros s []. Qed.

Lemma triple_when (P : S -> Prop) (b : bool) (m : M S unit) Q E :
  (b = true -> triple P m Q E) -> (b = false -> forall s, P s -> Q tt s) ->
  triple P (when b m) Q E.
Proof.
  intros Ht Hf. destruct b; simpl.
  - auto.
  - apply triple_ret. auto.
Qed.

Lemma triple_try_except {A} (P : S -> Prop) (m : M S A) (h : Exn -> option (M S A))
    (Q : A -> S -> Prop) (E Em : Exn -> S -> Prop) :
  triple P m Q Em ->
  (forall e, match h e with
             | Some handler => triple (Em e) handler Q E
             | None => forall s, Em e s -> E e s
             end) ->
  triple P (try_except m h) Q E.
Proof.
  intros Hm Hh s Hs. specialize (Hm s Hs). unfold wp, try_except in *.
  destruct (m s) as [s' [e | a]]; [ | exact Hm ].
  specialize (Hh e). destruct (h e) as [handler | ]; [exact (Hh s' Hm) | exact (Hh s' Hm)].
Qed.

(** Stability *)

Lemma stable_ret {A} (I : S -> Prop) (a : A) : stable I (ret a).
Proof. apply triple_ret. auto. Qed.

Lemma stable_raise {A} (I : S -> Prop) (e : Exn) : stable I (@raise S A e).
Proof. apply triple_raise. auto. Qed.

Lemma stable_throw {A} (I : S -> Prop) (msg : string) : stable I (@throw S A msg).
Proof. apply stable_raise. Qed.

Lemma stable_gets {A} (I : S -> Prop) (f : S -> A) : stable I (gets f).
Proof. apply triple_gets. auto. Qed.

Lemma stable_modify (I : S -> Prop) (f : S -> S) :
  (forall s, I s -> I (f s)) -> stable I (modify f).
Proof. intro H. apply triple_modify. exact H. Qed.

Lemma stable_bind {A B} (I : S -> Prop) (m : M S A) (f : A -> M S B) :
  stable I m -> (forall a, stable I (f a)) -> stable I (bind m f).
Proof. intros Hm Hf. eapply triple_bind; [exact Hm | exact Hf]. Qed.

Lemma stable_when (I : S -> Prop) (b : bool) (m : M S unit) :
  stable I m -> stable I (when b m).
Proof. intro H. destruct b; simpl; [exact H | apply stable_ret]. Qed.

Lemma stable_try_except {A} (I : S -> Prop) (m : M S A) (h : Exn -> option (M S A)) :
  stable I m -> (forall e handler, h e = Some handler -> stable I handler) ->
  stable I (try_except m h).
Proof.
  intros Hm Hh. eapply triple_try_except; [exact Hm | ].
  intro e. destruct (h e) as [handler | ] eqn:He; [exact (Hh e handler He) | auto].
Qed.

Lemma stable_is_triple {A} (I : S -> Prop) (m : M S A) :
  stable I m -> triple I m (fun _ => I) (fun _ => I).
Proof. exact (fun H => H). Qed.

Lemma triple_bind_gets {A B} (P : S -> Prop) (g : S -> A) (k : A -> M S B) Q E :
  (forall s0, triple (fun s => s = s0 /\ P s) (k (g s0)) Q E) ->
  triple P (bind (gets g) k) Q E.
Proof. intros H s1 Hs. exact (H s1 s1 (conj eq_refl Hs)). Qed.

Lemma triple_seq {A B} (P : S -> Prop) (m : M S A) (k : M S B)
    (R : S -> Prop) (Q : B -> S -> Prop) E :
  triple P m (fun _ => R) E -> triple R k Q E -> triple P (bind m (fun _ => k)) Q E.
Proof. intros Hm Hk. apply triple_bind with (R := fun _ => R); [exact Hm | intros a; exact Hk]. Qed.

Lemma triple_run {A} (P : S -> Prop) (m : M S A) Q E (s : S) :
  triple P m Q E -> P s ->
  (exists s' a, m s = (s', inr a) /\ Q a s') \/ (exists s' e, m s = (s', inl e) /\ E e s').
Proof.
  intros H Hs. specialize (H s Hs). unfold wp in H.
  destruct (m s) as [s' [e | a]]; [right | left]; eauto.
Qed.

Lemma stable_fst {A} (I : S -> Prop) (m : M S A) :
  stable I m -> forall s, I s -> I (fst (m s)).
Proof.
  intros H s Hs. specialize (H s Hs). unfold wp in H.
  destruct (m s) as [s' [e | a]]; exact H.
Qed.

Lemma returns_bind {A B} (m : M S A) (f : A -> M S B) (s : S) :
  returns (bind m f) s -> returns m s.
Proof.
  unfold returns, bind. intros [b Hb].
  destruct (m s) as [s' [e | a]]; simpl in *; [discriminate | eauto].
Qed.

Lemma bind_raises {A B} (m : M S A) (f : A -> M S B) (s s' : S) (e : Exn) :
  m s = (s', inl e) -> bind m f s = (s', inl e).
Proof. intro H. unfold bind. rewrite H. reflexivity. Qed.

Lemma bind_returns {A B} (m : M S A) (f : A -> M S B) (s s' : S) (a : A) :
  m s = (s', inr a) -> bind m f s = f a s'.
Proof. intro H. unfold bind. rewrite H. reflexivity. Qed.

End Rules.

(** Methods inside out: [on_world], [emit], [assign], [call], [on_doc]. *)

Lemma triple_on_world {A} (P : Ctx -> Prop) (m : M World A) (Q : A -> Ctx -> Prop) E :
  (forall c, P c ->
     triple (fun w => w = world c) m
       (fun a w => Q a (with_world w c)) (fun e w => E e (with_world w c))) ->
  triple P (on_world m) Q E.
Proof.
  intros H c Hc. specialize (H c Hc (world c) eq_refl). unfold wp, on_world in *.
  destruct (m (world c)) as [w [e | a]]; exact H.
Qed.

Lemma stable_on_world {A} (I : Ctx -> Prop) (J : World -> Prop) (m : M World A) :
  stable J m ->
  (forall c, I c -> J (world c)) ->
  (forall c w, I c -> J w -> I (with_world w c)) ->
  stable I (on_world m).
Proof.
  intros Hm HIJ HJI. apply triple_on_world. intros c Hc w Hw. subst w.
  specialize (Hm (world c) (HIJ c Hc)). unfold wp in *.
  destruct (m (world c)) as [w [e | a]]; apply HJI; auto.
Qed.

Lemma stable_assign (I : Ctx -> Prop) (f : User -> User) :
  (forall c, I c -> I (with_self (f (self c)) c)) -> stable I (assign f).
Proof. intro H. apply stable_modify. exact H. Qed.

Lemma stable_emit_w (J : World -> Prop) (e : Event) :
  (forall w, J w -> J (with_log (log w ++ [e])%list w)) -> stable J (emit_w e).
Proof. intro H. apply stable_modify. exact H. Qed.

Lemma stable_emit (I : Ctx -> Prop) (e : Event) :
  (forall c, I c -> I (with_world (with_log (log (world c) ++ [e])%list (world c)) c)) ->
  stable I (emit e).
Proof. intros H c Hc. unfold wp. simpl. apply H. exact Hc. Qed.

Lemma stable_call {A} (I : Ctx -> Prop) (method : string) (m : M Ctx A) :
  (forall c, I c -> I (with_calls (calls c ++ [method])%list c)) ->
  stable I m -> stable I (call method m).
Proof.
  intros Hc Hm. unfold call. apply stable_bind; [ | intros _; exact Hm].
  apply stable_modify. exact Hc.
Qed.

(** Running a computation on a known state *)

Section Running.

Context {S : Type}.

Lemma wp_ret {A} (a : A) (Q : A -> S -> Prop) E s : Q a s -> wp (ret a) Q E s.
Proof. exact (fun H => H). Qed.

Lemma wp_raise {A} (e : Exn) (Q : A -> S -> Prop) (E : Exn -> S -> Prop) s :
  E e s -> wp (raise e) Q E s.
Proof. exact (fun H => H). Qed.

Lemma wp_throw {A} (msg : string) (Q : A -> S -> Prop) (E : Exn -> S -> Prop) s :
  E (ValidationError msg) s -> wp (throw msg) Q E s.
Proof. exact (fun H => H). Qed.

Lemma wp_gets {A} (f : S -> A) (Q : A -> S -> Prop) E s : Q (f s) s -> wp (gets f) Q E s.
Proof. exact (fun H => H). Qed.

Lemma wp_modify (f : S -> S) (Q : unit -> S -> Prop) E s : Q tt (f s) -> wp (modify f) Q E s.
Proof. exact (fun H => H). Qed.

Lemma wp_bind {A B} (m : M S A) (f : A -> M S B) (Q : B -> S -> Prop) E s :
  wp m (fun a s' => wp (f a) Q E s') E s -> wp (bind m f) Q E s.
Proof. unfold wp, bind. destruct (m s) as [s' [e | a]]; exact (fun H => H). Qed.

Lemma wp_conseq {A} (m : M S A) (Q Q' : A -> S -> Prop) (E E' : Exn -> S -> Prop) s :
  wp m Q' E' s -> (forall a s', Q' a s' -> Q a s') -> (forall e s', E' e s' -> E e s') ->
  wp m Q E s.
Proof. unfold wp. destruct (m s) as [s' [e | a]]; auto. Qed.

Lemma wp_when_true (m : M S unit) Q E s : wp m Q E s -> wp (when true m) Q E s.
Proof. exact (fun H => H). Qed.

Lemma wp_when_false (m : M S unit) (Q : unit -> S -> Prop) E s :
  Q tt s -> wp (when false m) Q E s.
Proof. exact (fun H => H). Qed.

Lemma wp_try_except {A} (m : M S A) (h : Exn -> option (M S A)) (Q : A -> S -> Prop) E s :
  wp m Q (fun e s' => match h e with
                      | Some handler => wp handler Q E s'
                      | None => E e s'
                      end) s ->
  wp (try_except m h) Q E s.
Proof.
  unfold wp, try_except. destruct (m s) as [s' [e | a]]; [ | exact (fun H => H)].
  destruct (h e) as [handler | ]; exact (fun H => H).
Qed.

Lemma wp_run {A} (m : M S A) (Q : A -> S -> Prop) (E : Exn -> S -> Prop) s :
  wp m Q E s ->
  (exists s' a, m s = (s', inr a) /\ Q a s') \/ (exists s' e, m s = (s', inl e) /\ E e s').
Proof. unfold wp. destruct (m s) as [s' [e | a]]; [right | left]; eauto. Qed.

Lemma wp_returns {A} (m : M S A) (Q : A -> S -> Prop) s :
  wp m Q (fun _ _ => False) s -> exists s' a, m s = (s', inr a) /\ Q a s'.
Proof.
  intro H. destruct (wp_run _ _ _ _ H) as [Hr | [s' [e [_ []]]]]. exact Hr.
Qed.

Lemma wp_of_run {A} (m : M S A) (Q : A -> S -> Prop) (E : Exn -> S -> Prop) s s' r :
  m s = (s', r) -> match r with inr a => Q a s' | inl e => E e s' end -> wp m Q E s.
Proof. unfold wp. intros ->. exact (fun H => H). Qed.

End Running.

(** [safe I m]: [m] keeps [I] and does not raise. *)
Definition safe {S A : Type} (I : S -> Prop) (m : M S A) : Prop :=
  triple I m (fun _ => I) (fun _ _ => False).

Section Safety.

Context {S : Type}.

Lemma safe_ret {A} (I : S -> Prop) (a : A) : safe I (ret a).
Proof. apply triple_ret. auto. Qed.

Lemma safe_gets {A} (I : S -> Prop) (f : S -> A) : safe I (gets f).
Proof. apply triple_gets. auto. Qed.

Lemma safe_modify (I : S -> Prop) (f : S -> S) : (forall s, I s -> I (f s)) -> safe I (modify f).
Proof. intro H. apply triple_modify. exact H. Qed.

Lemma safe_bind {A B} (I : S -> Prop) (m : M S A) (f : A -> M S B) :
  safe I m -> (forall a, safe I (f a)) -> safe I (bind m f).
Proof. intros Hm Hf. eapply triple_bind; [exact Hm | exact Hf]. Qed.

Lemma safe_when (I : S -> Prop) (b : bool) (m : M S unit) : safe I m -> safe I (when b m).
Proof. intro H. destruct b; simpl; [exact H | apply safe_ret]. Qed.

Lemma wp_safe {A} (I : S -> Prop) (m : M S A) (Q : A -> S -> Prop) E s :
  safe I m -> I s -> (forall a s', I s' -> Q a s') -> wp m Q E s.
Proof.
  intros Hm Hs HQ. eapply wp_conseq; [exact (Hm s Hs) | exact HQ | intros e s' []].
Qed.

End Safety.

Lemma wp_assign (f : User -> User) (Q : unit -> Ctx -> Prop) E c :
  Q tt (with_self (f (self c)) c) -> wp (assign f) Q E c.
Proof. exact (fun H => H). Qed.

Lemma wp_emit (e : Event) (Q : unit -> Ctx -> Prop) E c :
  Q tt (with_world (with_log (log (world c) ++ [e])%list (world c)) c) -> wp (emit e) Q E c.
Proof. exact (fun H => H). Qed.

Lemma wp_emit_w (e : Event) (Q : unit -> World -> Prop) E w :
  Q tt (with_log (log w ++ [e])%list w) -> wp (emit_w e) Q E w.
Proof. exact (fun H => H). Qed.

Lemma wp_on_world {A} (m : M World A) (Q : A -> Ctx -> Prop) E c :
  wp m (fun a w => Q a (with_world w c)) (fun e w => E e (with_world w c)) (world c) ->
  wp (on_world m) Q E c.
Proof. unfold wp, on_world. destruct (m (world c)) as [w [e | a]]; exact (fun H => H). Qed.

Lemma wp_call {A} (method : string) (m : M Ctx A) (Q : A -> Ctx -> Prop) E c :
  wp m Q E (with_calls (calls c ++ [method])%list c) -> wp (call method m) Q E c.
Proof. exact (fun H => H). Qed.

Lemma wp_on_doc {A} (d : User) (m : M Ctx A) (Q : User * A -> World -> Prop) E w :
  wp m (fun a c => Q (self c, a) (world c)) (fun e c => E e (world c))
     {| self := d; world := w; calls := [] |} ->
  wp (on_doc d m) Q E w.
Proof.
  unfold wp, on_doc.
  destruct (m {| self := d; world := w; calls := [] |}) as [c [e | a]]; exact (fun H => H).
Qed.

(** Reduces field reads over field writes. *)
Ltac fields :=
  cbn [name email first_name middle_name last_name full_name username birth_date
       new_password enabled user_type role_profile_name role_profiles roles module_profile
       block_modules user_emails user_image time_zone language social_logins thread_notify
       send_me_a_copy allowed_in_mentions send_welcome_email logout_all_sessions
       reset_password_key last_reset_password_key_generated_on last_password_reset_date
       redirect_url university major creation is_admin is_guest __new_password flags
       with_name with_email with_full_name with_username with_new_password with_enabled
       with_user_type with_role_profile_name with_role_profiles with_roles
       with_block_modules with_time_zone with_language with_social_logins
       with_thread_notify with_send_me_a_copy with_allowed_in_mentions
       with_reset_password_key with_last_reset_password_key_generated_on
       with_last_password_reset_date with_redirect_url with_university with_major
       with_creation with___new_password with_flags in_insert ignore_password_policy
       no_welcome_mail email_sent islocal with_in_insert with_ignore_password_policy
       with_email_sent with_islocal tabUser auth redirect_after_login session_user now
       hashes_drawn mails_sent http_status_code log with_tabUser with_auth
       with_redirect_after_login with_session_user with_hashes_drawn with_mails_sent
       with_http_status_code with_log self world calls with_self with_world with_calls fst
       snd as_row no_flags is_new].

Ltac fields_in H :=
  cbn [name email first_name middle_name last_name full_name username birth_date
       new_password enabled user_type role_profile_name role_profiles roles module_profile
       block_modules user_emails user_image time_zone language social_logins thread_notify
       send_me_a_copy allowed_in_mentions send_welcome_email logout_all_sessions
       reset_password_key last_reset_password_key_generated_on last_password_reset_date
       redirect_url university major creation is_admin is_guest __new_password flags
       with_name with_email with_full_name with_username with_new_password with_enabled
       with_user_type with_role_profile_name with_role_profiles with_roles
       with_block_modules with_time_zone with_language with_social_logins
       with_thread_notify with_send_me_a_copy with_allowed_in_mentions
       with_reset_password_key with_last_reset_password_key_generated_on
       with_last_password_reset_date with_redirect_url with_university with_major
       with_creation with___new_password with_flags in_insert ignore_password_policy
       no_welcome_mail email_sent islocal with_in_insert with_ignore_password_policy
       with_email_sent with_islocal tabUser auth redirect_after_login session_user now
       hashes_drawn mails_sent http_status_code log with_tabUser with_auth
       with_redirect_after_login with_session_user with_hashes_drawn with_mails_sent
       with_http_status_code with_log self world calls with_self with_world with_calls fst
       snd as_row no_flags is_new] in H.

(** One step of a run: the head statement is executed on the state at hand. *)
Ltac wp_step :=
  lazymatch goal with
  | |- wp (bind _ _) _ _ _ => apply wp_bind
  | |- wp (ret _) _ _ _ => apply wp_ret
  | |- wp (raise _) _ _ _ => apply wp_raise
  | |- wp (throw _) _ _ _ => apply wp_throw
  | |- wp (gets _) _ _ _ => apply wp_gets
  | |- wp (modify _) _ _ _ => apply wp_modify
  | |- wp (assign_flag _) _ _ _ => unfold assign_flag
  | |- wp (assign _) _ _ _ => apply wp_assign
  | |- wp (emit _) _ _ _ => apply wp_emit
  | |- wp (emit_w _) _ _ _ => apply wp_emit_w
  | |- wp (on_world _) _ _ _ => apply wp_on_world
  | |- wp (on_doc _ _) _ _ _ => apply wp_on_doc
  | |- wp (call _ _) _ _ _ => apply wp_call
  | |- wp (when true _) _ _ _ => apply wp_when_true
  | |- wp (when false _) _ _ _ => apply wp_when_false
  | |- wp (try_except _ _) _ _ _ => apply wp_try_except
  end.

Ltac wp_go := repeat (wp_step; cbv beta; fields).

(** Splits on the test the run has arrived at. *)
Ltac wp_case :=
  lazymatch goal with
  | |- wp (when ?b _) _ _ _ => destruct b eqn:?
  | |- wp (if ?b then _ else _) _ _ _ => destruct b eqn:?
  | |- wp (match ?x with _ => _ end) _ _ _ => destruct x eqn:?
  end; wp_go.

Lemma stable_on_world_at {A} (I : Ctx -> Prop) (m : M World A) :
  (forall c, I c -> stable (fun w => I (with_world w c)) m) -> stable I (on_world m).
Proof.
  intros H. apply triple_on_world. intros c Hc w Hw. subst w.
  assert (Hc' : I (with_world (world c) c)) by (destruct c; exact Hc).
  specialize (H c Hc (world c) Hc'). unfold wp in *.
  destruct (m (world c)) as [w [e | a]]; exact H.
Qed.

Lemma stable_profile_roles {S : Type} (site : Site) (I : S -> Prop) profiles acc :
  stable I (@profile_roles site S profiles acc).
Proof.
  revert acc. induction profiles as [ | rp rest IH]; intro acc; simpl.
  - apply stable_ret.
  - destruct (role_profile_doc site (role_profile rp)); [apply IH | apply stable_raise].
Qed.

Lemma safe_on_world_at {A} (I : Ctx -> Prop) (m : M World A) :
  (forall c, I c -> safe (fun w => I (with_world w c)) m) -> safe I (on_world m).
Proof.
  intros H. apply triple_on_world. intros c Hc w Hw. subst w.
  assert (Hc' : I (with_world (world c) c)) by (destruct c; exact Hc).
  exact (H c Hc (world c) Hc').
Qed.

(** Proves [safe I m] along the structure of [m], for an [m] without
    [raise]. *)
Ltac safe_by side :=
  repeat (intros;
    lazymatch goal with
    | |- safe _ (ret _) => apply safe_ret
    | |- safe _ (gets _) => apply safe_gets
    | |- safe _ (bind _ _) => apply safe_bind
    | |- safe _ (when false _) => exact (safe_ret _ tt)
    | |- safe _ (when _ _) => apply safe_when
    | |- safe _ (modify _) => apply safe_modify; side
    | |- safe _ (assign _) => apply safe_modify; side
    | |- safe _ (emit_w _) => apply safe_modify; side
    | |- safe _ (on_world _) => apply safe_on_world_at
    | |- safe _ (if ?b then _ else _) => destruct b
    | |- safe _ (match ?x with _ => _ end) => destruct x
    | |- safe _ (?f _ _ _ _ _) => unfold f
    | |- safe _ (?f _ _ _ _) => unfold f
    | |- safe _ (?f _ _ _) => unfold f
    | |- safe _ (?f _ _) => unfold f
    | |- safe _ (?f _) => unfold f
    | |- safe _ ?f => unfold f
    end).

(** What no step of [validate] writes, apart from the call record and the
    password fields that only its first two statements write. *)
Definition core (c : Ctx) :=
  ((name (self c), enabled (self c), first_name (self c), last_name (self c)),
   (user_emails (self c), module_profile (self c), user_image (self c), flags (self c)),
   (reset_password_key (self c), last_reset_password_key_generated_on (self c),
    redirect_url (self c), send_welcome_email (self c), logout_all_sessions (self c)),
   (tabUser (world c), auth (world c), redirect_after_login (world c),
    session_user (world c), now (world c), mails_sent (world c), http_status_code (world c))).

(** What no step before the last one writes, the call record apart. *)
Definition steady (c : Ctx) := (social_logins (self c), core c).

Ltac frame_side := solve [ intros; unfold steady, core in *; cbn in *; assumption ].

(** Proves [stable I m] along the structure of [m]; [side] settles what a
    write has to keep. *)
Ltac stable_by side :=
  repeat (intros;
    lazymatch goal with
    | |- stable _ (ret _) => apply stable_ret
    | |- stable _ (raise _) => apply stable_raise
    | |- stable _ (throw _) => apply stable_throw
    | |- stable _ (gets _) => apply stable_gets
    | |- stable _ (bind _ _) => apply stable_bind
    | |- stable _ (when _ _) => apply stable_when
    | |- stable _ (try_except _ _) =>
        apply stable_try_except;
        [ | let e := fresh "e" in let handler := fresh "handler" in let He := fresh "He" in
            intros e handler He; destruct e; inversion He; subst handler; clear He ]
    | |- stable _ (modify _) => apply stable_modify; side
    | |- stable _ (assign _) => apply stable_assign; side
    | |- stable _ (emit _) => apply stable_emit; side
    | |- stable _ (emit_w _) => apply stable_emit_w; side
    | |- stable _ (call _ _) => apply stable_call; [ side | ]
    | |- stable _ (profile_roles _ _ _) => apply stable_profile_roles
    | |- stable _ (on_world _) => apply stable_on_world_at
    | |- stable _ (if ?b then _ else _) => destruct b
    | |- stable _ (match ?x with _ => _ end) => destruct x
    | |- stable _ (?f _ _ _ _ _) => unfold f
    | |- stable _ (?f _ _ _ _) => unfold f
    | |- stable _ (?f _ _ _) => unfold f
    | |- stable _ (?f _ _) => unfold f
    | |- stable _ (?f _) => unfold f
    | |- stable _ ?f => unfold f
    end).

Ltac stable_go := stable_by frame_side.

Section Frames.

Context (site : Site).

(** [validate] as a whole keeps [core]. *)
Lemma core_validate x : stable (fun c => core c = x) (validate site).
Proof. stable_go. Qed.

Lemma core_validate_eq c : core (fst (validate site c)) = core c.
Proof. exact (stable_fst _ _ (core_validate (core c)) c eq_refl). Qed.

End Frames.

(** * Sample data *)

Definition acme_roles : list Role :=
  [ {| role_name := "System Manager"; desk_access := 1; disabled := 0 |};
    {| role_name := "Auditor"; desk_access := 1; disabled := 1 |};
    {| role_name := "Customer"; desk_access := 0; disabled := 0 |} ].

Definition standard_type : UserType :=
  {| is_standard := 1; user_type_role := "";
     user_linked_with_permission_on_doctype := fun _ => false;
     update_modules_in_user := block_modules |}.

Definition acme_with (minimum expiry : Z) (signup_disabled : bool) (portal_role : string)
    (mail : nat -> option Exn) : Site :=
  {| in_test := false; in_import := false; enable_password_policy := true;
     minimum_password_score := minimum; reset_password_link_expiry_duration := expiry;
     logout_on_password_reset := 0; throttle_user_limit := 60;
     is_signup_disabled := signup_disabled; default_role := portal_role;
     get_system_timezone := "UTC"; get_default_path := ""; get_home_page := "/me";
     MAX_PASSWORD_SIZE := 512; tabRole := acme_roles;
     role_profile_doc := fun p =>
       if p =? "Staff"
       then Some [ {| role := Some "System Manager" |}; {| role := Some "Auditor" |} ]
       else None;
     user_type_doc := fun t =>
       if ((t =? "System User") || (t =? "Website User"))%bool then Some standard_type
       else None;
     module_profile_doc := fun m => if m =? "Sales" then Some [ {| module := "Desk" |} ] else None;
     _test_password_strength := fun p _ =>
       {| score := Z.of_nat (String.length p) / 4; zx_warning := "Too short.";
          zx_suggestions := ["Add another word."; "Avoid names."] |};
     validate_email_address := fun e => negb (e =? "nobody");
     scrub := lower; escape_html := fun s => s;
     sha256_hash := fun s => "sha256:" ++ s;
     generate_hash := fun n => "token" ++ String (ascii_of_nat (48 + n)) "";
     get_url := fun u => "https://acme.test" ++ u;
     login_manager := true;
     sendmail := mail |}.

Definition acme : Site := acme_with 2 600 false "Customer" (fun _ => None).

(** The sample site in or out of test mode, with User Types of its own
    besides the two standard ones. *)
Definition acme_in (test : bool) (custom : string -> option UserType) : Site :=
  {| in_test := test; in_import := false; enable_password_policy := true;
     minimum_password_score := 2; reset_password_link_expiry_duration := 600;
     logout_on_password_reset := 0; throttle_user_limit := 60;
     is_signup_disabled := false; default_role := "Customer";
     get_system_timezone := "UTC"; get_default_path := ""; get_home_page := "/me";
     MAX_PASSWORD_SIZE := 512; tabRole := acme_roles;
     role_profile_doc := role_profile_doc acme;
     user_type_doc := fun t =>
       if ((t =? "System User") || (t =? "Website User"))%bool then Some standard_type
       else custom t;
     module_profile_doc := module_profile_doc acme;
     _test_password_strength := _test_password_strength acme;
     validate_email_address := validate_email_address acme;
     scrub := lower; escape_html := fun s => s;
     sha256_hash := sha256_hash acme;
     generate_hash := generate_hash acme;
     get_url := get_url acme;
     login_manager := true;
     sendmail := fun _ => None |}.

(** A User Type that is not standard and carries the role "Customer", and
    one that carries no role. *)
Definition contractor_type : UserType :=
  {| is_standard := 0; user_type_role := "Customer";
     user_linked_with_permission_on_doctype := fun _ => true;
     update_modules_in_user := block_modules |}.

Definition visitor_type : UserType :=
  {| is_standard := 0; user_type_role := "";
     user_linked_with_permission_on_doctype := fun _ => true;
     update_modules_in_user := block_modules |}.

Definition acme_typed : Site :=
  acme_in false (fun t => if t =? "Contractor" then Some contractor_type
                          else if t =? "Visitor" then Some visitor_type else None).

Definition person (nm ut : string) (en : Z) (profiles : list string)
    (held : list (option string)) (mailboxes : list string) : User :=
  {| name := nm; email := nm; first_name := "Ann"; middle_name := ""; last_name := "Lee";
     full_name := "Ann Lee"; username := ""; birth_date := ""; new_password := Some "";
     enabled := en; user_type := ut; role_profile_name := "";
     role_profiles := map (fun p => {| role_profile := p |}) profiles;
     roles := map (fun r => {| role := r |}) held;
     module_profile := "Sales"; block_modules := [];
     user_emails := map (fun e => {| email_account := e |}) mailboxes; user_image := "";
     time_zone := "UTC"; language := ""; social_logins := []; thread_notify := 1;
     send_me_a_copy := 0; allowed_in_mentions := 1; send_welcome_email := 0;
     logout_all_sessions := 0; reset_password_key := "";
     last_reset_password_key_generated_on := None; last_password_reset_date := None;
     redirect_url := ""; university := ""; major := ""; creation := 0;
     is_admin := false; is_guest := false; __new_password := None; flags := no_flags |}.

Definition ann : User := person "ann@acme.test" "Website User" 1 [] [Some "Customer"] [].

Definition office (rows : list User) (at_time : Z) : World :=
  {| tabUser := rows; auth := []; redirect_after_login := []; session_user := "Guest";
     now := at_time; hashes_drawn := 0; mails_sent := 0; http_status_code := None; log := [] |}.

Definition on (w : World) (u : User) : Ctx := {| self := u; world := w; calls := [] |}.

(** * Properties *)

Section Properties.

Context (site : Site).

(** ** The password carrier *)

Definition cleared_from (original : option string) (c : Ctx) : Prop :=
  new_password (self c) = Some "" /\ __new_password (self c) = original.

Lemma clear_new_password_spec c0 :
  triple (fun c => c = c0) clear_new_password
    (fun _ => cleared_from (new_password (self c0)))
    (fun _ => cleared_from (new_password (self c0))).
Proof. intros c ->. unfold wp. simpl. split; reflexivity. Qed.

Ltac cleared_side := solve [ intros; unfold cleared_from in *; cbn in *; assumption ].

Lemma validate_clears c0 :
  triple (fun c => c = c0) (validate site)
    (fun _ => cleared_from (new_password (self c0)))
    (fun _ => cleared_from (new_password (self c0))).
Proof.
  unfold validate.
  apply triple_bind with (R := fun _ => cleared_from (new_password (self c0))).
  - apply clear_new_password_spec.
  - intros _. apply stable_is_triple. stable_by cleared_side.
Qed.

Lemma validate_empties_new_password :
  triple (fun _ => True) (validate site)
    (fun _ c => new_password (self c) = Some "") (fun _ c => new_password (self c) = Some "").
Proof.
  intros c _. pose proof (validate_clears c c eq_refl) as H. unfold wp in *.
  destruct (validate site c) as [c' [e | a]]; apply H.
Qed.

(** The rows of the document at hand carry no password. *)
Definition rows_cleared (c : Ctx) : Prop :=
  forall r, In r (tabUser (world c)) -> name r = name (self c) -> new_password r = Some "".

Lemma In_update_rows user f rows r :
  In r (update_rows user f rows) -> exists y, In y rows /\ (r = f y \/ r = y).
Proof.
  unfold update_rows. rewrite in_map_iff. intros [y [Hy Hin]].
  exists y. split; [exact Hin | ]. destruct (name y =? user); auto.
Qed.

Lemma rows_cleared_update c w user f :
  (forall y, name (f y) = name y) -> (forall y, new_password (f y) = new_password y) ->
  rows_cleared (with_world w c) ->
  rows_cleared (with_world (with_tabUser (update_rows user f (tabUser w)) w) c).
Proof.
  unfold rows_cleared. cbn. intros Hn Hp H r Hr Hname.
  apply In_update_rows in Hr. destruct Hr as [y [Hy [-> | ->]]].
  - rewrite Hp. apply H; [exact Hy | rewrite <- Hn; exact Hname].
  - apply H; assumption.
Qed.

Ltac rows_side :=
  first [ solve [ intros; unfold rows_cleared in *; cbn in *; assumption ]
        | solve [ intros; apply rows_cleared_update; [ reflexivity | reflexivity | assumption ] ] ].

Lemma rows_cleared_on_update before : stable rows_cleared (on_update site before).
Proof. stable_by rows_side. Qed.

Lemma rows_cleared_after_insert : stable rows_cleared after_insert.
Proof. stable_by rows_side. Qed.

Lemma lookup_none user rows :
  lookup user rows = None -> forall r, In r rows -> name r <> user.
Proof.
  unfold lookup. intros H r Hr Heq.
  pose proof (find_none _ _ H r Hr) as Hf. simpl in Hf.
  rewrite Heq, String.eqb_refl in Hf. discriminate.
Qed.

Lemma triple_any {S A} (P : S -> Prop) (m : M S A) :
  triple P m (fun _ _ => True) (fun _ _ => True).
Proof. intros s _. unfold wp. destruct (m s) as [s' [e | a]]; exact I. Qed.

Lemma save_rows_cleared :
  triple (fun _ => True) (save site) (fun _ => rows_cleared) (fun _ _ => True).
Proof.
  unfold save. apply triple_bind_gets. intros c0.
  destruct (is_new (self c0) || negb (truthy (name (self c0))))%bool.
  - unfold insert.
    apply triple_bind with (R := fun _ _ => True); [apply triple_any | intros w].
    do 4 (apply triple_seq with (R := fun _ => True); [apply triple_any | ]).
    apply triple_seq with (R := fun c => new_password (self c) = Some "").
    { eapply triple_conseq; [apply validate_empties_new_password | auto ..]. }
    apply triple_seq with (R := fun c => new_password (self c) = Some "").
    { apply triple_modify. intros c Hc. exact Hc. }
    apply triple_bind_gets. intros c1. apply triple_bind_gets. intros c2.
    destruct (lookup (name (self c1)) (tabUser (world c2))) as [found | ] eqn:Hfind.
    { apply triple_raise. auto. }
    apply triple_seq with (R := rows_cleared).
    + intros c [-> [-> Hc]]. unfold wp. simpl. intros r Hr Hname.
      apply in_app_iff in Hr. destruct Hr as [Hr | [<- | []]].
      * exfalso. exact (lookup_none _ _ Hfind r Hr Hname).
      * exact Hc.
    + apply triple_conseq with (P' := rows_cleared)
        (Q' := fun _ => rows_cleared) (E' := fun _ => rows_cleared);
        [ | auto | auto | auto ].
      apply stable_is_triple. stable_by rows_side.
  - apply triple_bind_gets. intros c1.
    apply triple_seq with (R := fun c => new_password (self c) = Some "").
    { eapply triple_conseq; [apply validate_empties_new_password | cbn; auto ..]. }
    apply triple_bind_gets. intros c2.
    apply triple_seq with (R := rows_cleared).
    + intros c [-> Hc]. unfold wp. simpl. intros r Hr Hname.
      unfold put_row in Hr. apply in_map_iff in Hr. destruct Hr as [y [Hy Hin]].
      simpl in Hy. destruct (name y =? name (self c2)) eqn:Hn.
      * subst r. exact Hc.
      * subst r. apply String.eqb_neq in Hn. contradiction.
    + apply triple_conseq with (P' := rows_cleared)
        (Q' := fun _ => rows_cleared) (E' := fun _ => rows_cleared);
        [ | auto | auto | auto ].
      apply rows_cleared_on_update.
Qed.

(** C6.  On every save the password carried by [new_password] is moved to
    the private holder at the start of validation and the field itself is
    set to the empty string: whether validation returns or raises, the
    document then has [new_password = ""] and the holder has the value that
    came in; every row a successful save leaves for the document has
    [new_password = ""]; and clearing twice stores what clearing once
    stores. *)
Theorem new_password_never_persisted (c : Ctx) :
  (new_password (self (fst (validate site c))) = Some ""
   /\ __new_password (self (fst (validate site c))) = new_password (self c))
  /\ (forall c', save site c = (c', inr tt) ->
       forall r, In r (tabUser (world c')) -> name r = name (self c') ->
                 new_password r = Some "")
  /\ as_row (self (fst ((clear_new_password ;; clear_new_password) c)))
     = as_row (self (fst (clear_new_password c))).
Proof.
  split; [ | split].
  - pose proof (validate_clears c c eq_refl) as H. unfold wp in H.
    destruct (validate site c) as [c' [e | a]]; exact H.
  - intros c' Hsave. pose proof (save_rows_cleared c I) as H. unfold wp in H.
    rewrite Hsave in H. exact H.
  - reflexivity.
Qed.

(** ** Reserved identities *)

Lemma mem_str_In s l : mem_str s l = true <-> In s l.
Proof.
  unfold mem_str. rewrite existsb_exists. split.
  - intros [x [Hx He]]. apply String.eqb_eq in He. subst. exact Hx.
  - intro H. exists s. split; [exact H | apply String.eqb_refl].
Qed.

Lemma core_name c c' : core c = core c' -> name (self c) = name (self c').
Proof. unfold core. intro H. injection H. intros. assumption. Qed.

Lemma core_enabled c c' : core c = core c' -> enabled (self c) = enabled (self c').
Proof. unfold core. intro H. injection H. intros. assumption. Qed.

Lemma core_tabUser c c' : core c = core c' -> tabUser (world c) = tabUser (world c').
Proof. unfold core. intro H. injection H. intros. assumption. Qed.

Lemma check_enable_disable_rejects c :
  In (name (self c)) STANDARD_USERS -> enabled (self c) = 0%Z ->
  check_enable_disable site c
  = (c, inl (ValidationError ("User " ++ name (self c) ++ " cannot be disabled"))).
Proof.
  intros Hn He. apply mem_str_In in Hn.
  unfold check_enable_disable, bind, gets, cint. rewrite He, Hn. reflexivity.
Qed.

(** A step that keeps [core]: nothing is asked of the state it raises in. *)
Lemma triple_core {A} x (m : M Ctx A) :
  stable (fun c => core c = x) m ->
  triple (fun c => core c = x) m (fun _ c => core c = x) (fun _ _ => True).
Proof. intro H. eapply triple_conseq; [exact H | auto ..]. Qed.

Lemma validate_rejects_disabling c0 :
  In (name (self c0)) STANDARD_USERS -> enabled (self c0) = 0%Z ->
  triple (fun c => core c = core c0) (validate site) (fun _ _ => False) (fun _ _ => True).
Proof.
  intros Hn He. unfold validate.
  do 2 (apply triple_seq with (R := fun c => core c = core c0);
        [apply triple_core; stable_go | ]).
  apply triple_bind_gets. intros c1.
  apply triple_conseq with (P' := fun c => core c = core c0)
    (Q' := fun _ _ => False) (E' := fun _ _ => True); [ | intros s [_ Hs]; exact Hs | auto | auto ].
  do 6 (apply triple_seq with (R := fun c => core c = core c0);
        [apply triple_core; stable_go | ]).
  apply triple_seq with (R := fun _ => False); [ | apply triple_false].
  unfold call. apply triple_seq with (R := fun c => core c = core c0);
    [apply triple_core; stable_go | ].
  intros c Hc. unfold wp. rewrite check_enable_disable_rejects.
  - exact I.
  - rewrite (core_name _ _ Hc). exact Hn.
  - rewrite (core_enabled _ _ Hc). exact He.
Qed.

Lemma validate_rejects_disabling_run c :
  In (name (self c)) STANDARD_USERS -> enabled (self c) = 0%Z ->
  exists c' e, validate site c = (c', inl e) /\ core c' = core c.
Proof.
  intros Hn He. pose proof (validate_rejects_disabling c Hn He c eq_refl) as H.
  pose proof (core_validate_eq site c) as Hcore. unfold wp in H.
  destruct (validate site c) as [c' [e | a]]; [ | contradiction].
  exists c', e. split; [reflexivity | exact Hcore].
Qed.

Lemma standard_user_truthy user : In user STANDARD_USERS -> truthy user = true.
Proof. intros [<- | [<- | []]]; reflexivity. Qed.

Lemma on_trash_rejects c :
  In (name (self c)) STANDARD_USERS ->
  on_trash site c
  = (with_world (with_log (log (world c) ++ [ClearCache (name (self c))])%list (world c)) c,
     inl (ValidationError ("User " ++ name (self c) ++ " cannot be deleted"))).
Proof.
  intro Hn. apply mem_str_In in Hn.
  unfold on_trash, bind, gets, emit, on_world, emit_w, modify. cbv beta.
  rewrite Hn. reflexivity.
Qed.

Lemma before_rename_rejects c old_name new_name merge :
  In old_name STANDARD_USERS ->
  exists c', before_rename site old_name new_name merge c
             = (c', inl (ValidationError ("User " ++ name (self c) ++ " cannot be renamed")))
             /\ tabUser (world c') = tabUser (world c).
Proof.
  intro Hn. apply mem_str_In in Hn.
  unfold before_rename, validate_rename, bind, gets, emit, on_world, emit_w, modify, when.
  destruct merge; cbv beta iota; rewrite Hn; eexists; split; reflexivity.
Qed.

Lemma lookup_name user rows r : lookup user rows = Some r -> name r = user.
Proof.
  unfold lookup. intro H. apply find_some in H. destruct H as [_ H].
  apply String.eqb_eq. exact H.
Qed.

(** C8.  For a reserved identity (Administrator, Guest) no attempt to
    disable, delete or rename the account gets through: validating the
    document with [enabled = 0] raises, and so does saving it, with
    [tabUser] as it was; [on_trash] raises "cannot be deleted" and
    [delete_doc] raises with [tabUser] as it was; [before_rename] raises
    "cannot be renamed" and [rename_doc] raises with [tabUser] as it was. *)
Theorem reserved_identity_protected (user : string) :
  In user STANDARD_USERS ->
  (forall c, name (self c) = user -> enabled (self c) = 0%Z ->
     raises (validate site) c
     /\ (is_new (self c) = false ->
         raises (save site) c /\ tabUser (world (fst (save site c))) = tabUser (world c)))
  /\ (forall c, name (self c) = user ->
        snd (on_trash site c) = inl (ValidationError ("User " ++ user ++ " cannot be deleted")))
  /\ (forall w, raises (delete_doc site user) w
               /\ tabUser (fst (delete_doc site user w)) = tabUser w)
  /\ (forall c new_name merge, name (self c) = user ->
        snd (before_rename site user new_name merge c)
        = inl (ValidationError ("User " ++ user ++ " cannot be renamed")))
  /\ (forall w new_name merge,
        raises (rename_doc site user new_name merge) w
        /\ tabUser (fst (rename_doc site user new_name merge w)) = tabUser w).
Proof.
  intro Hstd. split; [ | split; [ | split; [ | split ] ] ].
  - intros c Hname He. subst user.
    destruct (validate_rejects_disabling_run c Hstd He) as [c' [e [Hv Hc]]].
    split; [exists e; rewrite Hv; reflexivity | ].
    intro Hnew. unfold raises, save, bind, gets.
    rewrite Hnew, (standard_user_truthy _ Hstd). simpl. rewrite Hv. simpl.
    split; [exists e; reflexivity | apply core_tabUser; exact Hc].
  - intros c Hname. subst user. rewrite (on_trash_rejects c Hstd). reflexivity.
  - intro w. unfold raises, delete_doc, get_doc, bind, gets, on_doc, raise, ret.
    destruct (lookup user (tabUser w)) as [r | ] eqn:Hr.
    + rewrite on_trash_rejects; [split; [eexists | ]; reflexivity | ].
      simpl. rewrite (lookup_name _ _ _ Hr). exact Hstd.
    + split; [eexists | ]; reflexivity.
  - intros c new_name merge Hname.
    destruct (before_rename_rejects c user new_name merge Hstd) as [c' [Hb _]].
    rewrite Hb. subst user. reflexivity.
  - intros w new_name merge.
    unfold raises, rename_doc, get_doc, bind, gets, on_doc, raise, ret.
    destruct (lookup user (tabUser w)) as [r | ] eqn:Hr.
    + destruct (before_rename_rejects (on w (as_row r)) user new_name merge Hstd)
        as [c' [Hb Ht]].
      unfold on in Hb. rewrite Hb. simpl. split; [eexists; reflexivity | exact Ht].
    + split; [eexists | ]; reflexivity.
Qed.

(** ** Usernames *)

(** The username [validate_username] arrives at before it strips it: the
    one on the document, or the scrubbed first name of a new document that
    has none. *)
Definition arriving_username (u : User) : string :=
  if (negb (truthy (username u)) && is_new u && truthy (first_name u))%bool
  then scrub site (first_name u)
  else username u.

Definition candidate (u : User) : User :=
  with_username (strip_space_at (arriving_username u)) u.

Lemma suggest_username_spec c :
  wp (suggest_username site)
    (fun _ c' => self c' = self c
                 /\ (world c' = world c
                     \/ exists s, world c'
                                  = with_log (log (world c) ++ [Msgprint ("Suggested Username: " ++ s)])%list
                                      (world c)))
    (fun _ _ => False) c.
Proof.
  unfold suggest_username. wp_go.
  match goal with |- wp (when ?b _) _ _ _ => destruct b end; wp_go.
  - split; [reflexivity | right; eexists; reflexivity].
  - split; [reflexivity | left; reflexivity].
Qed.

Lemma validate_username_spec c :
  wp (validate_username site)
    (fun _ c' =>
       truthy (arriving_username (self c)) = true ->
       username_taken "" (candidate (self c)) (world c) = true ->
       username (self c') = ""
       /\ (user_type (self c) <> "System User" -> world c' = world c)
       /\ (user_type (self c) = "System User" ->
           exists rest,
             log (world c')
             = (log (world c)
                ++ Msgprint ("Username " ++ strip_space_at (arriving_username (self c))
                             ++ " already exists") :: rest)%list
             /\ (rest = [] \/ exists s, rest = [Msgprint ("Suggested Username: " ++ s)])))
    (fun _ _ => False) c.
Proof.
  unfold validate_username. wp_go.
  pose proof (eq_refl (arriving_username (self c))) as HA.
  unfold arriving_username at 2 in HA. unfold candidate.
  wp_case; rewrite HA; clear HA.
  - (* a new document takes the scrubbed first name *)
    wp_case; [intros Ht; rewrite Ht in *; discriminate | ].
    set (x := scrub site (first_name (self c))) in *.
    change (with_username (strip_space_at x) (with_username x (self c)))
      with (with_username (strip_space_at x) (self c)).
    wp_case; [ | intros _ Ht; congruence].
    wp_case.
    + eapply wp_conseq; [apply suggest_username_spec | | intros e s' []].
      cbv beta. fields. intros _ s' [Hs Hw]. wp_go. intros _ _.
      apply String.eqb_eq in Heqb2.
      split; [reflexivity | split; [congruence | intros _]].
      destruct Hw as [-> | [s ->]]; fields.
      * exists []. split; [reflexivity | left; reflexivity].
      * eexists. rewrite <- app_assoc. split; [reflexivity | right; eexists; reflexivity].
    + intros _ _. apply String.eqb_neq in Heqb2.
      split; [reflexivity | split; [reflexivity | congruence]].
  - wp_case; [intros Ht; rewrite Ht in *; discriminate | ].
    wp_case; [ | intros _ Ht; congruence].
    wp_case.
    + eapply wp_conseq; [apply suggest_username_spec | | intros e s' []].
      cbv beta. fields. intros _ s' [Hs Hw]. wp_go. intros _ _.
      apply String.eqb_eq in Heqb2.
      split; [reflexivity | split; [congruence | intros _]].
      destruct Hw as [-> | [s ->]]; fields.
      * exists []. split; [reflexivity | left; reflexivity].
      * eexists. rewrite <- app_assoc. split; [reflexivity | right; eexists; reflexivity].
    + intros _ _. apply String.eqb_neq in Heqb2.
      split; [reflexivity | split; [reflexivity | congruence]].
Qed.

Lemma username_taken_intro u w :
  (forall r, In r (tabUser w) -> truthy (name r) = true) ->
  (exists r, In r (tabUser w) /\ username r = username u /\ name r <> name u) ->
  username_taken "" u w = true.
Proof.
  intros Hnamed [r [Hr [Hu Hn]]]. unfold username_taken, username_exists. simpl.
  destruct (find (fun r0 => ((username r0 =? username u) && negb (name r0 =? name u))%bool)
              (tabUser w)) as [r' | ] eqn:Hfind.
  - apply find_some in Hfind. simpl. apply Hnamed. exact (proj1 Hfind).
  - pose proof (find_none _ _ Hfind r Hr) as Hf. simpl in Hf.
    rewrite Hu, String.eqb_refl in Hf. apply String.eqb_neq in Hn. rewrite Hn in Hf.
    discriminate.
Qed.

(** C10.  When the username a document arrives with (stripped of spaces
    and of [@]) is the username of a row with another name, the username
    step does not raise: it returns with the username reset to the empty
    string.  A user that is not a System User gets no message at all; a
    System User gets the message that the username exists, followed by at
    most one suggestion. *)
Theorem duplicate_username_is_reset (c : Ctx) :
  (forall r, In r (tabUser (world c)) -> truthy (name r) = true) ->
  truthy (arriving_username (self c)) = true ->
  (exists r, In r (tabUser (world c))
             /\ username r = strip_space_at (arriving_username (self c))
             /\ name r <> name (self c)) ->
  exists c',
    validate_username site c = (c', inr tt)
    /\ username (self c') = ""
    /\ (user_type (self c) <> "System User" -> world c' = world c)
    /\ (user_type (self c) = "System User" ->
        exists rest,
          log (world c')
          = (log (world c)
             ++ Msgprint ("Username " ++ strip_space_at (arriving_username (self c))
                          ++ " already exists") :: rest)%list
          /\ (rest = [] \/ exists s, rest = [Msgprint ("Suggested Username: " ++ s)])).
Proof.
  intros Hnamed Harr Hdup.
  destruct (wp_returns _ _ _ (validate_username_spec c)) as [c' [[] [Hrun Hpost]]].
  exists c'. split; [exact Hrun | ]. apply Hpost; [exact Harr | ].
  apply username_taken_intro; [exact Hnamed | exact Hdup].
Qed.

(** The username step never raises, whatever the document and the table. *)
Lemma validate_username_returns c : returns (validate_username site) c.
Proof.
  destruct (wp_returns _ _ _ (validate_username_spec c)) as [c' [a [Hrun _]]].
  exists a. rewrite Hrun. reflexivity.
Qed.

(** ** The password policy *)

(** The user data the estimator is given: the caller's, or else the
    session user's columns. *)
Definition resolved_user_data (w : World) (user_data : option (list string))
    : option (list string) :=
  match user_data with
  | Some d => Some d
  | None => option_map user_data_of (lookup (session_user w) (tabUser w))
  end.

Definition estimate (w : World) (pwd : string) (user_data : option (list string)) : Zxcvbn :=
  _test_password_strength site pwd (resolved_user_data w user_data).

(** The test both callers make of a candidate password. *)
Definition policy_check (pwd : string) (user_data : option (list string)) : M World unit :=
  result <- test_password_strength site pwd None None user_data ;;
  check_feedback result.

Definition meets_policy (z : Zxcvbn) : bool :=
  (nonzero (score z) && (minimum_password_score site <=? score z)%Z)%bool.

Definition rejection (z : Zxcvbn) : Exn :=
  ValidationError (join " " (zx_warning z :: zx_suggestions z)).

Lemma test_password_strength_run w pwd user_data :
  enable_password_policy site = true -> truthy pwd = true ->
  test_password_strength site pwd None None user_data w
  = (w, inr (Result (score (estimate w pwd user_data))
               {| warning := zx_warning (estimate w pwd user_data);
                  suggestions := zx_suggestions (estimate w pwd user_data);
                  password_policy_validation_passed :=
                    meets_policy (estimate w pwd user_data) |})).
Proof.
  intros Hon Hpwd.
  unfold test_password_strength, bind, gets, when, ret, estimate, meets_policy,
    resolved_user_data, cint.
  rewrite Hon, Hpwd. simpl. destruct user_data; reflexivity.
Qed.

Lemma policy_check_run w pwd user_data :
  enable_password_policy site = true -> truthy pwd = true ->
  policy_check pwd user_data w
  = (w, if meets_policy (estimate w pwd user_data) then inr tt
        else inl (rejection (estimate w pwd user_data))).
Proof.
  intros Hon Hpwd. unfold policy_check, bind.
  rewrite (test_password_strength_run w pwd user_data Hon Hpwd).
  unfold check_feedback. simpl.
  destruct (meets_policy (estimate w pwd user_data)); reflexivity.
Qed.

Lemma validate_rejects_weak_password c pwd :
  enable_password_policy site = true -> truthy pwd = true ->
  in_test site = false -> ignore_password_policy (flags (self c)) = false ->
  new_password (self c) = Some pwd ->
  meets_policy (estimate (world c) pwd (Some (user_data_of (self c)))) = false ->
  wp (validate site) (fun _ _ => False)
    (fun e c' => e = rejection (estimate (world c) pwd (Some (user_data_of (self c))))
                 /\ tabUser (world c') = tabUser (world c)) c.
Proof.
  intros Hon Hpwd Htest Hflag Hnew Hweak.
  unfold validate, clear_new_password. wp_go. rewrite Htest. simpl negb. wp_go.
  unfold password_strength_test. wp_go. rewrite Hflag, Hnew. simpl truthy_opt. rewrite Hpwd.
  wp_go. simpl or_empty.
  eapply wp_of_run; [apply (test_password_strength_run _ _ _ Hon Hpwd) | ].
  cbv beta iota. unfold check_feedback. fields.
  change (user_data_of _) with (user_data_of (self c)).
  unfold estimate in *. simpl resolved_user_data in *. rewrite Hweak. simpl negb. cbv iota.
  unfold handle_password_test_fail, password_test_fail_message. wp_go.
  split; reflexivity.
Qed.

(** A new document: [insert] names it and hands it to [validate], which
    tests the password against the data of the document as named. *)
Lemma insert_rejects_weak_password c pwd :
  enable_password_policy site = true -> truthy pwd = true ->
  in_test site = false -> ignore_password_policy (flags (self c)) = false ->
  new_password (self c) = Some pwd ->
  in_import site = true \/ (get_creation_count 60 (world c) <= throttle_user_limit site)%Z ->
  meets_policy (estimate (world c) pwd (Some (user_data_of (self (fst (autoname c))))))
  = false ->
  wp (insert site) (fun _ _ => False)
    (fun e c' =>
       e = rejection (estimate (world c) pwd (Some (user_data_of (self (fst (autoname c))))))
       /\ tabUser (world c') = tabUser (world c)) c.
Proof.
  intros Hon Hpwd Htest Hflag Hnew Hroom Hweak.
  assert (Hthrottle : (if in_import site then false
                       else (throttle_user_limit site <? get_creation_count 60 (world c))%Z)
                      = false).
  { destruct (in_import site); [reflexivity | ].
    destruct Hroom as [H | H]; [discriminate | apply Z.ltb_ge; exact H]. }
  set (ud := user_data_of (self (fst (autoname c)))) in *.
  assert (Hud : ud = user_data_of (self (fst (autoname c)))) by reflexivity. clearbody ud.
  unfold autoname, bind, gets, assign, modify in Hud. cbn [fst snd self with_self] in Hud.
  unfold insert. wp_go. unfold before_insert, throttle_user_creation. wp_go.
  destruct (in_import site); wp_go; rewrite ?Hthrottle; wp_go; unfold autoname; wp_go.
  all: destruct (is_admin (self c) || is_guest (self c))%bool; wp_go.
  all: cbn [fst snd self with_self] in Hud; unfold user_data_of in Hud; fields_in Hud.
  all: match goal with
       | |- wp (validate site) _ _ ?c1 =>
           eapply wp_conseq;
           [ apply (validate_rejects_weak_password c1 pwd Hon Hpwd Htest)
           | intros ? ? [] | ]
       end.
  all: try (fields; first [exact Hflag | exact Hnew]).
  all: try (unfold user_data_of; fields; rewrite <- Hud; exact Hweak).
  all: cbv beta; unfold user_data_of; fields; rewrite <- Hud; intros e s' [He Htab];
    split; assumption.
Qed.

Lemma meets_policy_iff z :
  meets_policy z = true <-> (score z <> 0 /\ minimum_password_score site <= score z)%Z.
Proof.
  unfold meets_policy, nonzero.
  rewrite andb_true_iff, negb_true_iff, Z.eqb_neq, Z.leb_le. reflexivity.
Qed.

(** C2, as the code has it.  With the policy on, a candidate password that
    is not empty is accepted if and only if its score is not zero and is at
    least the configured minimum (which is "at least the minimum" whenever
    the minimum is 1 or more).  A password that is not accepted is rejected
    by raising a validation error whose message joins, with single spaces,
    the warning and then the suggestions in their order.  The pipeline
    tests the new password of a document unless the site is in test mode
    or the document carries the flag [ignore_password_policy]; where it
    tests it, against the data of the document, a password that is not
    accepted makes [validate] raise that error, and so the save of a stored
    document, and the save of a new document that the creation throttle
    lets pass (tested against the data of the document as [autoname] leaves
    it), with [tabUser] as it was. *)
Theorem password_policy_enforced (w : World) (pwd : string) (user_data : option (list string)) :
  enable_password_policy site = true -> truthy pwd = true ->
  (policy_check pwd user_data w = (w, inr tt)
   <-> (score (estimate w pwd user_data) <> 0
        /\ minimum_password_score site <= score (estimate w pwd user_data))%Z)
  /\ ((1 <= minimum_password_score site)%Z ->
      (policy_check pwd user_data w = (w, inr tt)
       <-> (minimum_password_score site <= score (estimate w pwd user_data))%Z))
  /\ (policy_check pwd user_data w <> (w, inr tt) ->
      policy_check pwd user_data w = (w, inl (rejection (estimate w pwd user_data))))
  /\ (forall c,
        world c = w -> user_data = Some (user_data_of (self c)) ->
        in_test site = false -> ignore_password_policy (flags (self c)) = false ->
        new_password (self c) = Some pwd ->
        policy_check pwd user_data w <> (w, inr tt) ->
        (snd (validate site c) = inl (rejection (estimate w pwd user_data))
         /\ tabUser (world (fst (validate site c))) = tabUser w)
        /\ (is_new (self c) = false -> truthy (name (self c)) = true ->
            snd (save site c) = inl (rejection (estimate w pwd user_data))
            /\ tabUser (world (fst (save site c))) = tabUser w))
  /\ (forall c,
        world c = w -> user_data = Some (user_data_of (self (fst (autoname c)))) ->
        in_test site = false -> ignore_password_policy (flags (self c)) = false ->
        new_password (self c) = Some pwd ->
        policy_check pwd user_data w <> (w, inr tt) ->
        is_new (self c) = true \/ name (self c) = "" ->
        in_import site = true \/ (get_creation_count 60 w <= throttle_user_limit site)%Z ->
        snd (save site c) = inl (rejection (estimate w pwd user_data))
        /\ tabUser (world (fst (save site c))) = tabUser w).
Proof.
  intros Hon Hpwd. rewrite (policy_check_run w pwd user_data Hon Hpwd).
  rewrite <- meets_policy_iff.
  assert (Hiff : (w, if meets_policy (estimate w pwd user_data) then inr tt
                     else inl (rejection (estimate w pwd user_data)))
                 = (w, @inr Exn unit tt)
                 <-> meets_policy (estimate w pwd user_data) = true).
  { destruct (meets_policy (estimate w pwd user_data)); split; intro H;
      try reflexivity; discriminate. }
  split; [exact Hiff | split; [ | split; [ | split ] ] ].
  - intro Hmin. rewrite Hiff, meets_policy_iff. split; [tauto | ]. intro H. split; lia.
  - intro Hno. destruct (meets_policy (estimate w pwd user_data)); [contradiction | reflexivity].
  - intros c Hw Hud Htest Hflag Hnew Hno.
    assert (Hweak : meets_policy (estimate w pwd user_data) = false).
    { destruct (meets_policy (estimate w pwd user_data)); [contradiction | reflexivity]. }
    subst w user_data.
    pose proof (validate_rejects_weak_password c pwd Hon Hpwd Htest Hflag Hnew Hweak) as H.
    destruct (wp_run _ _ _ _ H) as [[c' [a [_ []]]] | [c' [e [Hrun [He Htab]]]]].
    split.
    + rewrite Hrun. simpl. rewrite He. split; [reflexivity | exact Htab].
    + intros Hold Hname. unfold save, bind, gets. rewrite Hold, Hname. simpl.
      rewrite Hrun. simpl. rewrite He. split; [reflexivity | exact Htab].
  - intros c Hw Hud Htest Hflag Hnew Hno Hfresh Hroom.
    assert (Hweak : meets_policy (estimate w pwd user_data) = false).
    { destruct (meets_policy (estimate w pwd user_data)); [contradiction | reflexivity]. }
    subst w user_data.
    pose proof (insert_rejects_weak_password c pwd Hon Hpwd Htest Hflag Hnew Hroom Hweak)
      as H.
    destruct (wp_run _ _ _ _ H) as [[c' [a [_ []]]] | [c' [e [Hrun [He Htab]]]]].
    assert (Hnew_doc : (is_new (self c) || negb (truthy (name (self c))))%bool = true).
    { destruct Hfresh as [Hlocal | Hname]; [rewrite Hlocal; reflexivity | ].
      rewrite Hname. apply orb_true_r. }
    unfold save, bind, gets. rewrite Hnew_doc. rewrite Hrun. simpl. rewrite He.
    split; [reflexivity | exact Htab].
Qed.

(** ** The order of the pipeline *)

(** The methods [validate] calls on a document, in the order of the code;
    four of the calls are conditional. *)
Definition validate_calls (u : User) : list string :=
  ((if negb (in_test site) then ["password_strength_test"] else [])
   ++ (if negb (mem_str (name u) STANDARD_USERS) then ["validate_email_type"] else [])
   ++ ["move_role_profile_name_to_role_profiles"; "populate_role_profile_roles";
       "check_roles_added"; "set_system_user"; "set_full_name"; "check_enable_disable";
       "ensure_unique_roles"; "ensure_unique_role_profiles"; "remove_all_roles_for_guest";
       "validate_username"; "remove_disabled_roles"; "validate_user_email_inbox"]
   ++ (if match user_emails u with [] => false | _ :: _ => true end
       then ["ask_pass_update"] else [])
   ++ ["validate_allowed_modules"; "validate_user_image"; "set_time_zone"]
   ++ (if (negb (mem_str (name u) ["Administrator"; "Guest"])
           && negb (truthy_opt (get_social_login_userid "frappe" u)))%bool
       then ["set_social_login_userid"] else []))%list.

Definition prefix (p l : list string) : Prop := exists t, l = (p ++ t)%list.

Fixpoint index_of (method : string) (l : list string) : option nat :=
  match l with
  | [] => None
  | x :: rest => if x =? method then Some O else option_map S (index_of method rest)
  end.

(** [precedes a b l]: both are called in [l], [a] first. *)
Definition precedes (a b : string) (l : list string) : bool :=
  match index_of a l, index_of b l with
  | Some i, Some j => Nat.ltb i j
  | _, _ => false
  end.

(** [traced x m tr]: run with the frame [steady = x], [m] appends [tr] to
    the call record when it returns, a prefix of [tr] when it raises, and
    keeps the frame when it returns. *)
Definition traced {A : Type} (x : _) (m : M Ctx A) (tr : list string) : Prop :=
  forall l,
    triple (fun c => calls c = l /\ steady c = x) m
      (fun _ c => calls c = (l ++ tr)%list /\ steady c = x)
      (fun _ c => exists p, prefix p tr /\ calls c = (l ++ p)%list).

(** The same without the frame at the end, for the last step. *)
Definition traced_last {A : Type} (x : _) (m : M Ctx A) (tr : list string) : Prop :=
  forall l,
    triple (fun c => calls c = l /\ steady c = x) m
      (fun _ c => calls c = (l ++ tr)%list)
      (fun _ c => exists p, prefix p tr /\ calls c = (l ++ p)%list).

Lemma prefix_refl l : prefix l l.
Proof. exists []. symmetry. apply app_nil_r. Qed.

Lemma prefix_nil l : prefix [] l.
Proof. exists l. reflexivity. Qed.

Lemma prefix_app_r p l t : prefix p l -> prefix p (l ++ t)%list.
Proof. intros [r ->]. exists (r ++ t)%list. symmetry. apply app_assoc. Qed.

Lemma prefix_app_l p l t : prefix p t -> prefix (l ++ p)%list (l ++ t)%list.
Proof. intros [r ->]. exists r. apply app_assoc. Qed.

Lemma traced_weaken {A} x (m : M Ctx A) tr : traced x m tr -> traced_last x m tr.
Proof.
  intros H l. eapply triple_conseq; [apply (H l) | auto | | auto].
  intros a s [Hs _]. exact Hs.
Qed.

Lemma traced_last_eq {A} x (m : M Ctx A) tr tr' :
  traced_last x m tr -> tr = tr' -> traced_last x m tr'.
Proof. intros H <-. exact H. Qed.

Ltac traced_side :=
  solve [ intros ? [? ?]; split; unfold steady, core in *; cbn in *; assumption ].

Lemma traced_silent {A} x (m : M Ctx A) :
  (forall l, stable (fun c => calls c = l /\ steady c = x) m) -> traced x m [].
Proof.
  intros H l. eapply triple_conseq; [apply (H l) | auto | | ].
  - intros a s [Hs Hx]. rewrite app_nil_r. split; assumption.
  - intros e s [Hs Hx]. exists []. split; [apply prefix_nil | rewrite app_nil_r; exact Hs].
Qed.

Lemma traced_call {A} x (method : string) (m : M Ctx A) :
  (forall l, stable (fun c => calls c = l /\ steady c = x) m) ->
  traced x (call method m) [method].
Proof.
  intros H l. unfold call.
  apply triple_seq with (R := fun c => calls c = (l ++ [method])%list /\ steady c = x).
  - apply triple_modify. intros c [Hc Hx]. split; [simpl; rewrite Hc; reflexivity | exact Hx].
  - eapply triple_conseq; [apply (H (l ++ [method])%list) | auto | auto | ].
    intros e s [Hs Hx]. exists [method]. split; [apply prefix_refl | exact Hs].
Qed.

Lemma traced_bind {A B} x (m : M Ctx A) (f : A -> M Ctx B) t1 t2 :
  traced x m t1 -> (forall a, traced_last x (f a) t2) ->
  traced_last x (bind m f) (t1 ++ t2)%list.
Proof.
  intros Hm Hf l.
  apply triple_bind with (R := fun _ c => calls c = (l ++ t1)%list /\ steady c = x).
  - eapply triple_conseq; [apply (Hm l) | auto | auto | ].
    intros e s [p [Hp Hs]]. exists p. split; [apply prefix_app_r; exact Hp | exact Hs].
  - intro a. eapply triple_conseq; [apply (Hf a (l ++ t1)%list) | auto | | ].
    + intros b s Hs. rewrite Hs. symmetry. apply app_assoc.
    + intros e s [p [Hp Hs]]. exists (t1 ++ p)%list.
      split; [apply prefix_app_l; exact Hp | rewrite Hs; symmetry; apply app_assoc].
Qed.

Lemma traced_seq {A B} x (m : M Ctx A) (f : A -> M Ctx B) t1 t2 :
  traced x m t1 -> (forall a, traced x (f a) t2) -> traced x (bind m f) (t1 ++ t2)%list.
Proof.
  intros Hm Hf l.
  apply triple_bind with (R := fun _ c => calls c = (l ++ t1)%list /\ steady c = x).
  - eapply triple_conseq; [apply (Hm l) | auto | auto | ].
    intros e s [p [Hp Hs]]. exists p. split; [apply prefix_app_r; exact Hp | exact Hs].
  - intro a. eapply triple_conseq; [apply (Hf a (l ++ t1)%list) | auto | | ].
    + intros b s [Hs Hx]. split; [rewrite Hs; symmetry; apply app_assoc | exact Hx].
    + intros e s [p [Hp Hs]]. exists (t1 ++ p)%list.
      split; [apply prefix_app_l; exact Hp | rewrite Hs; symmetry; apply app_assoc].
Qed.

Lemma traced_bind_gets {A B} x (g : Ctx -> A) (k : A -> M Ctx B) tr :
  (forall c0, steady c0 = x -> traced_last x (k (g c0)) tr) ->
  traced_last x (bind (gets g) k) tr.
Proof. intros H l c [Hc Hx]. exact (H c Hx l c (conj Hc Hx)). Qed.

Lemma traced_when x (b : bool) (m : M Ctx unit) tr :
  traced x m tr -> traced x (when b m) (if b then tr else []).
Proof.
  intro H. destruct b; [exact H | ]. apply traced_silent. intro l. apply stable_ret.
Qed.

Lemma traced_last_when x (b : bool) (m : M Ctx unit) tr :
  traced_last x m tr -> traced_last x (when b m) (if b then tr else []).
Proof.
  intro H. destruct b; [exact H | ].
  apply traced_weaken. apply traced_silent. intro l. apply stable_ret.
Qed.

Lemma traced_last_call {A} x (method : string) (m : M Ctx A) :
  (forall l, stable (fun c => calls c = l) m) -> traced_last x (call method m) [method].
Proof.
  intros H l. unfold call.
  apply triple_seq with (R := fun c => calls c = (l ++ [method])%list).
  - apply triple_modify. intros c [Hc Hx]. simpl. rewrite Hc. reflexivity.
  - eapply triple_conseq; [apply (H (l ++ [method])%list) | auto | auto | ].
    intros e s Hs. exists [method]. split; [apply prefix_refl | exact Hs].
Qed.

Lemma steady_name c c' : steady c = steady c' -> name (self c) = name (self c').
Proof. unfold steady, core. intro H. injection H. intros. assumption. Qed.

Lemma steady_user_emails c c' :
  steady c = steady c' -> user_emails (self c) = user_emails (self c').
Proof. unfold steady, core. intro H. injection H. intros. assumption. Qed.

Lemma steady_social_logins c c' :
  steady c = steady c' -> social_logins (self c) = social_logins (self c').
Proof. unfold steady, core. intro H. injection H. intros. assumption. Qed.

Ltac silent := apply traced_silent; intro; stable_by traced_side.
Ltac called := apply traced_call; intro; stable_by traced_side.

Lemma validate_traced c0 :
  traced_last (steady c0) (validate site) (validate_calls (self c0)).
Proof.
  unfold validate.
  eapply traced_last_eq.
  - eapply traced_bind; [silent | intros _].
    eapply traced_bind; [apply traced_when; called | intros _].
    apply traced_bind_gets. intros c1 H1. rewrite (steady_name _ _ H1).
    eapply traced_bind;
      [apply traced_when; eapply traced_seq; [silent | intros _; called] | intros _].
    do 12 (eapply traced_bind; [called | intros _]).
    apply traced_bind_gets. intros c2 H2. rewrite (steady_user_emails _ _ H2).
    eapply traced_bind; [apply traced_when; called | intros _].
    do 3 (eapply traced_bind; [called | intros _]).
    apply traced_bind_gets. intros c3 H3.
    eapply traced_bind; [silent | intros _].
    apply traced_bind_gets. intros c4 H4.
    unfold get_social_login_userid.
    rewrite (steady_name _ _ H4), (steady_social_logins _ _ H4).
    apply traced_last_when.
    eapply traced_bind; [silent | intros h].
    apply traced_last_call. intro. stable_by ltac:(solve [intros; cbn in *; assumption]).
  - unfold validate_calls, get_social_login_userid.
    destruct (negb (in_test site)); destruct (negb (mem_str (name (self c0)) STANDARD_USERS));
      destruct (user_emails (self c0));
      destruct (negb (mem_str (name (self c0)) ["Administrator"; "Guest"])
                && negb (truthy_opt
                           (option_map userid
                              (find (fun p => provider p =? "frappe")
                                 (social_logins (self c0))))))%bool;
      reflexivity.
Qed.

(** What the call record of [validate] looks like on every run. *)
Lemma validate_call_record c :
  exists p, calls (fst (validate site c)) = (calls c ++ p)%list
            /\ prefix p (validate_calls (self c))
            /\ (returns (validate site) c -> p = validate_calls (self c)).
Proof.
  pose proof (validate_traced c (calls c) c (conj eq_refl eq_refl)) as H.
  unfold wp, returns in *. destruct (validate site c) as [c' [e | a]]; simpl.
  - destruct H as [p [Hp Hc]]. exists p. split; [exact Hc | split; [exact Hp | ] ].
    intros [a Ha]. discriminate.
  - exists (validate_calls (self c)). split; [exact H | split; [apply prefix_refl | auto] ].
Qed.

(** ** Roles and role profiles *)

Lemma eqb_opt_eq a b : eqb_opt a b = true <-> a = b.
Proof.
  destruct a as [x | ], b as [y | ]; simpl; split; intro H; try discriminate; try reflexivity.
  - apply String.eqb_eq in H. subst. reflexivity.
  - injection H as ->. apply String.eqb_refl.
Qed.

Lemma mem_opt_In a l : mem_opt a l = true <-> In a l.
Proof.
  unfold mem_opt. rewrite existsb_exists. split.
  - intros [x [Hx He]]. apply eqb_opt_eq in He. subst. exact Hx.
  - intro H. exists a. split; [exact H | apply eqb_opt_eq; reflexivity].
Qed.

Lemma mem_opt_false a l : mem_opt a l = false <-> ~ In a l.
Proof.
  rewrite <- mem_opt_In. destruct (mem_opt a l); split; intro H; try reflexivity;
    try discriminate; try (intro; discriminate). exfalso. apply H. reflexivity.
Qed.

Lemma In_set_add s x r : In r (set_add s x) <-> In r s \/ r = x.
Proof.
  unfold set_add. destruct (mem_opt x s) eqn:Hx.
  - apply mem_opt_In in Hx. split; [auto | ]. intros [H | ->]; assumption.
  - rewrite in_app_iff. simpl. intuition (subst; auto).
Qed.

Lemma In_set_update xs : forall s r, In r (set_update s xs) <-> In r s \/ In r xs.
Proof.
  unfold set_update. induction xs as [ | x xs IH]; intros s r; simpl.
  - tauto.
  - rewrite IH, In_set_add. split; intros H; intuition (subst; auto).
Qed.

(** What [ensure_unique_roles] leaves: the first row of every non-empty
    role that is not in [exists_]. *)
Lemma unique_roles_spec rows : forall exists_,
  NoDup (map role (unique_roles exists_ rows))
  /\ (forall r, In r (map role (unique_roles exists_ rows))
               <-> In r (map role rows) /\ truthy_opt r = true /\ ~ In r exists_).
Proof.
  induction rows as [ | d rest IH]; intro exists_; simpl.
  - split; [constructor | ]. intro r. tauto.
  - destruct (IH (set_add exists_ (role d))) as [Hnd Hin].
    destruct (negb (truthy_opt (role d)) || mem_opt (role d) exists_)%bool eqn:Hdrop.
    + split; [exact Hnd | ]. intro r. rewrite Hin, In_set_add.
      apply orb_true_iff in Hdrop. rewrite negb_true_iff, mem_opt_In in Hdrop.
      split.
      * intros [H1 [H2 H3]]. split; [right; exact H1 | split; [exact H2 | tauto] ].
      * intros [[H1 | H1] [H2 H3]].
        -- subst r. destruct Hdrop as [Hd | Hd]; [congruence | contradiction].
        -- split; [exact H1 | split; [exact H2 | ] ]. intros [H4 | H4]; [contradiction | ].
           subst r. destruct Hdrop as [Hd | Hd]; [congruence | contradiction].
    + apply orb_false_iff in Hdrop. rewrite negb_false_iff, mem_opt_false in Hdrop.
      destruct Hdrop as [Htruthy Hnew]. simpl. split.
      * constructor; [ | exact Hnd]. rewrite Hin, In_set_add. tauto.
      * intro r. rewrite Hin, In_set_add. split.
        -- intros [<- | [H1 [H2 H3]]]; [tauto | ]. tauto.
        -- intros [[H1 | H1] [H2 H3]]; [left; exact H1 | ].
           destruct (eqb_opt (role d) r) eqn:He.
           ++ apply eqb_opt_eq in He. left. exact He.
           ++ right. split; [exact H1 | split; [exact H2 | ] ].
              intros [H4 | H4]; [contradiction | ]. subst r.
              assert (eqb_opt (role d) (role d) = true) by (apply eqb_opt_eq; reflexivity).
              congruence.
Qed.

Lemma NoDup_map_filter {A B} (f : A -> B) (keep : A -> bool) (l : list A) :
  NoDup (map f l) -> NoDup (map f (filter keep l)).
Proof.
  induction l as [ | a l IH]; simpl; intro H; [constructor | ].
  inversion H as [ | ? ? Hnotin Hnd]; subst.
  destruct (keep a); simpl; [ | exact (IH Hnd)].
  constructor; [ | exact (IH Hnd)].
  intro Hin. apply Hnotin. rewrite in_map_iff in *.
  destruct Hin as [x [Hx Hf]]. apply filter_In in Hf. exists x. tauto.
Qed.

Lemma In_map_filter_role (keep : option string -> bool) (rows : list HasRole) r :
  In r (map role (filter (fun d => keep (role d)) rows))
  <-> In r (map role rows) /\ keep r = true.
Proof.
  rewrite !in_map_iff. split.
  - intros [d [<- Hd]]. apply filter_In in Hd. split; [exists d | ]; tauto.
  - intros [[d [<- Hd]] Hk]. exists d. split; [reflexivity | ].
    apply filter_In. tauto.
Qed.

(** The columns the role reconciler works on. *)
Definition View : Type :=
  (string * string * string * list UserRoleProfile * list HasRole)%type.

Definition user_view (u : User) : View :=
  (name u, user_type u, role_profile_name u, role_profiles u, roles u).

Definition view (c : Ctx) : View := user_view (self c).

Ltac view_side := solve [ intros; unfold view, user_view in *; cbn in *; assumption ].

Lemma keeps_view {A} (m : M Ctx A) :
  (forall x, stable (fun c => view c = x) m) ->
  forall c, wp m (fun _ c' => view c' = view c) (fun _ _ => True) c.
Proof.
  intros H c. eapply wp_conseq; [apply (H (view c) c eq_refl) | auto | auto].
Qed.

(** The roles contributed by a list of profiles, or the exception of a
    profile that does not exist. *)
Definition profile_union (profiles : list UserRoleProfile) (acc : list (option string))
    : Exn + list (option string) :=
  snd (@profile_roles site unit profiles acc tt).

Lemma profile_roles_run {S} profiles :
  forall acc (s : S), profile_roles site profiles acc s = (s, profile_union profiles acc).
Proof.
  unfold profile_union. induction profiles as [ | rp rest IH]; intros acc s; simpl.
  - reflexivity.
  - destruct (role_profile_doc site (role_profile rp)); [apply IH | reflexivity].
Qed.

(** The effect of the reconciling steps, on the view. *)
Definition moved (v : View) : View :=
  let '(n, t, pn, ps, rs) := v in
  if negb (truthy pn) then v
  else if mem_str pn (map role_profile ps) then (n, t, "", ps, rs)
  else (n, t, "", (ps ++ [{| role_profile := pn |}])%list, rs).

Definition reconcile (union : list (option string)) (rows : list HasRole) : list HasRole :=
  let kept := filter (fun r => mem_opt (role r) union) rows in
  (kept ++ map (fun r => {| role := r |})
             (filter (fun r => negb (mem_opt r (map role kept))) union))%list.

Definition populated (v : View) : View :=
  let '(n, t, pn, ps, rs) := v in
  match ps with
  | [] => v
  | _ :: _ =>
      if mem_str n STANDARD_USERS then (n, t, pn, [], rs)
      else match profile_union ps [] with
           | inr union => (n, t, pn, ps, reconcile union rs)
           | inl _ => v
           end
  end.

Lemma move_view c :
  wp move_role_profile_name_to_role_profiles
    (fun _ c' => view c' = moved (view c)) (fun _ _ => True) c.
Proof.
  unfold move_role_profile_name_to_role_profiles, moved, view, user_view. wp_go.
  wp_case; [reflexivity | ]. wp_case; reflexivity.
Qed.

(** The profiles of a user that is not reserved all exist. *)
Definition union_ok (v : View) : Prop :=
  let '(n, _, _, ps, _) := v in
  ps <> [] -> mem_str n STANDARD_USERS = false ->
  exists union, profile_union ps [] = inr union.

Lemma populate_view c :
  wp (populate_role_profile_roles site)
    (fun _ c' => view c' = populated (view c) /\ union_ok (view c)) (fun _ _ => True) c.
Proof.
  unfold populate_role_profile_roles, populated, union_ok, view, user_view. wp_go.
  destruct (role_profiles (self c)) as [ | rp ps] eqn:Hps; wp_go.
  { rewrite Hps. split; [reflexivity | intro H; contradiction]. }
  wp_case; [split; [reflexivity | intros _ H; discriminate] | ].
  eapply wp_of_run; [apply profile_roles_run | ].
  destruct (profile_union (rp :: ps) []) as [e | union]; [exact I | ].
  unfold append_roles. wp_go. rewrite Hps.
  split; [reflexivity | intros _ _; eexists; reflexivity].
Qed.

(** A role flagged [desk_access] in the Role catalogue. *)
Definition desk_role (r : option string) : bool :=
  existsb (fun row => ((desk_access row =? 1)%Z && eqb_opt (Some (role_name row)) r)%bool)
    (tabRole site).

Lemma length_filter_zero {A} (keep : A -> bool) (l : list A) :
  negb (List.length (filter keep l) =? 0)%nat = existsb keep l.
Proof.
  induction l as [ | a l IH]; simpl; [reflexivity | ].
  destruct (keep a); simpl; [reflexivity | exact IH].
Qed.

Lemma has_desk_access_roles u :
  has_desk_access site u = existsb desk_role (map role (roles u)).
Proof.
  unfold has_desk_access. rewrite length_filter_zero.
  destruct (roles u) as [ | d rest] eqn:Hr; [reflexivity | ]. rewrite <- Hr. clear Hr.
  apply eq_true_iff_eq. unfold desk_role, mem_opt.
  rewrite !existsb_exists. split.
  - intros [row [Hrow H]]. apply andb_true_iff in H. destruct H as [Hd Hm].
    apply existsb_exists in Hm. destruct Hm as [r [Hr He]].
    exists r. split; [exact Hr | ]. apply existsb_exists. exists row.
    split; [exact Hrow | ]. rewrite Hd, He. reflexivity.
  - intros [r [Hr H]]. apply existsb_exists in H. destruct H as [row [Hrow H]].
    apply andb_true_iff in H. destruct H as [Hd He].
    exists row. split; [exact Hrow | ]. rewrite Hd. simpl.
    apply existsb_exists. exists r. split; assumption.
Qed.

Definition derived_type (rows : list HasRole) : string :=
  if existsb desk_role (map role rows) then "System User" else "Website User".

(** The test of [set_system_user]: the user type is unset, or names a
    standard User Type. *)
Definition standard_branch (t : string) : bool :=
  negb (truthy t && negb (user_type_is_standard site t)).

Definition typed (v : View) : View :=
  let '(n, t, pn, ps, rs) := v in
  if standard_branch t then (n, derived_type rs, pn, ps, rs)
  else match user_type_mapper n with
       | Some fixed => (n, fixed, pn, ps, rs)
       | None => v
       end.

Definition shape (v : View) : string * string * list UserRoleProfile :=
  let '(n, _, pn, ps, _) := v in (n, pn, ps).

(** When [set_system_user] settles the user type without the type's own
    role template. *)
Definition plain_type (v : View) : Prop :=
  let '(n, t, _, _, _) := v in
  standard_branch t = true \/ user_type_mapper n <> None.

Ltac shape_side :=
  solve [ intros; unfold shape, view, user_view in *; cbn in *; assumption ].

Lemma set_system_user_view c :
  wp (set_system_user site)
    (fun _ c' =>
       shape (view c') = shape (view c) /\ (plain_type (view c) -> view c' = typed (view c)))
    (fun _ _ => True) c.
Proof.
  unfold set_system_user, typed, plain_type, view, user_view, standard_branch. wp_go.
  destruct (truthy (user_type (self c)) && negb (user_type_is_standard site (user_type (self c))))%bool
    eqn:Hb; simpl negb; cbv iota.
  - destruct (user_type_mapper (name (self c))) as [fixed | ] eqn:Hm; wp_go.
    + split; [reflexivity | intros _; reflexivity].
    + eapply wp_conseq with (Q' := fun _ c' => shape (view c') = shape (view c));
        [ | | auto].
      * assert (Hs : stable (fun c' => shape (view c') = shape (view c))
                       (set_roles_and_modules_based_on_user_type site))
          by stable_by shape_side.
        exact (Hs c eq_refl).
      * intros _ c' Hshape. split; [exact Hshape | ].
        intros [H | H]; [discriminate | contradiction].
  - wp_go. rewrite has_desk_access_roles. unfold derived_type.
    split; [reflexivity | intros _; reflexivity].
Qed.

Definition settled (v : View) : View :=
  let '(n, t, pn, ps, rs) := v in
  (n, t, pn, unique_role_profiles [] ps,
   filter (fun r => negb (is_disabled_role site (role r)))
     (if n =? "Guest"
      then filter (fun d => eqb_opt (role d) (Some "Guest")) (unique_roles [] rs)
      else unique_roles [] rs)).

(** One step of the chain: [H] relates the view at hand to the initial one. *)
Ltac keep_view H :=
  try apply wp_bind; eapply wp_conseq;
  [ apply keeps_view; intro; stable_by view_side
  | cbv beta; let c' := fresh "c" in let H' := fresh "Hv" in
    intros _ c' H'; rewrite H in H'; clear H; rename H' into H
  | intros; exact I ].

Ltac view_step lemma H :=
  try apply wp_bind; apply wp_call; eapply wp_conseq;
  [ apply lemma
  | cbv beta; let c' := fresh "c" in let H' := fresh "Hv" in
    intros _ c' H'; change (view (with_calls _ ?c)) with (view c) in H';
    rewrite H in H'; clear H; rename H' into H
  | intros; exact I ].

Lemma ensure_unique_roles_view c :
  wp ensure_unique_roles
    (fun _ c' => view c' = let '(n, t, pn, ps, rs) := view c in (n, t, pn, ps, unique_roles [] rs))
    (fun _ _ => True) c.
Proof. unfold ensure_unique_roles. wp_go. reflexivity. Qed.

Lemma ensure_unique_role_profiles_view c :
  wp ensure_unique_role_profiles
    (fun _ c' => view c' = let '(n, t, pn, ps, rs) := view c in
                           (n, t, pn, unique_role_profiles [] ps, rs))
    (fun _ _ => True) c.
Proof. unfold ensure_unique_role_profiles. wp_go. reflexivity. Qed.

Lemma remove_all_roles_for_guest_view c :
  wp remove_all_roles_for_guest
    (fun _ c' => view c' = let '(n, t, pn, ps, rs) := view c in
                           (n, t, pn, ps,
                            if n =? "Guest"
                            then filter (fun d => eqb_opt (role d) (Some "Guest")) rs
                            else rs))
    (fun _ _ => True) c.
Proof.
  unfold remove_all_roles_for_guest, view, user_view. wp_go.
  destruct (name (self c) =? "Guest"); wp_go; reflexivity.
Qed.

Lemma remove_disabled_roles_view c :
  wp (remove_disabled_roles site)
    (fun _ c' => view c' = let '(n, t, pn, ps, rs) := view c in
                           (n, t, pn, ps,
                            filter (fun r => negb (is_disabled_role site (role r))) rs))
    (fun _ _ => True) c.
Proof. unfold remove_disabled_roles. wp_go. reflexivity. Qed.

Lemma plain_type_reconciled v : plain_type (populated (moved v)) <-> plain_type v.
Proof.
  destruct v as [[[[n t] pn] ps] rs]. unfold moved, populated.
  destruct (negb (truthy pn)); [ | destruct (mem_str pn (map role_profile ps)) ];
    repeat match goal with
           | |- context [match ?l with [] => _ | _ :: _ => _ end] => destruct l
           | |- context [if ?b then _ else _] => destruct b
           | |- context [match ?x with inl _ => _ | inr _ => _ end] => destruct x
           end; reflexivity.
Qed.

Lemma validate_view c v0 :
  view c = v0 ->
  wp (validate site)
    (fun _ c' =>
       union_ok (moved v0)
       /\ exists v, view c' = settled v
                    /\ shape v = shape (populated (moved v0))
                    /\ (plain_type v0 -> v = typed (populated (moved v0))))
    (fun _ _ => True) c.
Proof.
  intro Hv. unfold validate.
  keep_view Hv. keep_view Hv. wp_go. keep_view Hv.
  view_step move_view Hv.
  apply wp_bind. apply wp_call. eapply wp_conseq; [apply populate_view | | auto].
  cbv beta. intros _ cp [Hp Hok]. change (view (with_calls _ ?x)) with (view x) in Hp, Hok.
  rewrite Hv in Hp, Hok. clear Hv. rename Hp into Hv.
  keep_view Hv.
  apply wp_bind. apply wp_call. eapply wp_conseq; [apply set_system_user_view | | auto].
  cbv beta. intros _ c' [Hshape Htyped].
  change (view (with_calls _ ?x)) with (view x) in Hshape, Htyped.
  rewrite Hv in Hshape, Htyped. rewrite plain_type_reconciled in Htyped. clear Hv.
  pose proof (eq_refl (view c')) as Hv. set (v := view c') in Hv at 2, Hshape, Htyped.
  clearbody v.
  keep_view Hv. keep_view Hv.
  view_step ensure_unique_roles_view Hv. view_step ensure_unique_role_profiles_view Hv.
  view_step remove_all_roles_for_guest_view Hv. keep_view Hv.
  view_step remove_disabled_roles_view Hv.
  keep_view Hv. wp_go. keep_view Hv. keep_view Hv. keep_view Hv. keep_view Hv. wp_go.
  keep_view Hv. wp_go.
  eapply wp_conseq; [apply keeps_view; intro; stable_by view_side | | auto].
  cbv beta. intros _ c'' Hend. rewrite Hv in Hend. split; [exact Hok | ]. exists v.
  split; [ | split; assumption].
  rewrite Hend. destruct v as [[[[n t] pn] ps] rs]. reflexivity.
Qed.

(** A role that one of the named profiles contributes. *)
Definition contributed (profiles : list string) (r : option string) : Prop :=
  exists p rows, In p profiles /\ role_profile_doc site p = Some rows /\ In r (map role rows).

Lemma profile_union_spec profiles : forall acc union,
  profile_union profiles acc = inr union ->
  forall r, In r union <-> In r acc \/ contributed (map role_profile profiles) r.
Proof.
  unfold profile_union, contributed.
  induction profiles as [ | rp rest IH]; intros acc union; simpl.
  - intros [= <-] r. split; [auto | ]. intros [H | [p [rows [[] _]]]]. exact H.
  - destruct (role_profile_doc site (role_profile rp)) as [rows | ] eqn:Hdoc; [ | discriminate].
    intros Hu r. rewrite (IH _ _ Hu r), In_set_update. split.
    + intros [[H | H] | [p [rows' [Hp [Hd Hr]]]]]; [left; exact H | right | right].
      * exists (role_profile rp), rows. auto.
      * exists p, rows'. auto.
    + intros [H | [p [rows' [[<- | Hp] [Hd Hr]]]]]; [left; left; exact H | | ].
      * rewrite Hdoc in Hd. injection Hd as <-. left. right. exact Hr.
      * right. exists p, rows'. auto.
Qed.

Lemma reconcile_spec union rows r : In r (map role (reconcile union rows)) <-> In r union.
Proof.
  unfold reconcile. rewrite map_app, in_app_iff, map_map. simpl. rewrite map_id.
  rewrite (In_map_filter_role (fun x => mem_opt x union)), mem_opt_In, filter_In.
  rewrite negb_true_iff, mem_opt_false, (In_map_filter_role (fun x => mem_opt x union)).
  rewrite mem_opt_In. split; [tauto | ]. intro Hu.
  destruct (mem_opt r (map role rows)) eqn:Hmem.
  - apply mem_opt_In in Hmem. left. tauto.
  - apply mem_opt_false in Hmem. right. tauto.
Qed.

Lemma mem_str_false s l : mem_str s l = false <-> ~ In s l.
Proof.
  rewrite <- mem_str_In. destruct (mem_str s l); split; intro H; try reflexivity;
    try discriminate; try (intro; discriminate). exfalso. apply H. reflexivity.
Qed.

Lemma unique_role_profiles_spec rows : forall seen x,
  In x (map role_profile (unique_role_profiles seen rows))
  <-> In x (map role_profile rows) /\ ~ In x seen.
Proof.
  induction rows as [ | rp rest IH]; intros seen x; simpl.
  - tauto.
  - destruct (mem_str (role_profile rp) seen) eqn:Hseen.
    + apply mem_str_In in Hseen. rewrite IH. split; [tauto | ].
      intros [[<- | H] Hx]; [contradiction | tauto].
    + apply mem_str_false in Hseen. simpl. rewrite IH, in_app_iff. simpl. split.
      * intros [<- | [H1 H2]]; [tauto | ]. tauto.
      * intros [[H | H] Hx]; [left; exact H | ].
        destruct (String.eqb (role_profile rp) x) eqn:He.
        -- apply String.eqb_eq in He. left. exact He.
        -- apply String.eqb_neq in He. right. split; [exact H | ]. intros [H1 | [H1 | []]];
             [contradiction | contradiction].
Qed.

Lemma contributed_unique profiles r :
  contributed (map role_profile (unique_role_profiles [] profiles)) r
  <-> contributed (map role_profile profiles) r.
Proof.
  unfold contributed. split; intros [p [rows [Hp H]]]; exists p, rows; split; try exact H.
  - apply unique_role_profiles_spec in Hp. tauto.
  - apply unique_role_profiles_spec. split; [exact Hp | intros []].
Qed.

Lemma moved_inv n t pn ps rs :
  exists pn' ps', moved (n, t, pn, ps, rs) = (n, t, pn', ps', rs).
Proof.
  unfold moved. destruct (negb (truthy pn)); [eauto | ].
  destruct (mem_str pn (map role_profile ps)); eauto.
Qed.

(** The roles [validate] leaves are those of [settled]: no duplicate, no
    empty reference. *)
Lemma settled_roles_unique v :
  let '(_, _, _, _, rs) := settled v in
  NoDup (map role rs) /\ forall d, In d rs -> truthy_opt (role d) = true.
Proof.
  destruct v as [[[[n t] pn] ps] rs]. simpl.
  destruct (unique_roles_spec rs []) as [Hnd Hin]. split.
  - apply NoDup_map_filter. destruct (n =? "Guest"); [apply NoDup_map_filter | ]; exact Hnd.
  - intros d Hd. apply filter_In in Hd. destruct Hd as [Hd _].
    assert (Hd' : In d (unique_roles [] rs)).
    { destruct (n =? "Guest"); [apply filter_In in Hd; tauto | exact Hd]. }
    apply (Hin (role d)). apply in_map. exact Hd'.
Qed.

Lemma not_guest n : mem_str n STANDARD_USERS = false -> (n =? "Guest") = false.
Proof.
  intro H. destruct (n =? "Guest") eqn:Hg; [ | reflexivity].
  apply String.eqb_eq in Hg. subst n. discriminate.
Qed.

Lemma validate_run_view c :
  returns (validate site) c ->
  union_ok (moved (view c))
  /\ exists v, view (fst (validate site c)) = settled v
               /\ shape v = shape (populated (moved (view c)))
               /\ (plain_type (view c) -> v = typed (populated (moved (view c)))).
Proof.
  intros [a Ha]. pose proof (validate_view c (view c) eq_refl) as H. unfold wp in H.
  destruct (validate site c) as [c' [e | a']]; [discriminate | exact H].
Qed.

(** The roles [set_roles_and_modules_based_on_user_type] leaves for the
    User Type [d]: a type with a role of its own replaces the roles. *)
Definition template_roles (d : UserType) (n : string) (rs : list HasRole) : list HasRole :=
  if truthy (user_type_role d)
  then if user_linked_with_permission_on_doctype d n
       then [ {| role := Some (user_type_role d) |} ]
       else []
  else rs.

(** [set_system_user] on a user that is not reserved and names a User Type
    that is not standard. *)
Definition templated (v v' : View) : Prop :=
  let '(n, t, pn, ps, rs) := v in
  standard_branch t = false -> user_type_mapper n = None ->
  forall d, user_type_doc site t = Some d -> v' = (n, t, pn, ps, template_roles d n rs).

Lemma set_system_user_templated c :
  wp (set_system_user site) (fun _ c' => templated (view c) (view c')) (fun _ _ => True) c.
Proof.
  unfold set_system_user, templated, view, user_view, standard_branch. wp_go.
  destruct (truthy (user_type (self c)) && negb (user_type_is_standard site (user_type (self c))))%bool
    eqn:Hb; simpl negb; cbv iota.
  - destruct (user_type_mapper (name (self c))) as [fixed | ] eqn:Hm; wp_go.
    + intros _ H. discriminate H.
    + unfold set_roles_and_modules_based_on_user_type, template_roles. wp_go.
      destruct (user_type_doc site (user_type (self c))) as [d | ]; wp_go; [ | exact I].
      destruct (truthy (user_type_role d)) eqn:Ht; wp_go.
      * destruct (user_linked_with_permission_on_doctype d (name (self c))) eqn:Hl; wp_go;
          intros _ _ d' [= <-]; rewrite Ht, Hl; reflexivity.
      * intros _ _ d' [= <-]. rewrite Ht. reflexivity.
  - wp_go. intros H. discriminate H.
Qed.

(** The chain of [validate_view], for any account [P] of [set_system_user]. *)
Lemma validate_view_by (P : View -> View -> Prop) :
  (forall c, wp (set_system_user site) (fun _ c' => P (view c) (view c')) (fun _ _ => True) c) ->
  forall c v0,
    view c = v0 ->
    wp (validate site)
      (fun _ c' => exists v, view c' = settled v /\ P (populated (moved v0)) v)
      (fun _ _ => True) c.
Proof.
  intros HP c v0 Hv. unfold validate.
  keep_view Hv. keep_view Hv. wp_go. keep_view Hv.
  view_step move_view Hv.
  apply wp_bind. apply wp_call. eapply wp_conseq; [apply populate_view | | auto].
  cbv beta. intros _ cp [Hp _]. change (view (with_calls _ ?x)) with (view x) in Hp.
  rewrite Hv in Hp. clear Hv. rename Hp into Hv.
  keep_view Hv.
  apply wp_bind. apply wp_call. eapply wp_conseq; [apply HP | | auto].
  cbv beta. intros _ c' Htyped.
  change (view (with_calls _ ?x)) with (view x) in Htyped.
  rewrite Hv in Htyped. clear Hv.
  pose proof (eq_refl (view c')) as Hv. set (v := view c') in Hv at 2, Htyped.
  clearbody v.
  keep_view Hv. keep_view Hv.
  view_step ensure_unique_roles_view Hv. view_step ensure_unique_role_profiles_view Hv.
  view_step remove_all_roles_for_guest_view Hv. keep_view Hv.
  view_step remove_disabled_roles_view Hv.
  keep_view Hv. wp_go. keep_view Hv. keep_view Hv. keep_view Hv. keep_view Hv. wp_go.
  keep_view Hv. wp_go.
  eapply wp_conseq; [apply keeps_view; intro; stable_by view_side | | auto].
  cbv beta. intros _ c'' Hend. rewrite Hv in Hend. exists v.
  split; [ | exact Htyped].
  rewrite Hend. destruct v as [[[[n t] pn] ps] rs]. reflexivity.
Qed.

Lemma validate_run_templated c :
  returns (validate site) c ->
  exists v, view (fst (validate site c)) = settled v
            /\ templated (populated (moved (view c))) v.
Proof.
  intros [a Ha].
  pose proof (validate_view_by templated set_system_user_templated c (view c) eq_refl) as H.
  unfold wp in H. destruct (validate site c) as [c' [e | a']]; [discriminate | exact H].
Qed.

Lemma standard_user_mapped n : user_type_mapper n = None <-> ~ In n STANDARD_USERS.
Proof.
  unfold user_type_mapper, STANDARD_USERS. simpl.
  destruct (String.eqb_spec n "Administrator") as [-> | Ha]; [split; [discriminate | tauto] | ].
  destruct (String.eqb_spec n "Guest") as [-> | Hg]; [split; [discriminate | tauto] | ].
  split; [ | reflexivity]. intros _ [H | [H | []]]; congruence.
Qed.

(** The roles of a user that is not reserved, once [settled], for the
    roles [rs] that [set_system_user] left. *)
Lemma settled_roles n t pn ps rs r :
  mem_str n STANDARD_USERS = false ->
  let '(_, _, _, _, rs') := settled (n, t, pn, ps, rs) in
  In r (map role rs')
  <-> In r (map role rs) /\ truthy_opt r = true /\ is_disabled_role site r = false.
Proof.
  intro Hnot. unfold settled. rewrite (not_guest _ Hnot).
  rewrite (In_map_filter_role (fun x => negb (is_disabled_role site x))), negb_true_iff.
  destruct (unique_roles_spec rs []) as [_ Hin]. rewrite Hin. simpl. tauto.
Qed.

(** The User Type the document names has no role of its own to impose: the
    type is unset or standard, or its document has an empty [role]. *)
Definition keeps_roles (t : string) : Prop :=
  standard_branch t = true
  \/ exists d, user_type_doc site t = Some d /\ user_type_role d = "".

(** C1, as the code has it.  When validation returns, the roles table has
    no duplicate role and no empty role reference.  A reserved identity
    ends with no role profile.  For any other user with role profiles,
    whose user type is unset or standard or is a User Type without a role
    of its own, the roles are exactly the roles the profiles contribute,
    less the empty references and the roles that are disabled in the Role
    catalogue.  For any other user whose User Type is not standard and has
    a role of its own, the roles are replaced: what is left is that role,
    if the user is linked with the type's document and the role is not
    disabled, and nothing otherwise, whatever the profiles contribute. *)
Theorem roles_after_validation (c : Ctx) :
  returns (validate site) c ->
  (NoDup (map role (roles (self (fst (validate site c)))))
   /\ forall d, In d (roles (self (fst (validate site c)))) -> truthy_opt (role d) = true)
  /\ (In (name (self c)) STANDARD_USERS -> role_profiles (self (fst (validate site c))) = [])
  /\ (~ In (name (self c)) STANDARD_USERS ->
      role_profiles (self (fst (validate site c))) <> [] ->
      keeps_roles (user_type (self c)) ->
      forall r,
        In r (map role (roles (self (fst (validate site c)))))
        <-> contributed (map role_profile (role_profiles (self (fst (validate site c))))) r
            /\ truthy_opt r = true /\ is_disabled_role site r = false)
  /\ (~ In (name (self c)) STANDARD_USERS ->
      standard_branch (user_type (self c)) = false ->
      forall d, user_type_doc site (user_type (self c)) = Some d -> user_type_role d <> "" ->
      forall r,
        In r (map role (roles (self (fst (validate site c)))))
        <-> user_linked_with_permission_on_doctype d (name (self c)) = true
            /\ r = Some (user_type_role d) /\ is_disabled_role site r = false).
Proof.
  intro Hret. destruct (validate_run_view c Hret) as [Hok [v [Hend [Hshape Htyped]]]].
  destruct (validate_run_templated c Hret) as [v' [Hend' Htemplated]].
  set (c' := fst (validate site c)) in *. clearbody c'.
  unfold view, user_view in Hend, Hshape, Htyped, Hok, Hend', Htemplated.
  destruct (moved_inv (name (self c)) (user_type (self c)) (role_profile_name (self c))
              (role_profiles (self c)) (roles (self c))) as [pn' [ps1 Hmoved]].
  rewrite Hmoved in *. clear Hmoved.
  split; [ | split; [ | split] ].
  - pose proof (settled_roles_unique v) as Hu. rewrite <- Hend in Hu. exact Hu.
  - intro Hres. apply mem_str_In in Hres.
    destruct v as [[[[n t] pn] ps] rs]. simpl in Hend.
    injection Hend as _ _ _ Hps _. rewrite Hps.
    unfold populated in Hshape. rewrite Hres in Hshape.
    destruct ps1; simpl in Hshape; injection Hshape as _ _ ->; reflexivity.
  - intros Hnot Hps Hkeeps r. pose proof (proj2 (standard_user_mapped _) Hnot) as Hmap.
    apply mem_str_false in Hnot.
    (* the roles as [set_system_user] leaves them are the reconciled ones *)
    assert (Hsame : exists t' rs0 ps0,
               populated (name (self c), user_type (self c), pn', ps1, roles (self c))
               = (name (self c), user_type (self c), pn', ps0, rs0)
               /\ (name (self c'), user_type (self c'), role_profile_name (self c'),
                   role_profiles (self c'), roles (self c'))
                  = settled (name (self c), t', pn', ps0, rs0)).
    { destruct (populated (name (self c), user_type (self c), pn', ps1, roles (self c)))
        as [[[[n0 t0] pn0] ps0] rs0] eqn:Hpop.
      assert (Hfix : n0 = name (self c) /\ t0 = user_type (self c) /\ pn0 = pn').
      { unfold populated in Hpop. destruct ps1; [injection Hpop; auto | ].
        rewrite Hnot in Hpop.
        destruct (profile_union (u :: ps1) []); injection Hpop; auto. }
      destruct Hfix as (-> & -> & ->).
      destruct Hkeeps as [Hstd | [d [Hdoc Hrole]]].
      - exists (derived_type rs0), rs0, ps0. split; [reflexivity | ].
        rewrite Hend, (Htyped (or_introl Hstd)). unfold typed. rewrite Hstd. reflexivity.
      - destruct (standard_branch (user_type (self c))) eqn:Hstd.
        + exists (derived_type rs0), rs0, ps0. split; [reflexivity | ].
          rewrite Hend, (Htyped (or_introl Hstd)). unfold typed. rewrite Hstd. reflexivity.
        + exists (user_type (self c)), rs0, ps0. split; [reflexivity | ].
          rewrite Hend', (Htemplated Hstd Hmap d Hdoc). unfold template_roles.
          rewrite Hrole. reflexivity. }
    destruct Hsame as (t' & rs0 & ps0 & Hpop & Hfinal).
    unfold populated in Hpop. rewrite Hnot in Hpop.
    destruct ps1 as [ | rp ps1].
    { exfalso. apply Hps. injection Hpop as <- _. unfold settled in Hfinal.
      injection Hfinal as _ _ _ Hp _. exact Hp. }
    destruct (Hok ltac:(discriminate) Hnot) as [union Hunion].
    rewrite Hunion in Hpop. injection Hpop as <- <-.
    pose proof (settled_roles (name (self c)) t' pn' (rp :: ps1)
                  (reconcile union (roles (self c))) r Hnot) as Hroles.
    rewrite <- Hfinal in Hroles. rewrite Hroles.
    unfold settled in Hfinal. injection Hfinal as _ _ _ Hp _. rewrite Hp.
    change (rp :: unique_role_profiles [role_profile rp] ps1)
      with (unique_role_profiles [] (rp :: ps1)).
    rewrite contributed_unique, reconcile_spec, (profile_union_spec _ _ _ Hunion).
    simpl. tauto.
  - intros Hnot Hstd d Hdoc Hrole r.
    pose proof (proj2 (standard_user_mapped _) Hnot) as Hmap. apply mem_str_false in Hnot.
    destruct (populated (name (self c), user_type (self c), pn', ps1, roles (self c)))
      as [[[[n0 t0] pn0] ps0] rs0] eqn:Hpop.
    assert (Hfix : n0 = name (self c) /\ t0 = user_type (self c)).
    { unfold populated in Hpop. destruct ps1; [injection Hpop; auto | ].
      rewrite Hnot in Hpop.
      destruct (profile_union (u :: ps1) []); injection Hpop; auto. }
    destruct Hfix as (-> & ->).
    rewrite (Htemplated Hstd Hmap d Hdoc) in Hend'.
    pose proof (settled_roles (name (self c)) (user_type (self c)) pn0 ps0
                  (template_roles d (name (self c)) rs0) r Hnot) as Hroles.
    rewrite <- Hend' in Hroles. rewrite Hroles. unfold template_roles.
    assert (Ht : truthy (user_type_role d) = true)
      by (unfold truthy; apply negb_true_iff; apply String.eqb_neq; exact Hrole).
    rewrite Ht.
    destruct (user_linked_with_permission_on_doctype d (name (self c))); simpl.
    + split.
      * intros [[<- | []] [_ Hdis]]. auto.
      * intros (_ & -> & Hdis). simpl. auto.
    + split; [intros [[] _] | intros (H & _); discriminate].
Qed.

(** ** The user type *)

(** The roles a document holds once its profiles are reconciled, which is
    when [set_system_user] reads them. *)
Definition reconciled (u : User) : list HasRole :=
  let '(_, _, _, _, rs) := populated (moved (user_view u)) in rs.

Lemma derived_type_system rows :
  derived_type rows = "System User"
  <-> exists r, In r (map role rows) /\ desk_role r = true.
Proof.
  unfold derived_type. rewrite <- existsb_exists.
  destruct (existsb desk_role (map role rows)); split; intro H; try reflexivity;
    discriminate.
Qed.

(** C7, as the code has it.  When validation returns for a document of a
    user other than Administrator and Guest whose user type is unset or
    names a standard User Type, the user type is "System User" if one of
    the roles held after profile reconciliation is flagged [desk_access] in
    the Role catalogue, and "Website User" otherwise.  Those are the roles
    left after validation whenever none of the desk-access roles among them
    is empty or disabled.  When the document names a user type that is not
    standard, a reserved identity gets its fixed type.  (Of a reserved
    identity whose user type is unset or standard, which the docstring of
    [set_system_user] wants fixed as well, nothing is stated.) *)
Theorem user_type_after_validation (c : Ctx) :
  returns (validate site) c ->
  (standard_branch (user_type (self c)) = true ->
   mem_str (name (self c)) STANDARD_USERS = false ->
   user_type (self (fst (validate site c))) = derived_type (reconciled (self c))
   /\ (user_type (self (fst (validate site c))) = "System User"
       <-> exists r, In r (map role (reconciled (self c))) /\ desk_role r = true)
   /\ ((forall r, In r (map role (reconciled (self c))) -> desk_role r = true ->
                  truthy_opt r = true /\ is_disabled_role site r = false) ->
       (user_type (self (fst (validate site c))) = "System User"
        <-> exists d, In d (roles (self (fst (validate site c))))
                      /\ desk_role (role d) = true)))
  /\ (standard_branch (user_type (self c)) = false ->
      forall fixed, user_type_mapper (name (self c)) = Some fixed ->
                    user_type (self (fst (validate site c))) = fixed).
Proof.
  intro Hret. destruct (validate_run_view c Hret) as [_ [v [Hend [_ Htyped]]]].
  set (c' := fst (validate site c)) in *. clearbody c'.
  unfold reconciled. unfold view in *.
  destruct (populated (moved (user_view (self c)))) as [[[[n t] pn] ps] rs] eqn:Hpop.
  assert (Hnt : n = name (self c) /\ t = user_type (self c)).
  { unfold user_view in Hpop.
    destruct (moved_inv (name (self c)) (user_type (self c)) (role_profile_name (self c))
                (role_profiles (self c)) (roles (self c))) as [pn' [ps1 Hm]].
    rewrite Hm in Hpop. unfold populated in Hpop.
    destruct ps1; [injection Hpop; auto | ].
    destruct (mem_str (name (self c)) STANDARD_USERS); [injection Hpop; auto | ].
    destruct (profile_union (u :: ps1) []); injection Hpop; auto. }
  destruct Hnt as [-> ->]. split.
  - intros Hstd Hres. rewrite (Htyped (or_introl Hstd)) in Hend. unfold typed in Hend.
    rewrite Hstd in Hend. unfold settled, user_view in Hend.
    injection Hend as _ Ht _ _ Hr. split; [exact Ht | split].
    + rewrite Ht. apply derived_type_system.
    + intros Hkept. rewrite Ht, derived_type_system, Hr.
      assert (Hguest : (name (self c) =? "Guest") = false).
      { apply String.eqb_neq. intro Heq. rewrite Heq in Hres. discriminate Hres. }
      rewrite Hguest.
      destruct (unique_roles_spec rs []) as [_ Hin]. split.
      * intros [r [Hr1 Hr2]]. destruct (Hkept r Hr1 Hr2) as [Htr Hdis].
        assert (Hin' : In r (map role
                  (filter (fun d => negb (is_disabled_role site (role d)))
                     (unique_roles [] rs)))).
        { apply (In_map_filter_role (fun x => negb (is_disabled_role site x))).
          rewrite Hin, Hdis. simpl. tauto. }
        apply in_map_iff in Hin'. destruct Hin' as [d [Hd1 Hd2]].
        exists d. split; [exact Hd2 | rewrite Hd1; exact Hr2].
      * intros [d [Hd1 Hd2]]. exists (role d). split; [ | exact Hd2].
        assert (Hin' : In (role d) (map role
                  (filter (fun d => negb (is_disabled_role site (role d)))
                     (unique_roles [] rs)))) by (apply in_map; exact Hd1).
        apply (In_map_filter_role (fun x => negb (is_disabled_role site x))) in Hin'.
        rewrite Hin in Hin'. tauto.
  - intros Hstd fixed Hfixed.
    assert (Hplain : plain_type (user_view (self c))).
    { right. rewrite Hfixed. discriminate. }
    rewrite (Htyped Hplain) in Hend. unfold typed in Hend.
    rewrite Hstd, Hfixed in Hend. unfold settled, user_view in Hend.
    injection Hend as _ Ht _ _ _. exact Ht.
Qed.

End Properties.

(** * The properties on the sample data *)

(** A user of the sample site holding the "Staff" profile, whose second
    role, "Auditor", is a desk role that the catalogue has disabled. *)
Definition staffed : Ctx :=
  on (office [] 0) (person "ann@acme.test" "" 1 ["Staff"] [] []).

(** The same user as a "Contractor", a User Type of the site that is not
    standard and carries the role "Customer". *)
Definition contracted : Ctx :=
  on (office [] 0) (person "ann@acme.test" "Contractor" 1 ["Staff"] [] []).

(** The claim C1 fails as stated, in two ways.  The profile contributes
    "Auditor", the user keeps her profile, and validation leaves her
    without that role, which is disabled.  And for a user whose User Type
    carries a role of its own, the roles of the profile are replaced by
    that role: the profile contributes "System Manager", which is enabled,
    and validation leaves her with "Customer" alone. *)
Lemma disabled_profile_role_is_dropped :
  (returns (validate acme) staffed
   /\ ~ In (name (self staffed)) STANDARD_USERS
   /\ role_profiles (self (fst (validate acme staffed))) <> []
   /\ contributed acme (map role_profile (role_profiles (self (fst (validate acme staffed)))))
        (Some "Auditor")
   /\ ~ In (Some "Auditor") (map role (roles (self (fst (validate acme staffed))))))
  /\ (returns (validate acme_typed) contracted
      /\ ~ In (name (self contracted)) STANDARD_USERS
      /\ role_profiles (self (fst (validate acme_typed contracted))) <> []
      /\ contributed acme_typed
           (map role_profile (role_profiles (self (fst (validate acme_typed contracted)))))
           (Some "System Manager")
      /\ is_disabled_role acme_typed (Some "System Manager") = false
      /\ map role (roles (self (fst (validate acme_typed contracted)))) = [Some "Customer"]).
Proof.
  split.
  - split; [exists tt; vm_compute; reflexivity | ].
    split; [vm_compute; intros [H | [H | []]]; discriminate | ].
    split; [vm_compute; discriminate | ].
    split.
    + exists "Staff", [ {| role := Some "System Manager" |}; {| role := Some "Auditor" |} ].
      vm_compute. auto.
    + vm_compute. intros [H | []]. discriminate.
  - split; [exists tt; vm_compute; reflexivity | ].
    split; [vm_compute; intros [H | [H | []]]; discriminate | ].
    split; [vm_compute; discriminate | ].
    split; [ | split; vm_compute; reflexivity].
    exists "Staff", [ {| role := Some "System Manager" |}; {| role := Some "Auditor" |} ].
    vm_compute. auto.
Qed.

(** The same user as a "Visitor", a User Type that carries no role. *)
Definition visiting : Ctx :=
  on (office [] 0) (person "ann@acme.test" "Visitor" 1 ["Staff"] [] []).

Lemma roles_after_validation_witness :
  (returns (validate acme) staffed
   /\ NoDup (map role (roles (self (fst (validate acme staffed)))))
   /\ (In (Some "System Manager") (map role (roles (self (fst (validate acme staffed)))))
       <-> contributed acme
             (map role_profile (role_profiles (self (fst (validate acme staffed)))))
             (Some "System Manager")
           /\ truthy_opt (Some "System Manager") = true
           /\ is_disabled_role acme (Some "System Manager") = false))
  /\ (returns (validate acme_typed) visiting
      /\ (In (Some "System Manager")
             (map role (roles (self (fst (validate acme_typed visiting)))))
          <-> contributed acme_typed
                (map role_profile (role_profiles (self (fst (validate acme_typed visiting)))))
                (Some "System Manager")
              /\ truthy_opt (Some "System Manager") = true
              /\ is_disabled_role acme_typed (Some "System Manager") = false))
  /\ (returns (validate acme_typed) contracted
      /\ (In (Some "Customer")
             (map role (roles (self (fst (validate acme_typed contracted)))))
          <-> user_linked_with_permission_on_doctype contractor_type "ann@acme.test" = true
              /\ Some "Customer" = Some (user_type_role contractor_type)
              /\ is_disabled_role acme_typed (Some "Customer") = false)).
Proof.
  split; [ | split].
  - assert (H : returns (validate acme) staffed) by (exists tt; vm_compute; reflexivity).
    split; [exact H | ].
    destruct (roles_after_validation acme staffed H) as [[Hnd _] [_ [Hexact _]]].
    split; [exact Hnd | ].
    apply Hexact.
    + vm_compute. intros [E | [E | []]]; discriminate.
    + vm_compute. discriminate.
    + left. reflexivity.
  - assert (H : returns (validate acme_typed) visiting)
      by (exists tt; vm_compute; reflexivity).
    split; [exact H | ].
    destruct (roles_after_validation acme_typed visiting H) as [_ [_ [Hexact _]]].
    apply Hexact.
    + vm_compute. intros [E | [E | []]]; discriminate.
    + vm_compute. discriminate.
    + right. exists visitor_type. split; reflexivity.
  - assert (H : returns (validate acme_typed) contracted)
      by (exists tt; vm_compute; reflexivity).
    split; [exact H | ].
    destruct (roles_after_validation acme_typed contracted H) as [_ [_ [_ Hreplaced]]].
    apply (Hreplaced ltac:(vm_compute; intros [E | [E | []]]; discriminate) eq_refl
             contractor_type eq_refl).
    discriminate.
Defined.

(** The same site with the minimum score set to zero. *)
Definition lenient : Site := acme_with 0 600 false "Customer" (fun _ => None).

(** A stored user who asks for the password "abc": exempt from the
    policy, as the documents of [sign_up] are, and not exempt. *)
Definition ann_wants_abc : Ctx := on (office [ann] 0) (with_new_password (Some "abc") ann).

Definition ann_exempt : Ctx :=
  on (office [ann] 0)
    (with_flags (with_ignore_password_policy true no_flags)
       (with_new_password (Some "abc") ann)).

(** The sample site in test mode. *)
Definition rehearsal : Site := acme_in true (fun _ => None).

(** A new user who asks for the password "abc" when sixty-one users were
    created within the hour. *)
Definition eve_in_the_crowd : Ctx :=
  on (office (repeat ann 61) 0)
    (with_flags (with_islocal true no_flags)
       (with_new_password (Some "abc")
          (person "eve@acme.test" "Website User" 1 [] [] []))).

(** The claim C2 fails as stated.  With the minimum at 0 a password that
    scores 0 reaches the minimum and is rejected all the same.  And a
    password that is not accepted does not always make the save raise with
    the feedback: on a document that carries [ignore_password_policy], and
    on a site in test mode, the save returns and the password is stored;
    and a new document that the creation throttle stops is refused as
    "Throttled". *)
Lemma zero_score_is_rejected_at_minimum_zero :
  (enable_password_policy lenient = true
   /\ (minimum_password_score lenient <= score (estimate lenient (office [] 0) "abc" None))%Z
   /\ policy_check lenient "abc" None (office [] 0)
      = (office [] 0, inl (ValidationError "Too short. Add another word. Avoid names.")))
  /\ (enable_password_policy acme = true
      /\ policy_check acme "abc" (Some (user_data_of (self ann_exempt))) (world ann_exempt)
         = (world ann_exempt, inl (ValidationError "Too short. Add another word. Avoid names."))
      /\ snd (save acme ann_exempt) = inr tt
      /\ auth (world (fst (save acme ann_exempt))) = [("ann@acme.test", "abc")])
  /\ (enable_password_policy rehearsal = true /\ in_test rehearsal = true
      /\ policy_check rehearsal "abc" (Some (user_data_of (self ann_wants_abc)))
           (world ann_wants_abc)
         = (world ann_wants_abc,
            inl (ValidationError "Too short. Add another word. Avoid names."))
      /\ snd (save rehearsal ann_wants_abc) = inr tt
      /\ auth (world (fst (save rehearsal ann_wants_abc))) = [("ann@acme.test", "abc")])
  /\ (is_new (self eve_in_the_crowd) = true
      /\ policy_check acme "abc" (Some (user_data_of (self (fst (autoname eve_in_the_crowd)))))
           (world eve_in_the_crowd)
         = (world eve_in_the_crowd,
            inl (ValidationError "Too short. Add another word. Avoid names."))
      /\ snd (save acme eve_in_the_crowd) = inl (ValidationError "Throttled")).
Proof.
  split; [split; [reflexivity | split; [vm_compute; discriminate | reflexivity] ] | ].
  split; [split; [reflexivity | split; [ | split] ]; vm_compute; reflexivity | ].
  split; [split; [reflexivity | split; [reflexivity | split; [ | split] ] ];
          vm_compute; reflexivity | ].
  split; [reflexivity | split; vm_compute; reflexivity].
Qed.

(** A new user who asks for the password "abc" on a quiet day. *)
Definition eve_arrives : Ctx :=
  on (office [ann] 0)
    (with_flags (with_islocal true no_flags)
       (with_new_password (Some "abc")
          (person "Eve@Acme.test" "Website User" 1 [] [] []))).

Lemma password_policy_enforced_witness :
  (enable_password_policy acme = true /\ truthy "correct horse" = true
   /\ policy_check acme "correct horse" None (office [] 0) = (office [] 0, inr tt))
  /\ (snd (save acme ann_wants_abc)
      = inl (ValidationError "Too short. Add another word. Avoid names.")
      /\ tabUser (world (fst (save acme ann_wants_abc))) = [ann])
  /\ (snd (save acme eve_arrives)
      = inl (ValidationError "Too short. Add another word. Avoid names.")
      /\ tabUser (world (fst (save acme eve_arrives))) = [ann]).
Proof.
  split; [ | split].
  - split; [reflexivity | split; [reflexivity | ] ].
    apply (proj1 (password_policy_enforced acme (office [] 0) "correct horse" None
                    eq_refl eq_refl)).
    vm_compute. split; [discriminate | discriminate].
  - destruct (password_policy_enforced acme (office [ann] 0) "abc"
                (Some (user_data_of (self ann_wants_abc))) eq_refl eq_refl)
      as (_ & _ & _ & Hstored & _).
    destruct (Hstored ann_wants_abc eq_refl eq_refl eq_refl eq_refl eq_refl
                ltac:(vm_compute; discriminate)) as [_ Hsave].
    exact (Hsave eq_refl eq_refl).
  - destruct (password_policy_enforced acme (office [ann] 0) "abc"
                (Some (user_data_of (self (fst (autoname eve_arrives))))) eq_refl eq_refl)
      as (_ & _ & _ & _ & Hnew).
    apply (Hnew eve_arrives eq_refl eq_refl eq_refl eq_refl eq_refl
             ltac:(vm_compute; discriminate)).
    + left. reflexivity.
    + right. vm_compute. discriminate.
Defined.

(** A user whose module profile, "Gone", has no document, who holds the
    disabled role "Auditor" besides "Customer"; [mailboxes] are the Email
    Accounts of the mailbox table. *)
Definition stranded (mailboxes : list string) : Ctx :=
  on (office [] 0)
    {| name := "ann@acme.test"; email := "ann@acme.test"; first_name := "Ann";
       middle_name := ""; last_name := "Lee"; full_name := "Ann Lee"; username := "";
       birth_date := ""; new_password := Some ""; enabled := 1; user_type := "";
       role_profile_name := ""; role_profiles := [];
       roles := [ {| role := Some "Auditor" |}; {| role := Some "Customer" |} ];
       module_profile := "Gone"; block_modules := [];
       user_emails := map (fun e => {| email_account := e |}) mailboxes; user_image := "";
       time_zone := "UTC"; language := ""; social_logins := []; thread_notify := 1;
       send_me_a_copy := 0; allowed_in_mentions := 1; send_welcome_email := 0;
       logout_all_sessions := 0; reset_password_key := "";
       last_reset_password_key_generated_on := None; last_password_reset_date := None;
       redirect_url := ""; university := ""; major := ""; creation := 0;
       is_admin := false; is_guest := false; __new_password := None; flags := no_flags |}.

(** The claim C3 fails as stated: on a run that returns, disabled roles
    are dropped and the mailboxes checked before the module profile is
    applied; when the mailbox check raises, the block list has not been
    touched; a missing Module Profile stops validation only after the
    disabled role has been dropped; and with a mailbox listed twice as well
    it is the mailbox check that stops it. *)
Lemma module_profile_is_applied_last :
  let calls_made := calls (fst (validate acme staffed)) in
  let twice := on (office [] 0) (person "ann@acme.test" "" 1 [] [] ["inbox"; "inbox"]) in
  returns (validate acme) staffed
  /\ precedes "validate_allowed_modules" "remove_disabled_roles" calls_made = false
  /\ precedes "remove_disabled_roles" "validate_user_email_inbox" calls_made = true
  /\ precedes "validate_user_email_inbox" "validate_allowed_modules" calls_made = true
  /\ snd (validate acme twice) = inl (ValidationError "Email Account added multiple times")
  /\ block_modules (self (fst (validate acme twice))) = []
  /\ module_profile_doc acme (module_profile (self twice)) = Some [ {| module := "Desk" |} ]
  /\ snd (validate acme (stranded [])) = inl (DoesNotExistError "Module Profile" "Gone")
  /\ map role (roles (self (stranded []))) = [Some "Auditor"; Some "Customer"]
  /\ map role (roles (self (fst (validate acme (stranded []))))) = [Some "Customer"]
  /\ snd (validate acme (stranded ["inbox"; "inbox"]))
     = inl (ValidationError "Email Account added multiple times").
Proof.
  split; [exists tt; vm_compute; reflexivity | ].
  repeat split; vm_compute; reflexivity.
Qed.

(** A user whose only role, "Auditor", has desk access and is disabled. *)
Definition auditor : Ctx :=
  on (office [] 0) (person "ann@acme.test" "" 1 [] [Some "Auditor"] []).

(** Administrator without a role, and Guest holding a desk role, both with
    a standard user type. *)
Definition bare_administrator : Ctx :=
  on (office [] 0) (person "Administrator" "System User" 1 [] [] []).

Definition guest_at_the_desk : Ctx :=
  on (office [] 0) (person "Guest" "Website User" 1 [] [Some "System Manager"] []).

(** The claim C7 fails as stated, in both its parts.  After validation the
    auditor is a System User and none of the roles left on the document has
    desk access.  And the reserved identities are not mapped fixedly where
    the user type is standard: Administrator without a desk role becomes a
    Website User, and Guest holding a desk role becomes a System User (and
    then loses the role). *)
Lemma system_user_without_desk_role :
  (returns (validate acme) auditor
   /\ standard_branch acme (user_type (self auditor)) = true
   /\ user_type (self (fst (validate acme auditor))) = "System User"
   /\ ~ exists d, In d (roles (self (fst (validate acme auditor))))
                  /\ desk_role acme (role d) = true)
  /\ (returns (validate acme) bare_administrator
      /\ standard_branch acme (user_type (self bare_administrator)) = true
      /\ user_type (self (fst (validate acme bare_administrator))) = "Website User")
  /\ (returns (validate acme) guest_at_the_desk
      /\ standard_branch acme (user_type (self guest_at_the_desk)) = true
      /\ user_type (self (fst (validate acme guest_at_the_desk))) = "System User"
      /\ roles (self (fst (validate acme guest_at_the_desk))) = []).
Proof.
  split; [ | split].
  - split; [exists tt; vm_compute; reflexivity | ].
    split; [reflexivity | split; [reflexivity | ] ].
    vm_compute. intros [d [[] _]].
  - split; [exists tt; vm_compute; reflexivity | split; vm_compute; reflexivity].
  - split; [exists tt; vm_compute; reflexivity | ].
    split; [reflexivity | split; vm_compute; reflexivity].
Qed.

Lemma user_type_after_validation_witness :
  returns (validate acme) staffed
  /\ user_type (self (fst (validate acme staffed))) = "System User".
Proof.
  assert (H : returns (validate acme) staffed) by (exists tt; vm_compute; reflexivity).
  split; [exact H | ].
  destruct (user_type_after_validation acme staffed H) as [Hstd _].
  destruct (Hstd eq_refl eq_refl) as [Ht _]. rewrite Ht. reflexivity.
Defined.

Lemma reserved_identity_protected_witness :
  In "Guest" STANDARD_USERS
  /\ raises (validate acme) (on (office [] 0) (person "Guest" "Website User" 0 [] [] [])).
Proof.
  assert (H : In "Guest" STANDARD_USERS) by (right; left; reflexivity).
  split; [exact H | ].
  destruct (reserved_identity_protected acme "Guest" H) as [Hdisable _].
  exact (proj1 (Hdisable (on (office [] 0) (person "Guest" "Website User" 0 [] [] []))
                  eq_refl eq_refl)).
Defined.

(** Two users of the sample site; the second wants the first one's
    username. *)
Definition bob : User :=
  with_username "ann" (person "bob@acme.test" "Website User" 1 [] [Some "Customer"] []).

Definition ann_again : Ctx := on (office [bob] 0) (with_username "@ann " ann).

Lemma duplicate_username_is_reset_witness :
  (forall r, In r (tabUser (world ann_again)) -> truthy (name r) = true)
  /\ truthy (arriving_username acme (self ann_again)) = true
  /\ (exists r, In r (tabUser (world ann_again))
                /\ username r = strip_space_at (arriving_username acme (self ann_again))
                /\ name r <> name (self ann_again))
  /\ username (self (fst (validate_username acme ann_again))) = "".
Proof.
  assert (H1 : forall r, In r (tabUser (world ann_again)) -> truthy (name r) = true)
    by (intros r [<- | []]; reflexivity).
  assert (H2 : truthy (arriving_username acme (self ann_again)) = true) by reflexivity.
  assert (H3 : exists r, In r (tabUser (world ann_again))
                /\ username r = strip_space_at (arriving_username acme (self ann_again))
                /\ name r <> name (self ann_again)).
  { exists bob. split; [left; reflexivity | split; [reflexivity | discriminate] ]. }
  split; [exact H1 | split; [exact H2 | split; [exact H3 | ] ] ].
  destruct (duplicate_username_is_reset acme ann_again H1 H2 H3) as [c' [Hrun [Hname _]]].
  rewrite Hrun. exact Hname.
Defined.

(** * Endpoints *)

Section Endpoints.

Context (site : Site).

(** What [on_update] leaves alone on a document that is not being
    inserted and whose holder carries no password. *)
Definition settled_world (w : World) :=
  (tabUser w, auth w, redirect_after_login w, session_user w, now w, http_status_code w).

Definition quiet (u : User) (x : _) (c : Ctx) : Prop :=
  self c = u /\ settled_world (world c) = x.

Ltac quiet_side :=
  solve [ intros ? [? ?]; split; unfold settled_world in *; cbn in *; assumption ].

Lemma send_password_notification_quiet u x holder :
  in_insert (flags u) = false -> truthy_opt holder = false ->
  safe (quiet u x) (send_password_notification site holder).
Proof.
  intros Hin Hholder c [Hself Hw]. unfold send_password_notification. wp_go.
  rewrite Hself, Hin. unfold email_new_password. wp_go. rewrite Hholder. simpl. wp_go.
  split; assumption.
Qed.

Lemma on_update_quiet u x before :
  in_insert (flags u) = false -> truthy_opt (__new_password u) = false ->
  safe (quiet u x) (on_update site before).
Proof.
  intros Hin Hholder c Hc. unfold on_update. wp_go.
  apply wp_safe with (I := quiet u x); [safe_by quiet_side | exact Hc | intros _ c1 H1].
  wp_go. destruct H1 as [H1s H1w]. destruct Hc as [Hs Hw]. rewrite Hs.
  apply wp_safe with (I := quiet u x);
    [ apply send_password_notification_quiet; assumption
    | split; unfold settled_world in *; cbn; assumption | ].
  intros _ c2 H2. cbv beta.
  apply wp_safe with (I := quiet u x); [safe_by quiet_side | exact H2 | auto].
Qed.

Lemma core_flags c c' : core c = core c' -> flags (self c) = flags (self c').
Proof. unfold core. intro H. injection H. intros. assumption. Qed.

Lemma core_settled_world c c' :
  core c = core c' -> settled_world (world c) = settled_world (world c').
Proof. unfold core, settled_world. intro H. injection H. intros. congruence. Qed.

Lemma core_reset_password_key c c' :
  core c = core c' -> reset_password_key (self c) = reset_password_key (self c').
Proof. unfold core. intro H. injection H. intros. assumption. Qed.

(** Saving a stored document that passes validation: the validated
    document replaces its row, and nothing else of the settled world
    moves. *)
Lemma save_stored c :
  is_new (self c) = false -> truthy (name (self c)) = true ->
  in_insert (flags (self c)) = false -> truthy_opt (new_password (self c)) = false ->
  returns (validate site) c ->
  wp (save site)
    (fun _ c' =>
       self c' = self (fst (validate site c))
       /\ settled_world (world c')
          = settled_world (with_tabUser
                             (put_row (as_row (self (fst (validate site c))))
                                (tabUser (world c))) (world c)))
    (fun _ _ => False) c.
Proof.
  intros Hold Hname Hin Hpwd [a Hret].
  pose proof (core_validate_eq site c) as Hcore.
  pose proof (validate_clears site c c eq_refl) as Hclear. unfold wp in Hclear.
  destruct (validate site c) as [c1 [e | []]] eqn:Hv; [discriminate | ].
  simpl in Hcore, Hclear |- *. destruct Hclear as [_ Hholder].
  unfold save. wp_go. rewrite Hold, Hname. simpl. wp_go.
  eapply wp_of_run; [exact Hv | ]. cbv beta iota. wp_go.
  eapply wp_safe with (I := quiet (self c1) _); [ | split; reflexivity | ].
  - apply on_update_quiet.
    + rewrite (core_flags _ _ Hcore). exact Hin.
    + rewrite Hholder. exact Hpwd.
  - cbv beta. intros _ c' [Hs Hw]. split; [exact Hs | ]. rewrite Hw.
    pose proof (core_settled_world _ _ Hcore) as Hsw.
    unfold settled_world in *. cbn. injection Hsw. intros. congruence.
Qed.

(** ** Reset tokens *)

Definition holder_of (key : string) (w : World) : option User :=
  find (fun r => reset_password_key r =? sha256_hash site key) (tabUser w).

(** The link is past its life: a life of 0 never ends. *)
Definition expired (w : World) (generated_on : Z) : bool :=
  (nonzero (reset_password_link_expiry_duration site)
   && (generated_on + reset_password_link_expiry_duration site * 1000000 <? now w)%Z)%bool.

(** The end of the link's life can be computed: no end is computed for a
    life of 0, and otherwise [generated_on + timedelta(seconds=life)] has
    to be a datetime. *)
Definition computable (generated_on : Z) : Prop :=
  reset_password_link_expiry_duration site = 0%Z
  \/ add_seconds generated_on (reset_password_link_expiry_duration site) <> None.

Lemma add_seconds_some t n s : add_seconds t n = Some s -> s = (t + n * 1000000)%Z.
Proof.
  unfold add_seconds.
  destruct ((-999999999 <=? n / 86400)%Z && (n / 86400 <=? 999999999)%Z
            && (0 <=? t + n * 1000000)%Z && (t + n * 1000000 <=? datetime_max)%Z)%bool;
    [intros [= <-]; reflexivity | discriminate].
Qed.

Lemma token_check_found w key old r generated_on :
  truthy key = true -> holder_of key w = Some r -> truthy (name r) = true ->
  last_reset_password_key_generated_on r = Some generated_on ->
  computable generated_on ->
  _get_user_for_update_password site (Some key) old w
  = (w, inr {| found := Some (name r);
               message := if expired w generated_on
                          then Some reset_link_expired_message else None |}).
Proof.
  intros Hkey Hfind Hname Hgen Hends. unfold holder_of in Hfind.
  unfold _get_user_for_update_password, bind, gets, ret, expired, cint. simpl.
  rewrite Hkey, Hfind, Hname, Hgen. unfold nonzero.
  destruct (Z.eqb_spec (reset_password_link_expiry_duration site) 0) as [Hzero | Hlife];
    simpl; [reflexivity | ].
  destruct Hends as [Hzero | Hends]; [contradiction | ].
  destruct (add_seconds generated_on (reset_password_link_expiry_duration site))
    as [ends | ] eqn:Hsum; [ | contradiction].
  apply add_seconds_some in Hsum. subst ends.
  destruct (generated_on + reset_password_link_expiry_duration site * 1000000 <? now w)%Z;
    reflexivity.
Qed.

(** A life whose end is no datetime: the check raises. *)
Lemma token_check_overflow w key old r generated_on :
  truthy key = true -> holder_of key w = Some r -> truthy (name r) = true ->
  last_reset_password_key_generated_on r = Some generated_on ->
  reset_password_link_expiry_duration site <> 0%Z ->
  add_seconds generated_on (reset_password_link_expiry_duration site) = None ->
  _get_user_for_update_password site (Some key) old w = (w, inl (PythonError "OverflowError")).
Proof.
  intros Hkey Hfind Hname Hgen Hlife Hsum. unfold holder_of in Hfind.
  unfold _get_user_for_update_password, bind, gets, ret, raise, cint. simpl.
  rewrite Hkey, Hfind, Hname, Hgen. unfold nonzero.
  destruct (Z.eqb_spec (reset_password_link_expiry_duration site) 0) as [Hzero | _];
    [contradiction | ].
  simpl. rewrite Hsum. reflexivity.
Qed.

Lemma token_check_unlimited w key old r :
  truthy key = true -> holder_of key w = Some r -> truthy (name r) = true ->
  reset_password_link_expiry_duration site = 0%Z ->
  _get_user_for_update_password site (Some key) old w
  = (w, inr {| found := Some (name r); message := None |}).
Proof.
  intros Hkey Hfind Hname Hzero. unfold holder_of in Hfind.
  unfold _get_user_for_update_password, bind, gets, ret, cint. simpl.
  rewrite Hkey, Hfind, Hname, Hzero. reflexivity.
Qed.

Lemma token_check_unknown w key old :
  truthy key = true -> holder_of key w = None ->
  _get_user_for_update_password site (Some key) old w
  = (w, inr {| found := None; message := Some reset_link_invalid_message |}).
Proof.
  intros Hkey Hfind. unfold holder_of in Hfind.
  unfold _get_user_for_update_password, bind, gets, ret. simpl.
  rewrite Hkey, Hfind. reflexivity.
Qed.

(** A candidate password that [update_password] lets through: not
    oversized, and accepted by the policy when the policy is on. *)
Definition accepted (w : World) (pwd : string) : Prop :=
  (MAX_PASSWORD_SIZE site <? len pwd)%Z = false
  /\ (enable_password_policy site = false
      \/ (truthy pwd = true /\ meets_policy site (estimate site w pwd None) = true)).

Lemma accepted_run w pwd :
  accepted w pwd ->
  exists result,
    test_password_strength site pwd None None None w = (w, inr result)
    /\ forall (S : Type) (s : S), @check_feedback S result s = (s, inr tt).
Proof.
  intros [_ [Hoff | [Hpwd Hmeets]]].
  - exists EmptyDict. split; [ | reflexivity].
    unfold test_password_strength, bind, when, ret. simpl. rewrite Hoff. reflexivity.
  - destruct (enable_password_policy site) eqn:Hon.
    + eexists. split; [apply (test_password_strength_run site w pwd None Hon Hpwd) | ].
      intros S s. unfold check_feedback. simpl. rewrite Hmeets. reflexivity.
    + exists EmptyDict. split; [ | reflexivity].
      unfold test_password_strength, bind, when, ret. simpl. rewrite Hon. reflexivity.
Qed.

(** A rejected link: [update_password] answers 410 with the message and
    changes nothing else. *)
Lemma update_password_rejects w pwd logout key old user msg :
  accepted w pwd ->
  _get_user_for_update_password site key old w
  = (w, inr {| found := user; message := Some msg |}) ->
  truthy msg = true ->
  update_password site pwd logout key old w
  = (with_http_status_code (Some 410%Z) w, inr msg).
Proof.
  intros Hacc Hcheck Hmsg. destruct (accepted_run w pwd Hacc) as [result [Htest Hfeed]].
  destruct Hacc as [Hsize _].
  unfold update_password. unfold bind at 1. rewrite Hsize. simpl.
  unfold bind at 1. rewrite Htest. unfold bind at 1. rewrite Hfeed.
  unfold bind at 1. rewrite Hcheck. simpl. rewrite Hmsg. reflexivity.
Qed.

(** A check that raises: [update_password] raises the same, and changes
    nothing. *)
Lemma update_password_check_raises w pwd logout key old e :
  accepted w pwd ->
  _get_user_for_update_password site key old w = (w, inl e) ->
  update_password site pwd logout key old w = (w, inl e).
Proof.
  intros Hacc Hcheck. destruct (accepted_run w pwd Hacc) as [result [Htest Hfeed]].
  destruct Hacc as [Hsize _].
  unfold update_password. unfold bind at 1. rewrite Hsize. simpl.
  unfold bind at 1. rewrite Htest. unfold bind at 1. rewrite Hfeed.
  unfold bind at 1. rewrite Hcheck. reflexivity.
Qed.

(** The document [reset_user_data] saves for the row [r]. *)
Definition redeemed (r : User) : User :=
  with_redirect_url "" (with_reset_password_key "" (as_row r)).

(** The document passes validation against the rows at hand. *)
Definition passes_validation (rows : list User) (d : User) : Prop :=
  forall w, tabUser w = rows -> returns (validate site) (on w d).

Lemma In_put_row r rows x :
  In x (put_row r rows) -> x = r \/ (In x rows /\ name x <> name r).
Proof.
  unfold put_row. rewrite in_map_iff. intros [y [Hy Hin]].
  destruct (name y =? name r) eqn:Hn; [left; auto | right].
  subst x. apply String.eqb_neq in Hn. auto.
Qed.

Lemma In_update_rows_named user f rows x :
  In x (update_rows user f rows) ->
  (exists y, In y rows /\ name y = user /\ x = f y) \/ (In x rows /\ name x <> user).
Proof.
  unfold update_rows. rewrite in_map_iff. intros [y [Hy Hin]].
  destruct (name y =? user) eqn:Hn.
  - apply String.eqb_eq in Hn. left. exists y. auto.
  - apply String.eqb_neq in Hn. right. subst x. auto.
Qed.

Lemma redeemed_rows user stored rows day x :
  name stored = user ->
  In x (update_rows user (with_reset_password_key "")
          (update_rows user (with_last_password_reset_date day) (put_row stored rows))) ->
  (name x = user -> reset_password_key x = "") /\ (name x <> user -> In x rows).
Proof.
  intros Hstored Hx. apply In_update_rows_named in Hx.
  destruct Hx as [[y [Hy [Hn ->]]] | [Hx Hn]].
  - split; [reflexivity | ]. intro H. exfalso. apply H. exact Hn.
  - split; [intro H; contradiction | intros _].
    apply In_update_rows_named in Hx. destruct Hx as [[y [Hy [Hn' ->]]] | [Hx _]].
    + exfalso. apply Hn. exact Hn'.
    + apply In_put_row in Hx. destruct Hx as [-> | [Hx _]]; [contradiction | exact Hx].
Qed.

Lemma update_password_redeems w pwd logout key old r :
  accepted w pwd -> truthy key = true -> holder_of key w = Some r ->
  truthy (name r) = true -> lookup (name r) (tabUser w) = Some r ->
  (forall generated_on,
     last_reset_password_key_generated_on r = Some generated_on ->
     expired w generated_on = false /\ computable generated_on) ->
  (reset_password_link_expiry_duration site = 0%Z
   \/ exists generated_on, last_reset_password_key_generated_on r = Some generated_on) ->
  truthy_opt (new_password r) = false ->
  passes_validation (tabUser w) (redeemed r) ->
  wp (update_password site pwd logout (Some key) old)
    (fun _ w' =>
       http_status_code w' = http_status_code w
       /\ find (fun e => fst e =? name r) (auth w') = Some (name r, pwd)
       /\ (forall x, In x (tabUser w') -> name x = name r -> reset_password_key x = "")
       /\ (forall x, In x (tabUser w') -> name x <> name r -> In x (tabUser w)))
    (fun _ _ => False) w.
Proof.
  intros Hacc Hkey Hfind Hname Hlookup Hfresh Hgen Hnopwd Hvalid.
  destruct (accepted_run w pwd Hacc) as [result [Htest Hfeed]].
  assert (Hcheck : _get_user_for_update_password site (Some key) old w
                   = (w, inr {| found := Some (name r); message := None |})).
  { destruct Hgen as [Hzero | [g Hg]].
    - apply token_check_unlimited; assumption.
    - destruct (Hfresh g Hg) as [Hlive Hends].
      rewrite (token_check_found w key old r g Hkey Hfind Hname Hg Hends), Hlive.
      reflexivity. }
  destruct Hacc as [Hsize _].
  unfold update_password. wp_go. rewrite Hsize. wp_go.
  eapply wp_of_run; [exact Htest | ]. cbv beta iota. wp_go.
  eapply wp_of_run; [apply Hfeed | ]. cbv beta iota. wp_go.
  eapply wp_of_run; [exact Hcheck | ]. cbv beta iota. simpl. wp_go.
  (* the credential is stored *)
  unfold _update_password. wp_go.
  apply wp_safe with
    (I := fun w1 => settled_world w1
                    = settled_world
                        (with_auth ((name r, pwd)
                                    :: filter (fun e => negb (fst e =? name r)) (auth w)) w));
    [ safe_by ltac:(solve [intros; unfold settled_world in *; cbn in *; assumption])
    | reflexivity | ].
  intros _ w1 H1. cbv beta.
  assert (Htab1 : tabUser w1 = tabUser w).
  { unfold settled_world in H1. cbn in H1. injection H1. intros. assumption. }
  (* the user's document is saved with the key and the redirect cleared *)
  unfold reset_user_data, get_doc. wp_go. rewrite Htab1, Hlookup. wp_go.
  change (with_redirect_url "" (with_reset_password_key "" (as_row r))) with (redeemed r).
  change {| self := redeemed r; world := w1; calls := [] |} with (on w1 (redeemed r)).
  eapply wp_conseq; [apply save_stored | | intros e s' []];
    [reflexivity | exact Hname | reflexivity | exact Hnopwd | exact (Hvalid w1 Htab1) | ].
  cbv beta. intros _ c2 [Hself Hsw].
  pose proof (core_validate_eq site (on w1 (redeemed r))) as Hcore.
  set (v := fst (validate site (on w1 (redeemed r)))) in *. clearbody v.
  assert (Hstored : name (as_row (self v)) = name r) by exact (core_name _ _ Hcore).
  assert (Hfacts : tabUser (world c2) = put_row (as_row (self v)) (tabUser w)
                   /\ auth (world c2)
                      = (name r, pwd) :: filter (fun e => negb (fst e =? name r)) (auth w)
                   /\ http_status_code (world c2) = http_status_code w).
  { unfold settled_world in Hsw, H1. cbn in Hsw, H1. rewrite Htab1 in Hsw.
    injection Hsw. injection H1. intros. repeat split; congruence. }
  destruct Hfacts as [Htab2 [Hauth2 Hhttp2]]. clear Hsw H1.
  wp_go. unfold db_set_value.
  assert (Hend : forall day,
             http_status_code (world c2) = http_status_code w
             /\ find (fun e => fst e =? name r) (auth (world c2)) = Some (name r, pwd)
             /\ (forall x,
                   In x (update_rows (name r) (with_reset_password_key "")
                           (update_rows (name r) (with_last_password_reset_date day)
                              (tabUser (world c2)))) ->
                   name x = name r -> reset_password_key x = "")
             /\ (forall x,
                   In x (update_rows (name r) (with_reset_password_key "")
                           (update_rows (name r) (with_last_password_reset_date day)
                              (tabUser (world c2)))) ->
                   name x <> name r -> In x (tabUser w))).
  { intro day. rewrite Hhttp2, Hauth2, Htab2.
    split; [reflexivity | split].
    - simpl. rewrite String.eqb_refl. reflexivity.
    - split; intros x Hx; apply (redeemed_rows (name r) _ _ _ x Hstored Hx). }
  wp_case; wp_case; apply Hend.
Qed.

(** What [User.reset_password] writes on the row of the user. *)
Definition issued (w : World) (r : User) : User :=
  with_last_reset_password_key_generated_on (Some (now w))
    (with_reset_password_key (sha256_hash site (generate_hash site (hashes_drawn w))) r).


Lemma update_rows_twice user f g rows :
  (forall y, name (f y) = name y) ->
  update_rows user g (update_rows user f rows) = update_rows user (fun y => g (f y)) rows.
Proof.
  intro Hf. unfold update_rows. rewrite map_map. apply map_ext. intro y.
  destruct (name y =? user) eqn:Hn; [rewrite Hf, Hn | rewrite Hn]; reflexivity.
Qed.

Lemma find_update_rows (p : User -> bool) user f rows r :
  lookup user rows = Some r -> (forall x, In x rows -> p x = false) -> p (f r) = true ->
  find p (update_rows user f rows) = Some (f r).
Proof.
  unfold lookup, update_rows. induction rows as [ | y rest IH]; simpl; [discriminate | ].
  intros Hl Hold Hnew. destruct (name y =? user) eqn:Hn.
  - injection Hl as ->. rewrite Hnew. reflexivity.
  - rewrite (Hold y (or_introl eq_refl)). apply IH; auto.
Qed.

Lemma lookup_update_rows user f rows r :
  lookup user rows = Some r -> (forall y, name (f y) = name y) ->
  lookup user (update_rows user f rows) = Some (f r).
Proof.
  unfold lookup, update_rows. induction rows as [ | y rest IH]; simpl; [discriminate | ].
  intros Hl Hf. destruct (name y =? user) eqn:Hn.
  - injection Hl as ->. rewrite Hf, Hn. reflexivity.
  - rewrite Hn. apply IH; auto.
Qed.

Lemma find_none_intro {A} (p : A -> bool) (l : list A) :
  (forall x, In x l -> p x = false) -> find p l = None.
Proof.
  induction l as [ | a l IH]; simpl; intro H; [reflexivity | ].
  rewrite (H a (or_introl eq_refl)). apply IH. auto.
Qed.




(** C5, as the code has it.  A reset link lives for the configured number
    of seconds, as long as its end is a time that a datetime can hold.  For
    a token whose hash is stored on a row issued at time [T]
    (microseconds): with a life [E > 0] such that [T + E] does not
    overflow, the token check passes one second before [T + E] and answers
    "expired" one second after it, in which case [update_password] returns
    that message with status 410; with a life of 0 the check passes at any
    time.  Whenever the check passes, the redemption goes through for a
    user whose document passes validation.  (Of a life whose end overflows
    nothing is stated.) *)
Theorem reset_link_expiry (w : World) (key : string) (old : option string) (r : User)
    (T : Z) :
  truthy key = true -> holder_of key w = Some r -> truthy (name r) = true ->
  last_reset_password_key_generated_on r = Some T ->
  let life := reset_password_link_expiry_duration site in
  let check := _get_user_for_update_password site (Some key) old w in
  let passed := (w, inr {| found := Some (name r); message := None |}) in
  ((0 < life)%Z -> add_seconds T life <> None ->
   now w = (T + life * 1000000 - 1000000)%Z -> check = passed)
  /\ ((0 < life)%Z -> add_seconds T life <> None ->
      now w = (T + life * 1000000 + 1000000)%Z ->
      check = (w, inr {| found := Some (name r);
                         message := Some reset_link_expired_message |})
      /\ forall pwd logout,
           accepted w pwd ->
           update_password site pwd logout (Some key) old w
           = (with_http_status_code (Some 410%Z) w, inr reset_link_expired_message))
  /\ (life = 0%Z -> check = passed)
  /\ ((0 < life)%Z -> add_seconds T life <> None ->
      (check = passed <-> (now w <= T + life * 1000000)%Z))
  /\ (check = passed ->
      lookup (name r) (tabUser w) = Some r -> truthy_opt (new_password r) = false ->
      passes_validation (tabUser w) (redeemed r) ->
      forall pwd logout,
        accepted w pwd ->
        exists w' path,
          update_password site pwd logout (Some key) old w = (w', inr path)
          /\ http_status_code w' = http_status_code w
          /\ forall x, In x (tabUser w') -> name x = name r -> reset_password_key x = "").
Proof.
  intros Hkey Hfind Hname Hgen life check passed.
  assert (Hcheck : computable T ->
                   check = (w, inr {| found := Some (name r);
                                      message := if expired w T
                                                 then Some reset_link_expired_message
                                                 else None |}))
    by (intro Hends; apply token_check_found; assumption).
  assert (Hexp : (0 < life)%Z -> expired w T = (T + life * 1000000 <? now w)%Z).
  { intro Hpos. unfold expired, nonzero. fold life.
    destruct (Z.eqb_spec life 0) as [H0 | H0]; [lia | reflexivity]. }
  split; [ | split; [ | split; [ | split ] ] ].
  - intros Hpos Hends Hnow. rewrite (Hcheck (or_intror Hends)), (Hexp Hpos), Hnow.
    replace (T + life * 1000000 <? T + life * 1000000 - 1000000)%Z with false
      by (symmetry; apply Z.ltb_ge; lia).
    reflexivity.
  - intros Hpos Hends Hnow. specialize (Hcheck (or_intror Hends)).
    assert (Hlate : expired w T = true).
    { rewrite (Hexp Hpos), Hnow. apply Z.ltb_lt. lia. }
    rewrite Hlate in Hcheck. split; [exact Hcheck | ].
    intros pwd logout Hacc.
    apply update_password_rejects with (user := Some (name r));
      [exact Hacc | exact Hcheck | reflexivity].
  - intro Hzero. rewrite (Hcheck (or_introl Hzero)). unfold expired. fold life.
    rewrite Hzero. reflexivity.
  - intros Hpos Hends. rewrite (Hcheck (or_intror Hends)), (Hexp Hpos).
    destruct (Z.ltb_spec (T + life * 1000000) (now w)) as [Hlt | Hle].
    + split; [discriminate | lia].
    + split; [intros _; exact Hle | reflexivity].
  - intros Hpass Hrow Hnopwd Hvalid pwd logout Hacc.
    assert (Hends : computable T).
    { destruct (Z.eq_dec life 0) as [Hzero | Hlife]; [left; exact Hzero | right].
      intro Hsum. unfold check in Hpass.
      rewrite (token_check_overflow w key old r T Hkey Hfind Hname Hgen Hlife Hsum) in Hpass.
      discriminate. }
    specialize (Hcheck Hends).
    assert (Hfresh : expired w T = false).
    { rewrite Hcheck in Hpass. destruct (expired w T); [discriminate | reflexivity]. }
    destruct (wp_returns _ _ _
                (update_password_redeems w pwd logout key old r Hacc Hkey Hfind Hname Hrow
                   ltac:(intros g Hg; rewrite Hgen in Hg; injection Hg as <-;
                         split; [exact Hfresh | exact Hends])
                   ltac:(right; exists T; exact Hgen) Hnopwd Hvalid))
      as [w' [path [Hup [Hstatus [_ [Hcleared _]]]]]].
    exists w', path. auto.
Qed.

(** ** Sign-up *)

(** A document like the one [sign_up] builds: enabled, not reserved, with
    a well-formed address as its name, a user type on the standard branch,
    and no role profile, mailbox, module profile or image; its password is
    absent or exempt from the policy. *)
Definition plain (d : User) : Prop :=
  (in_test site = true \/ ignore_password_policy (flags d) = true
   \/ truthy_opt (new_password d) = false)
  /\ mem_str (name d) STANDARD_USERS = false
  /\ validate_email_address site (strip (name d)) = true
  /\ role_profile_name d = "" /\ role_profiles d = []
  /\ standard_branch site (user_type d) = true
  /\ nonzero (enabled d) = true
  /\ user_emails d = [] /\ module_profile d = "" /\ user_image d = "".

(** The part of [plain] that the steps of [validate] keep. *)
Definition plain_state (c0 : Ctx) (c : Ctx) : Prop :=
  core c = core c0 /\ role_profile_name (self c) = "" /\ role_profiles (self c) = [].

Ltac plain_side :=
  solve [ intros ? [? [? ?]]; repeat split; unfold core in *; cbn in *;
          first [ assumption
                | match goal with
                  | H : role_profiles _ = [] |- _ => rewrite H; reflexivity
                  end ] ].

Lemma core_user_emails c c' : core c = core c' -> user_emails (self c) = user_emails (self c').
Proof. unfold core. intro H. injection H. intros. assumption. Qed.

Lemma core_module_profile c c' :
  core c = core c' -> module_profile (self c) = module_profile (self c').
Proof. unfold core. intro H. injection H. intros. assumption. Qed.

Lemma core_user_image c c' : core c = core c' -> user_image (self c) = user_image (self c').
Proof. unfold core. intro H. injection H. intros. assumption. Qed.

Lemma plain_state_calls c0 c l : plain_state c0 c -> plain_state c0 (with_calls l c).
Proof. intros (H1 & H2 & H3). repeat split; assumption. Qed.

(** The steps up to [set_system_user] are cut at the user type as well. *)
Ltac plain_cut c Hs Ht :=
  try apply wp_bind;
  eapply wp_conseq with (Q' := fun _ s' => plain_state c s'
                                 /\ user_type (self s') = user_type (self c))
                        (E' := fun _ _ => False);
  [ | cbv beta; clear Hs Ht; intros _ ? [Hs Ht] | intros ? ? [] ].

Ltac plain_kept Hs :=
  solve [ destruct Hs as [? [? ?]]; repeat split; unfold core in *; cbn in *;
          first [ assumption
                | match goal with
                  | H : role_profiles _ = [] |- _ => rewrite H; reflexivity
                  end ] ].

(** A step without [raise] keeps [plain_state]. *)
Ltac plain_keep c Hs :=
  try apply wp_bind; apply wp_safe with (I := plain_state c);
  [ safe_by plain_side | exact Hs | cbv beta; clear Hs; intros _ ? Hs ].

Lemma plain_validates c : plain (self c) -> returns (validate site) c.
Proof.
  intros (Hpwd & Hstd & Hmail & Hpn0 & Hps0 & Htype & Hen & Hboxes & Hmod & Himg).
  assert (H : wp (validate site) (fun _ _ => True) (fun _ _ => False) c).
  { unfold validate, clear_new_password. wp_go.
    match goal with |- wp _ _ _ ?s => set (c1 := s) end.
    assert (Hs : plain_state c c1) by (repeat split; assumption).
    assert (Ht : user_type (self c1) = user_type (self c)) by reflexivity.
    assert (Hh : __new_password (self c1) = new_password (self c)) by reflexivity.
    clearbody c1.
    (* the password test *)
    plain_cut c Hs Ht.
    { destruct (in_test site) eqn:Htest; simpl; wp_go; [split; assumption | ].
      unfold password_strength_test. wp_go. destruct Hs as (Hcore & Hpn & Hps).
      rewrite (core_flags _ _ Hcore), Hh.
      destruct Hpwd as [Hp | [Hp | Hp]]; [discriminate | rewrite Hp | rewrite Hp ].
      - wp_go. repeat split; assumption.
      - destruct (ignore_password_policy (flags (self c))); wp_go; repeat split; assumption. }
    clear c1 Hh. wp_go.
    (* the address *)
    plain_cut c Hs Ht.
    { pose proof Hs as (Hcore & _). rewrite (core_name _ _ Hcore), Hstd. simpl. wp_go.
      unfold validate_email_type. rewrite Hmail. wp_go. split; [plain_kept Hs | exact Ht]. }
    (* the role profiles *)
    plain_cut c Hs Ht.
    { wp_go. unfold move_role_profile_name_to_role_profiles. wp_go.
      pose proof Hs as (_ & Hpn & _). rewrite Hpn. simpl. wp_go.
      split; [plain_kept Hs | exact Ht]. }
    plain_cut c Hs Ht.
    { wp_go. unfold populate_role_profile_roles. wp_go.
      pose proof Hs as (_ & _ & Hps). rewrite Hps. wp_go.
      split; [plain_kept Hs | exact Ht]. }
    plain_cut c Hs Ht.
    { wp_go. unfold check_roles_added. wp_go. wp_case; (split; [plain_kept Hs | exact Ht]). }
    (* the user type *)
    apply wp_bind.
    eapply wp_conseq with (Q' := fun _ s' => plain_state c s') (E' := fun _ _ => False);
      [ | cbv beta; clear Hs Ht; intros _ ? Hs | intros ? ? [] ].
    { wp_go. unfold set_system_user. wp_go. rewrite Ht.
      unfold standard_branch in Htype. apply negb_true_iff in Htype. rewrite Htype.
      wp_go. plain_kept Hs. }
    plain_keep c Hs.
    (* enabling and disabling *)
    apply wp_bind.
    eapply wp_conseq with (Q' := fun _ s' => plain_state c s') (E' := fun _ _ => False);
      [ | cbv beta; clear Hs; intros _ ? Hs | intros ? ? [] ].
    { wp_go. unfold check_enable_disable, disable_email_fields_if_user_disabled, cint. wp_go.
      pose proof Hs as (Hcore & _). rewrite (core_enabled _ _ Hcore), Hen. simpl. wp_go.
      rewrite (core_enabled _ _ Hcore), Hen. wp_go. plain_kept Hs. }
    plain_keep c Hs. plain_keep c Hs. plain_keep c Hs. plain_keep c Hs. plain_keep c Hs.
    (* the mailboxes *)
    apply wp_bind.
    eapply wp_conseq with (Q' := fun _ s' => plain_state c s') (E' := fun _ _ => False);
      [ | cbv beta; clear Hs; intros _ ? Hs | intros ? ? [] ].
    { wp_go. unfold validate_user_email_inbox. wp_go.
      pose proof Hs as (Hcore & _). rewrite (core_user_emails _ _ Hcore), Hboxes. simpl. wp_go.
      plain_kept Hs. }
    wp_go. plain_keep c Hs.
    (* the module profile and the image *)
    apply wp_bind.
    eapply wp_conseq with (Q' := fun _ s' => plain_state c s') (E' := fun _ _ => False);
      [ | cbv beta; clear Hs; intros _ ? Hs | intros ? ? [] ].
    { wp_go. unfold validate_allowed_modules. wp_go.
      pose proof Hs as (Hcore & _). rewrite (core_module_profile _ _ Hcore), Hmod. simpl. wp_go.
      plain_kept Hs. }
    apply wp_bind.
    eapply wp_conseq with (Q' := fun _ s' => plain_state c s') (E' := fun _ _ => False);
      [ | cbv beta; clear Hs; intros _ ? Hs | intros ? ? [] ].
    { wp_go. unfold validate_user_image. wp_go.
      pose proof Hs as (Hcore & _). rewrite (core_user_image _ _ Hcore), Himg. simpl. wp_go.
      plain_kept Hs. }
    plain_keep c Hs. wp_go. plain_keep c Hs. wp_go.
    apply wp_safe with (I := plain_state c); [ safe_by plain_side | exact Hs | auto ]. }
  destruct (wp_returns _ _ _ H) as [c' [a [Hrun _]]]. exists a. rewrite Hrun. reflexivity.
Qed.

(** What [validate] leaves of a plain document. *)
Lemma plain_validated c :
  plain (self c) ->
  exists c', validate site c = (c', inr tt)
    /\ core c' = core c
    /\ role_profile_name (self c') = "" /\ role_profiles (self c') = []
    /\ user_type (self c') = derived_type site (roles (self c))
    /\ roles (self c')
       = filter (fun r => negb (is_disabled_role site (role r))) (unique_roles [] (roles (self c)))
    /\ new_password (self c') = Some "" /\ __new_password (self c') = new_password (self c).
Proof.
  intro Hplain. pose proof (plain_validates c Hplain) as Hret.
  destruct Hplain as (_ & Hstd & _ & Hpn & Hps & Htype & _).
  destruct (validate_run_view site c Hret) as [_ [v [Hend [_ Htyped]]]].
  pose proof (core_validate_eq site c) as Hcore.
  pose proof (validate_clears site c c eq_refl) as Hclear. unfold wp in Hclear.
  destruct Hret as [a Ha].
  destruct (validate site c) as [c' [e | []]] eqn:Hv; [discriminate | ].
  simpl in Hend, Hcore, Hclear. destruct Hclear as [Hnew Hholder].
  exists c'. split; [reflexivity | ]. split; [exact Hcore | ].
  unfold view, user_view in Hend, Htyped. rewrite Hpn, Hps in Htyped.
  assert (Hv' : v = (name (self c), derived_type site (roles (self c)), "", [], roles (self c))).
  { rewrite Htyped; [ | left; exact Htype]. unfold moved, populated, typed. simpl.
    rewrite Htype. reflexivity. }
  subst v. unfold settled in Hend. rewrite (not_guest _ Hstd) in Hend.
  injection Hend as _ Ht Hpn' Hps' Hr. repeat split; assumption.
Qed.

(** The users of the site as sign-up sees them: who they are, whether they
    are enabled, and of which type. *)
Definition census (rows : list User) : list (string * Z * string) :=
  map (fun r => (name r, enabled r, user_type r)) rows.




(** What the hooks that run after validation leave of the document: all
    but the reset token and the record that the welcome mail went out. *)
Definition essence (u : User) :=
  ((name u, enabled u, user_type u),
   (role_profile_name u, role_profiles u, roles u, user_emails u),
   (module_profile u, user_image u, new_password u, __new_password u),
   (in_insert (flags u), ignore_password_policy (flags u), islocal (flags u),
    no_welcome_mail (flags u)),
   (send_welcome_email u, logout_all_sessions u)).

Definition kept (e : _) (X : list (string * Z * string)) (c : Ctx) : Prop :=
  essence (self c) = e /\ census (tabUser (world c)) = X.












(** What the steps of [sign_up] before the insert leave of the world. *)
Definition as_found (w : World) (w' : World) : Prop :=
  tabUser w' = tabUser w /\ now w' = now w /\ mails_sent w' = mails_sent w.




End Endpoints.

(** * The endpoints on the sample data *)

(** Ann's row once a reset token, "token0", was issued to her at time 0. *)
Definition ann_with_link : User :=
  with_last_reset_password_key_generated_on (Some 0)
    (with_reset_password_key "sha256:token0" ann).

Lemma ann_passes_validation rows d :
  d = redeemed ann_with_link ->
  rows = [ann_with_link] \/ rows = [ann] ->
  passes_validation acme rows d.
Proof.
  intros -> Hrows w Hw. destruct w as [rows' ? ? ? ? ? ? ? ?]. simpl in Hw. subst rows'.
  exists tt. destruct Hrows as [-> | ->]; vm_compute; reflexivity.
Qed.


(** The sample site keeps a link for 600 seconds: one second before the
    end Ann's link is redeemed, one second after it it is refused. *)
Lemma reset_link_expiry_witness :
  let early := office [ann_with_link] 599000000 in
  let late := office [ann_with_link] 601000000 in
  (exists w' path,
     update_password acme "correct horse battery" 0 (Some "token0") None early = (w', inr path)
     /\ http_status_code w' = None)
  /\ update_password acme "correct horse battery" 0 (Some "token0") None late
     = (with_http_status_code (Some 410%Z) late, inr reset_link_expired_message).
Proof.
  intros early late.
  assert (Hacc : forall at_time,
             accepted acme (office [ann_with_link] at_time) "correct horse battery")
    by (intro at_time; split; [reflexivity | right; split; reflexivity]).
  assert (Hends : add_seconds 0 (reset_password_link_expiry_duration acme) <> None)
    by (vm_compute; discriminate).
  split.
  - destruct (reset_link_expiry acme early "token0" None ann_with_link 0
                eq_refl eq_refl eq_refl eq_refl) as (Hbefore & _ & _ & _ & Hredeem).
    destruct (Hredeem (Hbefore eq_refl Hends eq_refl) eq_refl eq_refl
                (ann_passes_validation _ _ eq_refl (or_introl eq_refl))
                "correct horse battery" 0%Z (Hacc _))
      as [w' [path [Hrun [Hstatus _]]]].
    exists w', path. split; [exact Hrun | exact Hstatus].
  - destruct (reset_link_expiry acme late "token0" None ann_with_link 0
                eq_refl eq_refl eq_refl eq_refl) as (_ & Hafter & _).
    exact (proj2 (Hafter eq_refl Hends eq_refl) "correct horse battery" 0%Z (Hacc _)).
Defined.

(** A link issued in the last ten minutes of the year 9999, less a
    microsecond: its end is no datetime. *)
Definition ann_with_last_link : User :=
  with_last_reset_password_key_generated_on (Some (datetime_max - 599999999))
    (with_reset_password_key "sha256:token0" ann).

(** The sample site with a link life of [10 ^ 15] seconds. *)
Definition patient : Site := acme_with 2 1000000000000000 false "Customer" (fun _ => None).

(** The claim C5 fails as stated.  One second before the end of its life
    of 600 seconds, at a time that is itself a datetime, a link issued at
    the end of the year 9999 is not redeemed: the sum of the issue time and
    the life overflows.  And a life of [10 ^ 15] seconds is no [timedelta]:
    whenever the link is redeemed, the same error is raised. *)
Lemma reset_link_end_overflows :
  let T := (datetime_max - 599999999)%Z in
  let early := office [ann_with_last_link] (T + 600 * 1000000 - 1000000) in
  ((0 < reset_password_link_expiry_duration acme)%Z
   /\ (0 <= now early <= datetime_max)%Z
   /\ accepted acme early "correct horse battery"
   /\ update_password acme "correct horse battery" 0 (Some "token0") None early
      = (early, inl (PythonError "OverflowError")))
  /\ ((0 < reset_password_link_expiry_duration patient)%Z
      /\ forall at_time,
           update_password patient "correct horse battery" 0 (Some "token0") None
             (office [ann_with_link] at_time)
           = (office [ann_with_link] at_time, inl (PythonError "OverflowError"))).
Proof.
  split.
  - split; [reflexivity | ].
    split; [split; vm_compute; discriminate | ].
    split; [split; [reflexivity | right; split; reflexivity] | ].
    vm_compute. reflexivity.
  - split; [reflexivity | ]. intro at_time.
    apply update_password_check_raises.
    + split; [reflexivity | right; split; reflexivity].
    + apply (token_check_overflow patient _ "token0" None ann_with_link 0);
        try reflexivity. vm_compute. discriminate.
Qed.




(** The sample site with a mail transport that breaks down on its second
    dispatch, which is the welcome mail [sign_up] sends itself. *)
Definition flaky : Site :=
  acme_with 2 600 false "Customer"
    (fun n => if (n =? 1)%nat then Some (PythonError "SMTPServerDisconnected") else None).


(** * Further properties of the controller *)

Section Further.

Context (site : Site).

(** ** What validation checks *)

Lemma wp_const {S A} (m : M S A) (P : Prop) s :
  P -> wp m (fun _ _ => P) (fun _ _ => True) s.
Proof. intro H. unfold wp. destruct (m s) as [s' [e | a]]; [exact I | exact H]. Qed.

(** One step that keeps [core]; [H] relates the state at hand to [c0]. *)
Ltac core_step c0 H :=
  try apply wp_bind;
  eapply wp_conseq with (Q' := fun _ c' => core c' = core c0)
                        (E' := fun _ c' => core c' = core c0);
  [ match goal with
    | |- wp ?m _ _ ?s =>
        let Hst := fresh "Hst" in
        assert (Hst : stable (fun c => core c = core c0) m) by stable_go;
        exact (Hst s H)
    end
  | cbv beta; clear H; intros ? ? H
  | intros; exact I ].

Lemma nodup_length_le (l : list string) :
  (List.length (nodup string_dec l) <= List.length l)%nat.
Proof.
  induction l as [ | a l IH]; simpl; [lia | ].
  destruct (in_dec string_dec a l); simpl; lia.
Qed.

Lemma nodup_length_NoDup (l : list string) :
  List.length (nodup string_dec l) = List.length l -> NoDup l.
Proof.
  induction l as [ | a l IH]; simpl; intro H; [constructor | ].
  destruct (in_dec string_dec a l) as [Hin | Hout].
  - pose proof (nodup_length_le l). lia.
  - constructor; [exact Hout | apply IH]. simpl in H. lia.
Qed.



Lemma validate_checks_module_profile c0 c :
  core c = core c0 ->
  wp (validate site)
    (fun _ _ => truthy (module_profile (self c0)) = true ->
                module_profile_doc site (module_profile (self c0)) <> None)
    (fun _ _ => True) c.
Proof.
  intro H. unfold validate.
  core_step c0 H. core_step c0 H. wp_go. core_step c0 H.
  do 12 core_step c0 H. wp_go. core_step c0 H.
  apply wp_bind. apply wp_call. unfold validate_allowed_modules.
  apply wp_bind. apply wp_gets. cbv beta. fields. rewrite (core_module_profile _ _ H).
  destruct (truthy (module_profile (self c0))); [ | apply wp_ret; apply wp_const; discriminate].
  destruct (module_profile_doc site (module_profile (self c0))) as [rows | ].
  - apply wp_bind. apply wp_assign. apply wp_assign. apply wp_const. discriminate.
  - apply wp_raise. exact I.
Qed.



Lemma wp_returned {S A} (m : M S A) (Q : A -> S -> Prop) (E : Exn -> S -> Prop) s :
  wp m Q E s -> returns m s -> exists a, m s = (fst (m s), inr a) /\ Q a (fst (m s)).
Proof.
  unfold wp, returns. destruct (m s) as [s' [e | a]]; simpl; intros H [a' Ha]; [discriminate | ].
  exists a. split; [reflexivity | exact H].
Qed.



(** ** What validation leaves alone *)

(** X2.  Validation writes nothing to the database and sends nothing.
    Whether it returns or raises, the stored users, the credentials, the
    mail counter, the HTTP status and the redirect cache are as they were,
    and so are the name, the [enabled] check, the flags, the reset token and
    the mailboxes of the document.  (What the login manager does to the
    sessions of a user who is being disabled is its own business: here it
    is the [Logout] on record, and nothing is stated of the session.) *)
Theorem validate_frame (c : Ctx) :
  let c' := fst (validate site c) in
  (tabUser (world c') = tabUser (world c)
   /\ auth (world c') = auth (world c)
   /\ mails_sent (world c') = mails_sent (world c)
   /\ http_status_code (world c') = http_status_code (world c)
   /\ redirect_after_login (world c') = redirect_after_login (world c))
  /\ (name (self c') = name (self c)
      /\ enabled (self c') = enabled (self c)
      /\ flags (self c') = flags (self c)
      /\ reset_password_key (self c') = reset_password_key (self c)
      /\ last_reset_password_key_generated_on (self c')
         = last_reset_password_key_generated_on (self c)
      /\ user_emails (self c') = user_emails (self c)
      /\ module_profile (self c') = module_profile (self c)
      /\ user_image (self c') = user_image (self c)).
Proof.
  intro c'. pose proof (core_validate_eq site c) as H. fold c' in H.
  unfold core in H. injection H. intros. repeat split; assumption.
Qed.

(** ** Roles of Guest, and the legacy profile field *)

Lemma reconciled_name n t pn ps rs :
  exists t' pn' ps' rs', populated site (moved (n, t, pn, ps, rs)) = (n, t', pn', ps', rs')
                         /\ pn' = "" /\ (mem_str n STANDARD_USERS = false -> pn <> "" ->
                                         In pn (map role_profile ps')).
Proof.
  unfold moved. unfold truthy. destruct (String.eqb_spec pn "") as [-> | Hpn]; simpl negb;
    cbv iota.
  - unfold populated. destruct ps as [ | rp ps]; [repeat eexists; tauto | ].
    destruct (mem_str n STANDARD_USERS); [repeat eexists; tauto | ].
    destruct (profile_union site (rp :: ps) []); repeat eexists; tauto.
  - destruct (mem_str pn (map role_profile ps)) eqn:Hmem.
    + apply mem_str_In in Hmem. unfold populated.
      destruct ps as [ | rp ps]; [destruct Hmem | ].
      destruct (mem_str n STANDARD_USERS); [repeat eexists; intros; discriminate | ].
      destruct (profile_union site (rp :: ps) []); repeat eexists; intros; exact Hmem.
    + assert (Hin : In pn (map role_profile (ps ++ [{| role_profile := pn |}])))
        by (rewrite map_app, in_app_iff; right; left; reflexivity).
      unfold populated.
      destruct (ps ++ [{| role_profile := pn |}])%list as [ | rp ps'] eqn:Hps;
        [destruct Hin | ].
      destruct (mem_str n STANDARD_USERS); [repeat eexists; intros; discriminate | ].
      destruct (profile_union site (rp :: ps') []); repeat eexists; intros; exact Hin.
Qed.


Lemma NoDup_constant {A} (l : list A) (a : A) :
  NoDup l -> (forall x, In x l -> x = a) -> (List.length l <= 1)%nat.
Proof.
  intros Hnd Hall. destruct l as [ | x [ | y rest]]; simpl; try lia.
  exfalso. inversion Hnd as [ | ? ? Hx _]. subst. apply Hx.
  rewrite (Hall x (or_introl eq_refl)), (Hall y (or_intror (or_introl eq_refl))).
  left. reflexivity.
Qed.

(** What validation leaves of the view, with the name in place. *)
Lemma validate_settles c :
  returns (validate site) c ->
  exists t pn ps rs,
    view (fst (validate site c)) = settled site (name (self c), t, pn, ps, rs)
    /\ pn = ""
    /\ (mem_str (name (self c)) STANDARD_USERS = false -> role_profile_name (self c) <> "" ->
        In (role_profile_name (self c)) (map role_profile ps)).
Proof.
  intro Hret. destruct (validate_run_view site c Hret) as [_ [v [Hend [Hshape _]]]].
  unfold view, user_view in Hshape.
  destruct (reconciled_name (name (self c)) (user_type (self c)) (role_profile_name (self c))
              (role_profiles (self c)) (roles (self c)))
    as (t' & pn' & ps' & rs' & Hpop & Hpn & Hin).
  rewrite Hpop in Hshape. destruct v as [[[[n t] pn] ps] rs]. simpl in Hshape.
  injection Hshape as -> -> ->. exists t, pn', ps', rs. auto.
Qed.

(** X3.  Guest is left with at most one role, the role "Guest", whatever roles
    and role profiles the document came with. *)
Theorem guest_keeps_only_guest_role (c : Ctx) :
  returns (validate site) c -> name (self c) = "Guest" ->
  (forall d, In d (roles (self (fst (validate site c)))) -> role d = Some "Guest")
  /\ (List.length (roles (self (fst (validate site c)))) <= 1)%nat.
Proof.
  intros Hret Hguest.
  destruct (validate_settles c Hret) as (t & pn & ps & rs & Hend & _).
  pose proof (settled_roles_unique site (name (self c), t, pn, ps, rs)) as Hu.
  rewrite <- Hend in Hu. unfold view, user_view in Hu, Hend. destruct Hu as [Hnd _].
  unfold settled in Hend. rewrite Hguest in Hend. simpl String.eqb in Hend.
  injection Hend as _ _ _ _ Hroles.
  assert (Hall : forall d, In d (roles (self (fst (validate site c)))) -> role d = Some "Guest").
  { intros d Hd. rewrite Hroles in Hd. apply filter_In in Hd. destruct Hd as [Hd _].
    apply filter_In in Hd. destruct Hd as [_ Hd]. apply eqb_opt_eq. exact Hd. }
  split; [exact Hall | ].
  rewrite <- (length_map role). apply NoDup_constant with (a := Some "Guest"); [exact Hnd | ].
  intros x Hx. apply in_map_iff in Hx. destruct Hx as [d [<- Hd]]. apply Hall. exact Hd.
Qed.

(** X4.  The legacy field [role_profile_name] does not survive validation: it
    comes out empty, and for a user that is not reserved the profile it
    named is then one of the [role_profiles]. *)
Theorem legacy_profile_is_migrated (c : Ctx) :
  returns (validate site) c ->
  role_profile_name (self (fst (validate site c))) = ""
  /\ (~ In (name (self c)) STANDARD_USERS -> role_profile_name (self c) <> "" ->
      In (role_profile_name (self c))
         (map role_profile (role_profiles (self (fst (validate site c)))))).
Proof.
  intro Hret. destruct (validate_settles c Hret) as (t & pn & ps & rs & Hend & Hpn & Hin).
  unfold view, user_view, settled in Hend. injection Hend as _ _ Hpn' Hps' _.
  split; [congruence | ].
  intros Hn Hset. rewrite Hps'. apply unique_role_profiles_spec.
  split; [apply Hin; [apply mem_str_false; exact Hn | exact Hset] | intros []].
Qed.


(** ** Fields that one step of the pipeline owns *)

(** One step that keeps [Inv], as [side] shows of each write in it. *)
Ltac keep_by Inv H side :=
  try apply wp_bind;
  eapply wp_conseq with (Q' := fun _ c' => Inv c') (E' := fun _ c' => Inv c');
  [ match goal with
    | |- wp ?m _ _ ?s =>
        let Hst := fresh "Hst" in
        assert (Hst : stable Inv m) by (stable_by side);
        exact (Hst s H)
    end
  | cbv beta; clear H; intros ? ? H
  | intros; exact I ].

Ltac plainly := solve [ intros; unfold core in *; cbn in *; assumption ].

Definition mail_fields (u : User) : Z * Z * Z :=
  (thread_notify u, send_me_a_copy u, allowed_in_mentions u).

(** After [check_enable_disable]: the mail fields are settled, the toggle
    is on record and, where sessions had to be cleared, so is the logout. *)
Definition disabled_state (expected : Z * Z * Z) (toggle : Event) (logout : option Event)
    (c : Ctx) : Prop :=
  mail_fields (self c) = expected
  /\ In toggle (log (world c))
  /\ forall e, logout = Some e -> In e (log (world c)).

Ltac disabled_side :=
  solve [ intros ? (? & ? & ?);
          split; [unfold mail_fields in *; cbn in *; assumption | split];
          [ cbn in *; first [assumption | apply in_or_app; left; assumption]
          | intros ? ?; cbn in *;
            first [solve [eauto] | apply in_or_app; left; solve [eauto]] ] ].

Lemma validate_disables c0 c :
  (mail_fields (self c), core c) = (mail_fields (self c0), core c0) ->
  wp (validate site)
    (fun _ c' =>
       disabled_state
         (if nonzero (enabled (self c0)) then mail_fields (self c0) else (0, 0, 0)%Z)
         (ToggleNotifications (name (self c0)) (enabled (self c0)))
         (if (negb (nonzero (enabled (self c0))) && login_manager site)%bool
          then Some (Logout (name (self c0))) else None) c')
    (fun _ _ => True) c.
Proof.
  intro H. unfold validate.
  set (Inv := fun c : Ctx => (mail_fields (self c), core c) = (mail_fields (self c0), core c0)).
  change (Inv c) in H.
  keep_by Inv H plainly. keep_by Inv H plainly. wp_go. keep_by Inv H plainly.
  do 5 keep_by Inv H plainly.
  match type of H with Inv ?s => rename s into cur end.
  apply wp_bind. apply wp_call. unfold Inv in H.
  pose proof (f_equal fst H) as Hm. pose proof (f_equal snd H) as Hc. simpl in Hm, Hc. clear H.
  pose proof (core_name _ _ Hc) as Hn. pose proof (core_enabled _ _ Hc) as He.
  set (Inv2 := disabled_state
         (if nonzero (enabled (self c0)) then mail_fields (self c0) else (0, 0, 0)%Z)
         (ToggleNotifications (name (self c0)) (enabled (self c0)))
         (if (negb (nonzero (enabled (self c0))) && login_manager site)%bool
          then Some (Logout (name (self c0))) else None)).
  eapply wp_conseq with (Q' := fun _ c' => Inv2 c') (E' := fun _ _ => True);
    [ | cbv beta; intros ? ? H | auto ].
  { unfold check_enable_disable, disable_email_fields_if_user_disabled, cint. wp_go.
    rewrite Hn, He. unfold Inv2, disabled_state, mail_fields in *.
    destruct (nonzero (enabled (self c0))) eqn:Hz;
      destruct (mem_str (name (self c0)) STANDARD_USERS);
      destruct (login_manager site);
      cbn [negb andb]; wp_go; try exact I; rewrite He, Hz; cbn [negb]; wp_go;
      (split; [first [exact Hm | reflexivity] | split; [ | intros e; try discriminate] ]);
      try (apply in_or_app; right; left; reflexivity).
    intros [= <-]. apply in_or_app. left. apply in_or_app. right. left. reflexivity. }
  keep_by Inv2 H disabled_side. keep_by Inv2 H disabled_side. keep_by Inv2 H disabled_side.
  keep_by Inv2 H disabled_side. keep_by Inv2 H disabled_side. keep_by Inv2 H disabled_side.
  wp_go. keep_by Inv2 H disabled_side.
  do 3 keep_by Inv2 H disabled_side. wp_go. keep_by Inv2 H disabled_side. wp_go.
  eapply wp_conseq with (Q' := fun _ c' => Inv2 c') (E' := fun _ c' => Inv2 c');
    [ | auto | auto ].
  match goal with
  | |- wp ?m _ _ ?s =>
      assert (Hst : stable Inv2 m) by (stable_by disabled_side); exact (Hst s H)
  end.
Qed.


(** X5.  Validating a disabled user switches its mail fields off and, where a
    login manager is at hand, logs the user out; an enabled user keeps its
    mail fields.  Either way the notification toggle is told the state. *)
Theorem disabling_switches_mail_off (c : Ctx) :
  returns (validate site) c ->
  let c' := fst (validate site c) in
  In (ToggleNotifications (name (self c)) (enabled (self c))) (log (world c'))
  /\ (enabled (self c) = 0%Z ->
      thread_notify (self c') = 0%Z /\ send_me_a_copy (self c') = 0%Z
      /\ allowed_in_mentions (self c') = 0%Z
      /\ (login_manager site = true -> In (Logout (name (self c))) (log (world c'))))
  /\ (enabled (self c) <> 0%Z ->
      thread_notify (self c') = thread_notify (self c)
      /\ send_me_a_copy (self c') = send_me_a_copy (self c)
      /\ allowed_in_mentions (self c') = allowed_in_mentions (self c)).
Proof.
  intros Hret c'.
  destruct (wp_returned _ _ _ _ (validate_disables c c eq_refl) Hret)
    as [_ [_ (Hfields & Htoggle & Hlogout)]].
  fold c' in Hfields, Htoggle, Hlogout. unfold mail_fields in Hfields.
  split; [exact Htoggle | split].
  - intro Hoff. rewrite Hoff in *. simpl in Hfields, Hlogout.
    injection Hfields as H1 H2 H3. repeat split; try assumption.
    intro Hlm. rewrite Hlm in Hlogout. apply Hlogout. reflexivity.
  - intro Hon. unfold nonzero in Hfields. apply Z.eqb_neq in Hon. rewrite Hon in Hfields.
    simpl in Hfields. injection Hfields as H1 H2 H3. repeat split; assumption.
Qed.


(** ** Usernames are not shared *)

Lemma validate_username_free c :
  wp (validate_username site)
    (fun _ c' => core c' = core c
                 /\ (username (self c') = ""
                     \/ username_taken "" (self c') (world c') = false))
    (fun _ _ => True) c.
Proof.
  unfold validate_username. wp_go.
  wp_case.
  - wp_case.
    + split; [reflexivity | left]. unfold truthy in Heqb0.
      apply negb_true_iff in Heqb0. apply negb_false_iff in Heqb0.
      apply String.eqb_eq in Heqb0. exact Heqb0.
    + wp_case; [ | split; [reflexivity | right; exact Heqb1] ].
      wp_case; [ | split; [reflexivity | left; reflexivity] ].
      eapply wp_conseq; [apply suggest_username_spec | | intros e s' []].
      cbv beta. intros _ s' [Hs Hw]. wp_go. split; [ | left; reflexivity].
      unfold core. fields. rewrite Hs. fields.
      destruct Hw as [-> | [s ->]]; reflexivity.
  - wp_case.
    + split; [reflexivity | left]. unfold truthy in Heqb0.
      apply negb_true_iff in Heqb0. apply negb_false_iff in Heqb0.
      apply String.eqb_eq in Heqb0. exact Heqb0.
    + wp_case; [ | split; [reflexivity | right; exact Heqb1] ].
      wp_case; [ | split; [reflexivity | left; reflexivity] ].
      eapply wp_conseq; [apply suggest_username_spec | | intros e s' []].
      cbv beta. intros _ s' [Hs Hw]. wp_go. split; [ | left; reflexivity].
      unfold core. fields. rewrite Hs. fields.
      destruct Hw as [-> | [s ->]]; reflexivity.
Qed.


Lemma username_taken_ext u u' w w' :
  username u = username u' -> name u = name u' -> tabUser w = tabUser w' ->
  username_taken "" u w = username_taken "" u' w'.
Proof.
  intros Hu Hn Hw. unfold username_taken, username_exists. simpl. rewrite Hu, Hn, Hw.
  reflexivity.
Qed.

Lemma validate_leaves_username_free c0 c :
  core c = core c0 ->
  wp (validate site)
    (fun _ c' => username (self c') = ""
                 \/ username_taken "" (self c') (world c') = false)
    (fun _ _ => True) c.
Proof.
  intro H. unfold validate.
  core_step c0 H. core_step c0 H. wp_go. core_step c0 H.
  do 9 core_step c0 H.
  apply wp_bind. apply wp_call.
  eapply wp_conseq; [apply validate_username_free | | auto].
  cbv beta. intros _ s [Hcore Hfree]. clear H.
  set (Inv := fun c : Ctx => (username (self c), core c) = (username (self s), core s)).
  assert (H : Inv s) by reflexivity.
  keep_by Inv H plainly. keep_by Inv H plainly. wp_go. keep_by Inv H plainly.
  keep_by Inv H plainly. keep_by Inv H plainly. keep_by Inv H plainly.
  wp_go. keep_by Inv H plainly. wp_go.
  eapply wp_conseq with (Q' := fun _ c' => Inv c') (E' := fun _ c' => Inv c');
    [ | | auto ].
  - match goal with
    | |- wp ?m _ _ ?s0 =>
        assert (Hst : stable Inv m) by (stable_by plainly); exact (Hst s0 H)
    end.
  - cbv beta. intros _ c' Hc'. unfold Inv in Hc'.
    pose proof (f_equal fst Hc') as Hu. pose proof (f_equal snd Hc') as Hk. simpl in Hu, Hk.
    destruct Hfree as [Hempty | Hfree]; [left; congruence | right].
    rewrite <- Hfree. apply username_taken_ext;
      [exact Hu | apply core_name; exact Hk | apply core_tabUser; exact Hk].
Qed.

(** X6.  After validation the username is empty or free: no stored user with
    another name has it.  (Stored users have names.) *)
Theorem username_is_not_shared (c : Ctx) :
  returns (validate site) c ->
  (forall r, In r (tabUser (world c)) -> truthy (name r) = true) ->
  let c' := fst (validate site c) in
  username (self c') = ""
  \/ forall r, In r (tabUser (world c)) -> name r <> name (self c) ->
               username r <> username (self c').
Proof.
  intros Hret Hnamed c'.
  destruct (wp_returned _ _ _ _ (validate_leaves_username_free c c eq_refl) Hret)
    as [_ [_ H]].
  fold c' in H. destruct H as [H | H]; [left; exact H | right].
  pose proof (core_validate_eq site c) as Hcore. fold c' in Hcore.
  intros r Hr Hother Hsame.
  unfold username_taken, username_exists in H. simpl in H.
  rewrite (core_tabUser _ _ Hcore), (core_name _ _ Hcore) in H.
  destruct (find (fun r0 => ((username r0 =? username (self c'))
                             && negb (name r0 =? name (self c)))%bool) (tabUser (world c)))
    as [r' | ] eqn:Hfind.
  - apply find_some in Hfind. simpl in H. rewrite (Hnamed r' (proj1 Hfind)) in H.
    discriminate.
  - pose proof (find_none _ _ Hfind r Hr) as Hf. simpl in Hf.
    rewrite Hsame, String.eqb_refl in Hf. apply String.eqb_neq in Hother.
    rewrite Hother in Hf. discriminate.
Qed.


(** ** The order of the pipeline, on a run *)

(** What a run shows of the order of the steps is the error it stops with
    and the document it stops on.  [validate_allowed_modules] alone raises
    for a missing Module Profile; [validate_user_email_inbox] raises with a
    message of its own. *)
Definition is_module_profile_error (e : Exn) : bool :=
  match e with
  | DoesNotExistError doctype _ => doctype =? "Module Profile"
  | _ => false
  end.

Definition is_mailbox_error (e : Exn) : bool :=
  match e with
  | ValidationError msg => msg =? "Email Account added multiple times"
  | _ => false
  end.

(** No row of the roles table names a role that is disabled in the Role
    catalogue. *)
Definition no_disabled_role (u : User) : Prop :=
  forall d, In d (roles u) -> is_disabled_role site (role d) = false.

(** No two rows of the mailbox table name the same Email Account. *)
Definition distinct_mailboxes (u : User) : Prop :=
  NoDup (map email_account (user_emails u)).

(** [misses F m]: [m] raises no error of the class [F]. *)
Definition misses {S A : Type} (F : Exn -> bool) (m : M S A) : Prop :=
  triple (fun _ => True) m (fun _ _ => True) (fun e _ => F e = false).

Lemma misses_ret {S A} (F : Exn -> bool) (a : A) : misses F (@ret S A a).
Proof. intros s _. exact I. Qed.

Lemma misses_gets {S A} (F : Exn -> bool) (f : S -> A) : misses F (gets f).
Proof. intros s _. exact I. Qed.

Lemma misses_modify {S} (F : Exn -> bool) (f : S -> S) : misses F (modify f).
Proof. intros s _. exact I. Qed.

Lemma misses_raise {S A} (F : Exn -> bool) (e : Exn) : F e = false -> misses F (@raise S A e).
Proof. intros H s _. exact H. Qed.

Lemma misses_throw {S A} (F : Exn -> bool) (msg : string) :
  F (ValidationError msg) = false -> misses F (@throw S A msg).
Proof. intros H s _. exact H. Qed.

Lemma misses_bind {S A B} (F : Exn -> bool) (m : M S A) (f : A -> M S B) :
  misses F m -> (forall a, misses F (f a)) -> misses F (bind m f).
Proof.
  intros Hm Hf. apply triple_bind with (R := fun _ _ => True); [exact Hm | exact Hf].
Qed.

Lemma misses_when {S} (F : Exn -> bool) (b : bool) (m : M S unit) :
  misses F m -> misses F (when b m).
Proof. intro H. destruct b; [exact H | apply misses_ret]. Qed.

Lemma misses_on_world {A} (F : Exn -> bool) (m : M World A) :
  misses F m -> misses F (on_world m).
Proof.
  intros H c _. specialize (H (world c) I). unfold wp, on_world in *.
  destruct (m (world c)) as [w [e | a]]; exact H.
Qed.

Lemma misses_call {A} (F : Exn -> bool) (method : string) (m : M Ctx A) :
  misses F m -> misses F (call method m).
Proof. intro H. unfold call. apply misses_bind; [apply misses_modify | intros _; exact H]. Qed.

Lemma misses_profile_roles {S} (F : Exn -> bool) profiles acc :
  (forall p, F (DoesNotExistError "Role Profile" p) = false) ->
  misses F (@profile_roles site S profiles acc).
Proof.
  intro HF. revert acc. induction profiles as [ | rp rest IH]; intro acc; simpl.
  - apply misses_ret.
  - destruct (role_profile_doc site (role_profile rp)); [apply IH | apply misses_raise; apply HF].
Qed.

Lemma wp_and {S A} (m : M S A) (Q1 Q2 : A -> S -> Prop) (E1 E2 : Exn -> S -> Prop) s :
  wp m Q1 E1 s -> wp m Q2 E2 s ->
  wp m (fun a s' => Q1 a s' /\ Q2 a s') (fun e s' => E1 e s' /\ E2 e s') s.
Proof. unfold wp. destruct (m s) as [s' [e | a]]; auto. Qed.

(** Proves [misses F m] along the structure of [m]; [leaf] settles what a
    [raise] has to show. *)
Ltac misses_by leaf :=
  repeat (intros;
    lazymatch goal with
    | |- misses _ (ret _) => apply misses_ret
    | |- misses _ (raise _) => apply misses_raise; leaf
    | |- misses _ (throw _) => apply misses_throw; leaf
    | |- misses _ (gets _) => apply misses_gets
    | |- misses _ (bind _ _) => apply misses_bind
    | |- misses _ (when _ _) => apply misses_when
    | |- misses _ (modify _) => apply misses_modify
    | |- misses _ (assign _) => apply misses_modify
    | |- misses _ (emit_w _) => apply misses_modify
    | |- misses _ (call _ _) => apply misses_call
    | |- misses _ (profile_roles _ _ _) => apply misses_profile_roles; leaf
    | |- misses _ (on_world _) => apply misses_on_world
    | |- misses _ (if ?b then _ else _) => destruct b
    | |- misses _ (match ?x with _ => _ end) => destruct x
    | |- misses _ (?f _ _ _ _ _) => unfold f
    | |- misses _ (?f _ _ _ _) => unfold f
    | |- misses _ (?f _ _ _) => unfold f
    | |- misses _ (?f _ _) => unfold f
    | |- misses _ (?f _) => unfold f
    | |- misses _ ?f => unfold f
    end).

(** One step that keeps [Inv] and raises nothing of the class [F]. *)
Ltac pass_by F Inv H side leaf :=
  try apply wp_bind;
  eapply wp_conseq with (Q' := fun _ c' => Inv c' /\ True)
                        (E' := fun e c' => Inv c' /\ F e = false);
  [ match goal with
    | |- wp ?m _ _ ?s =>
        let Hst := fresh "Hst" in
        let Hms := fresh "Hms" in
        assert (Hst : stable Inv m) by (stable_by side);
        assert (Hms : misses F m) by (misses_by leaf);
        exact (wp_and _ _ _ _ _ _ (Hst s H) (Hms s I))
    end
  | cbv beta; clear H; intros ? ? [H _]
  | cbv beta; intros ? ? [? ?] ].

(** The steps that are left raise nothing of the class [F]. *)
Ltac rest_by F leaf :=
  cbv beta;
  eapply wp_conseq with (Q' := fun _ _ => True) (E' := fun e _ => F e = false);
  [ match goal with
    | |- wp ?m _ _ ?s =>
        let Hms := fresh "Hms" in
        assert (Hms : misses F m) by (misses_by leaf);
        exact (Hms s I)
    end
  | intros; exact I
  | cbv beta; intros ? ? ? ].

Lemma length_append_le (s t : string) : (String.length t <= String.length (s ++ t))%nat.
Proof. induction s as [ | a s IH]; simpl; lia. Qed.

Lemma address_message_is_not_mailbox s :
  is_mailbox_error (ValidationError (s ++ " is not a valid Email Address")) = false.
Proof.
  unfold is_mailbox_error. apply String.eqb_neq. intro H.
  do 6 (destruct s as [ | ? s]; [discriminate H | injection H as _ H]).
  pose proof (length_append_le s " is not a valid Email Address") as Hle.
  rewrite H in Hle. simpl in Hle. lia.
Qed.

Ltac other_error :=
  solve [ intros; first [ reflexivity | apply address_message_is_not_mailbox ] ].

Ltac both_side Inv :=
  solve [ intros ? [? ?]; split;
          [ unfold core in *; cbn in *; assumption
          | unfold Inv, no_disabled_role in *; cbn in *; assumption ] ].

Lemma remove_disabled_roles_drops (u : User) :
  no_disabled_role
    (with_roles (filter (fun r => negb (is_disabled_role site (role r))) (roles u)) u).
Proof.
  intros d Hd. cbn in Hd. apply filter_In in Hd. destruct Hd as [_ Hd].
  apply negb_true_iff in Hd. exact Hd.
Qed.

Lemma mailbox_test_distinct (u : User) :
  (List.length (map email_account (user_emails u))
   =? List.length (nodup string_dec (map email_account (user_emails u))))%nat = true
  <-> distinct_mailboxes u.
Proof.
  unfold distinct_mailboxes. rewrite Nat.eqb_eq. split; intro H.
  - apply nodup_length_NoDup. symmetry. exact H.
  - rewrite (nodup_fixed_point string_dec H). reflexivity.
Qed.

(** When validation stops for a missing Module Profile, the disabled roles
    are gone and the mailboxes have been found distinct. *)
Lemma validate_reaches_module_profile c0 c :
  core c = core c0 ->
  wp (validate site) (fun _ _ => True)
    (fun e c' =>
       is_module_profile_error e = true ->
       e = DoesNotExistError "Module Profile" (module_profile (self c0))
       /\ module_profile_doc site (module_profile (self c0)) = None
       /\ distinct_mailboxes (self c0)
       /\ no_disabled_role (self c')) c.
Proof.
  intro H. unfold validate.
  set (Kept := fun c' : Ctx => core c' = core c0).
  pass_by is_module_profile_error Kept H plainly other_error; [ | intro; congruence].
  pass_by is_module_profile_error Kept H plainly other_error; [ | intro; congruence].
  wp_go.
  pass_by is_module_profile_error Kept H plainly other_error; [ | intro; congruence].
  do 10 (pass_by is_module_profile_error Kept H plainly other_error; [ | intro; congruence]).
  apply wp_bind. apply wp_call. unfold remove_disabled_roles. apply wp_assign. cbv beta.
  set (Dropped := fun c' : Ctx => core c' = core c0 /\ no_disabled_role (self c')).
  match goal with
  | |- wp _ _ _ ?s => assert (H2 : Dropped s)
  end.
  { split; [unfold Kept, core in *; cbn in *; exact H | apply remove_disabled_roles_drops]. }
  match goal with
  | |- wp _ _ _ ?s => generalize dependent s
  end.
  clear H. intros s H.
  apply wp_bind. apply wp_call. unfold validate_user_email_inbox.
  apply wp_bind. apply wp_gets. cbv beta. fields.
  rewrite (core_user_emails _ _ (proj1 H)).
  destruct (List.length (map email_account (user_emails (self c0)))
            =? List.length (nodup string_dec (map email_account (user_emails (self c0)))))%nat
    eqn:Hlen; simpl negb; cbv iota; [ | apply wp_throw; intro Hyes; discriminate Hyes].
  apply mailbox_test_distinct in Hlen.
  apply wp_ret. cbv beta. wp_go.
  pass_by is_module_profile_error Dropped H ltac:(both_side Dropped) other_error;
    [ | intro; congruence].
  apply wp_bind. apply wp_call. unfold validate_allowed_modules.
  apply wp_bind. apply wp_gets. cbv beta. fields.
  rewrite (core_module_profile _ _ (proj1 H)).
  destruct (truthy (module_profile (self c0))).
  - destruct (module_profile_doc site (module_profile (self c0))) as [rows | ] eqn:Hdoc.
    + apply wp_bind. apply wp_assign. apply wp_assign.
      rest_by is_module_profile_error other_error. intro; congruence.
    + apply wp_raise. intros _.
      split; [reflexivity | split; [reflexivity | split; [exact Hlen | exact (proj2 H)] ] ].
  - apply wp_ret. rest_by is_module_profile_error other_error. intro; congruence.
Qed.

(** With a mailbox listed twice validation stops, and not for a missing
    Module Profile. *)
Lemma validate_stops_at_mailboxes c0 c :
  core c = core c0 -> ~ distinct_mailboxes (self c0) ->
  wp (validate site) (fun _ _ => False) (fun e _ => is_module_profile_error e = false) c.
Proof.
  intros H Hdup. unfold validate.
  set (Kept := fun c' : Ctx => core c' = core c0).
  pass_by is_module_profile_error Kept H plainly other_error; [ | assumption].
  pass_by is_module_profile_error Kept H plainly other_error; [ | assumption].
  wp_go.
  pass_by is_module_profile_error Kept H plainly other_error; [ | assumption].
  do 11 (pass_by is_module_profile_error Kept H plainly other_error; [ | assumption]).
  apply wp_bind. apply wp_call. unfold validate_user_email_inbox.
  apply wp_bind. apply wp_gets. cbv beta. fields.
  rewrite (core_user_emails _ _ H).
  destruct (List.length (map email_account (user_emails (self c0)))
            =? List.length (nodup string_dec (map email_account (user_emails (self c0)))))%nat
    eqn:Hlen; simpl negb; cbv iota; [ | apply wp_throw; reflexivity].
  apply mailbox_test_distinct in Hlen. contradiction.
Qed.

Ltac blocked_side :=
  solve [ intros ? (? & ? & ?); repeat split; unfold core in *; cbn in *; assumption ].

Ltac blocked_after_side :=
  solve [ intros ? [? ?]; split; unfold core in *; cbn in *; assumption ].

(** On the standard branch of [set_system_user] nothing before the Module
    Profile writes the block list. *)
Lemma validate_stops_before_block_list c0 c :
  core c = core c0 -> user_type (self c) = user_type (self c0) ->
  block_modules (self c) = block_modules (self c0) ->
  standard_branch site (user_type (self c0)) = true ->
  ~ distinct_mailboxes (self c0) ->
  wp (validate site) (fun _ _ => False)
    (fun _ c' => block_modules (self c') = block_modules (self c0)) c.
Proof.
  intros Hcore Htype Hblock Hstd Hdup. unfold validate.
  set (Before := fun c' : Ctx =>
         core c' = core c0 /\ user_type (self c') = user_type (self c0)
         /\ block_modules (self c') = block_modules (self c0)).
  assert (H : Before c) by (repeat split; assumption).
  clear Hcore Htype Hblock.
  pass_by (fun _ : Exn => false) Before H blocked_side other_error;
    [ | match goal with Hb : Before _ |- _ => exact (proj2 (proj2 Hb)) end].
  pass_by (fun _ : Exn => false) Before H blocked_side other_error;
    [ | match goal with Hb : Before _ |- _ => exact (proj2 (proj2 Hb)) end].
  wp_go.
  pass_by (fun _ : Exn => false) Before H blocked_side other_error;
    [ | match goal with Hb : Before _ |- _ => exact (proj2 (proj2 Hb)) end].
  do 3 (pass_by (fun _ : Exn => false) Before H blocked_side other_error;
        [ | match goal with Hb : Before _ |- _ => exact (proj2 (proj2 Hb)) end]).
  apply wp_bind. apply wp_call. unfold set_system_user.
  apply wp_bind. apply wp_gets. cbv beta. fields.
  destruct H as (Hcore & Htype & Hblock). rewrite Htype.
  unfold standard_branch in Hstd. apply negb_true_iff in Hstd. rewrite Hstd. cbv iota.
  apply wp_assign. cbv beta.
  set (After := fun c' : Ctx =>
         core c' = core c0 /\ block_modules (self c') = block_modules (self c0)).
  match goal with
  | |- wp _ _ _ ?s => assert (H : After s)
  end.
  { split; [unfold core in *; cbn in *; exact Hcore | cbn; exact Hblock]. }
  match goal with
  | |- wp _ _ _ ?s => generalize dependent s
  end.
  clear Hcore Htype Hblock. intros s H.
  do 7 (pass_by (fun _ : Exn => false) After H blocked_after_side other_error;
        [ | match goal with Hb : After _ |- _ => exact (proj2 Hb) end]).
  apply wp_bind. apply wp_call. unfold validate_user_email_inbox.
  apply wp_bind. apply wp_gets. cbv beta. fields.
  rewrite (core_user_emails _ _ (proj1 H)).
  destruct (List.length (map email_account (user_emails (self c0)))
            =? List.length (nodup string_dec (map email_account (user_emails (self c0)))))%nat
    eqn:Hlen; simpl negb; cbv iota; [ | apply wp_throw; exact (proj2 H)].
  apply mailbox_test_distinct in Hlen. contradiction.
Qed.

(** The policy's rejection of the new password on the document, if there
    is one, is not worded as the mailbox check's error. *)
Definition policy_worded_apart (c : Ctx) : Prop :=
  forall pwd, new_password (self c) = Some pwd ->
    is_mailbox_error (rejection (estimate site (world c) pwd (Some (user_data_of (self c)))))
    = false.

Lemma password_step_misses_mailbox c0 c :
  policy_worded_apart c0 ->
  core c = core c0 ->
  __new_password (self c) = new_password (self c0) ->
  user_data_of (self c) = user_data_of (self c0) ->
  wp (when (negb (in_test site)) (call "password_strength_test" (password_strength_test site)))
    (fun _ c' => core c' = core c0) (fun e _ => is_mailbox_error e = false) c.
Proof.
  intros Hpw H Hnew Hdata.
  destruct (in_test site); simpl negb; [apply wp_when_false; exact H | apply wp_when_true].
  apply wp_call. unfold password_strength_test. apply wp_bind. apply wp_gets. cbv beta. fields.
  destruct (ignore_password_policy (flags (self c))); [apply wp_ret; exact H | ].
  rewrite Hnew, Hdata.
  destruct (new_password (self c0)) as [pwd | ] eqn:Hpwd; simpl truthy_opt;
    [ | apply wp_ret; exact H].
  destruct (truthy pwd) eqn:Htruthy; [ | apply wp_ret; exact H].
  simpl or_empty. apply wp_bind. apply wp_on_world.
  unfold test_password_strength. apply wp_bind. apply wp_when_false. cbv beta.
  destruct (enable_password_policy site); simpl negb; cbv iota.
  - apply wp_bind. apply wp_gets. cbv beta. rewrite Htruthy. apply wp_ret.
    unfold check_feedback. fields.
    match goal with
    | |- wp (if negb ?b then _ else _) _ _ _ => destruct b
    end; simpl negb; cbv iota.
    + apply wp_ret. unfold core in *. cbn in *. exact H.
    + unfold handle_password_test_fail. apply wp_throw.
      exact (Hpw pwd Hpwd).
  - apply wp_ret. unfold check_feedback. apply wp_ret. unfold core in *. cbn in *. exact H.
Qed.

(** When validation stops at the mailbox check, the disabled roles are
    gone. *)
Lemma validate_reaches_mailbox_check c :
  policy_worded_apart c ->
  wp (validate site) (fun _ _ => True)
    (fun e c' =>
       is_mailbox_error e = true ->
       ~ distinct_mailboxes (self c) /\ no_disabled_role (self c')) c.
Proof.
  intro Hpw. unfold validate, clear_new_password. wp_go.
  eapply wp_conseq with (Q' := fun _ c' => core c' = core c)
                        (E' := fun e _ => is_mailbox_error e = false);
    [ apply (password_step_misses_mailbox c); [exact Hpw | reflexivity ..]
    | cbv beta; intros _ s H
    | cbv beta; intros; congruence ].
  set (Kept := fun c' : Ctx => core c' = core c).
  wp_go.
  pass_by is_mailbox_error Kept H plainly other_error; [ | intro; congruence].
  do 10 (pass_by is_mailbox_error Kept H plainly other_error; [ | intro; congruence]).
  apply wp_bind. apply wp_call. unfold remove_disabled_roles. apply wp_assign. cbv beta.
  set (Dropped := fun c' : Ctx => core c' = core c /\ no_disabled_role (self c')).
  match goal with
  | |- wp _ _ _ ?s => assert (H2 : Dropped s)
  end.
  { split; [unfold Kept, core in *; cbn in *; exact H | apply remove_disabled_roles_drops]. }
  match goal with
  | |- wp _ _ _ ?s => generalize dependent s
  end.
  clear H. intros s2 H.
  apply wp_bind. apply wp_call. unfold validate_user_email_inbox.
  apply wp_bind. apply wp_gets. cbv beta. fields.
  rewrite (core_user_emails _ _ (proj1 H)).
  destruct (List.length (map email_account (user_emails (self c)))
            =? List.length (nodup string_dec (map email_account (user_emails (self c)))))%nat
    eqn:Hlen; simpl negb; cbv iota.
  - apply wp_ret. rest_by is_mailbox_error other_error. intro; congruence.
  - apply wp_throw. intros _. split; [ | exact (proj2 H)].
    intro Hd. apply mailbox_test_distinct in Hd. congruence.
Qed.

(** C3, as the code has it.  On every create or update [validate] calls
    its steps in one fixed order, that of [validate_calls], and stops at
    the first that raises: the call record grows by a prefix of that list,
    and by the whole list when validation returns.  That order shows on
    every run.  Disabled roles are dropped before the mailboxes are
    checked: when validation stops with the mailbox check's error, no
    disabled role is left on the document.  The module profile is looked up
    and applied only after both: when validation stops for a missing Module
    Profile, the disabled roles are gone and the mailboxes were found
    distinct; and with a mailbox listed twice validation stops with an
    error that is never the missing Module Profile, the block list left as
    it was when the user type is unset or standard (another User Type
    writes the block list in [set_system_user]). *)
Theorem validate_order (c : Ctx) :
  (exists p, calls (fst (validate site c)) = (calls c ++ p)%list
             /\ prefix p (validate_calls site (self c))
             /\ (returns (validate site) c -> p = validate_calls site (self c)))
  /\ precedes "remove_all_roles_for_guest" "validate_username" (validate_calls site (self c))
     = true
  /\ precedes "validate_username" "remove_disabled_roles" (validate_calls site (self c)) = true
  /\ precedes "remove_disabled_roles" "validate_user_email_inbox"
       (validate_calls site (self c)) = true
  /\ precedes "validate_user_email_inbox" "validate_allowed_modules"
       (validate_calls site (self c)) = true
  /\ (forall p,
        snd (validate site c) = inl (DoesNotExistError "Module Profile" p) ->
        p = module_profile (self c)
        /\ module_profile_doc site p = None
        /\ distinct_mailboxes (self c)
        /\ no_disabled_role (self (fst (validate site c))))
  /\ (~ distinct_mailboxes (self c) ->
      exists e,
        snd (validate site c) = inl e
        /\ is_module_profile_error e = false
        /\ (standard_branch site (user_type (self c)) = true ->
            block_modules (self (fst (validate site c))) = block_modules (self c)))
  /\ (policy_worded_apart c ->
      snd (validate site c) = inl (ValidationError "Email Account added multiple times") ->
      ~ distinct_mailboxes (self c) /\ no_disabled_role (self (fst (validate site c)))).
Proof.
  split; [apply validate_call_record | ].
  split; [ | split; [ | split; [ | split] ] ].
  1-4: unfold validate_calls;
    destruct (negb (in_test site)); destruct (negb (mem_str (name (self c)) STANDARD_USERS));
    destruct (user_emails (self c));
    destruct (negb (mem_str (name (self c)) ["Administrator"; "Guest"])
              && negb (truthy_opt (get_social_login_userid "frappe" (self c))))%bool;
    reflexivity.
  split; [ | split].
  - intros p Hrun.
    pose proof (validate_reaches_module_profile c c eq_refl) as H. unfold wp in H.
    destruct (validate site c) as [c' [e | a]]; simpl in Hrun; [ | discriminate Hrun].
    injection Hrun as ->. simpl fst.
    destruct (H eq_refl) as (He & Hdoc & Hboxes & Hroles).
    injection He as ->. repeat split; assumption.
  - intro Hdup.
    pose proof (validate_stops_at_mailboxes c c eq_refl Hdup) as H. unfold wp in H.
    destruct (validate site c) as [c' [e | a]] eqn:Hrun; [ | contradiction].
    exists e. split; [reflexivity | split; [exact H | ] ].
    intro Hstd.
    pose proof (validate_stops_before_block_list c c eq_refl eq_refl eq_refl Hstd Hdup) as Hb.
    unfold wp in Hb. rewrite Hrun in Hb. exact Hb.
  - intros Hpw Hrun.
    pose proof (validate_reaches_mailbox_check c Hpw) as H. unfold wp in H.
    destruct (validate site c) as [c' [e | a]]; simpl in Hrun; [ | discriminate Hrun].
    injection Hrun as ->. exact (H eq_refl).
Qed.

(** ** The module profile, the time zone, the language and the login id *)

(** Return list of modules blocked for that user. *)
Definition get_blocked_modules (u : User) : list string :=
  match block_modules u with
  | [] => []
  | _ :: _ => map module (block_modules u)
  end.

Lemma validate_applies_module_profile c0 c :
  core c = core c0 ->
  wp (validate site)
    (fun _ c' => forall rows,
       truthy (module_profile (self c0)) = true ->
       module_profile_doc site (module_profile (self c0)) = Some rows ->
       block_modules (self c') = map (fun d => {| module := module d |}) rows)
    (fun _ _ => True) c.
Proof.
  intro H. unfold validate.
  core_step c0 H. core_step c0 H. wp_go. core_step c0 H.
  do 12 core_step c0 H. wp_go. core_step c0 H.
  match type of H with core ?s = _ => rename s into cur end.
  set (Applied := fun c' : Ctx => forall rows,
       truthy (module_profile (self c0)) = true ->
       module_profile_doc site (module_profile (self c0)) = Some rows ->
       block_modules (self c') = map (fun d => {| module := module d |}) rows).
  apply wp_bind. apply wp_call.
  eapply wp_conseq with (Q' := fun _ c' => Applied c') (E' := fun _ _ => True);
    [ | cbv beta; intros _ s Hs | auto ].
  { unfold validate_allowed_modules. wp_go. rewrite (core_module_profile _ _ H).
    unfold Applied. destruct (truthy (module_profile (self c0))); [ | wp_go; discriminate].
    destruct (module_profile_doc site (module_profile (self c0))) as [found | ];
      wp_go; [ | exact I].
    intros rows _ [= <-]. reflexivity. }
  clear H. set (Inv := fun c : Ctx => block_modules (self c) = block_modules (self s)).
  assert (H : Inv s) by reflexivity.
  keep_by Inv H plainly. keep_by Inv H plainly. wp_go. keep_by Inv H plainly. wp_go.
  eapply wp_conseq with (Q' := fun _ c' => Inv c') (E' := fun _ c' => Inv c');
    [ | | auto ].
  - match goal with
    | |- wp ?m _ _ ?s0 =>
        assert (Hst : stable Inv m) by (stable_by plainly); exact (Hst s0 H)
    end.
  - cbv beta. intros _ c' Hc'. unfold Inv in Hc'. unfold Applied in *.
    intros rows Hmp Hdoc. rewrite Hc'. apply Hs; assumption.
Qed.

(** X7.  A module profile on the document decides the block list: validation
    replaces whatever modules were blocked by those of the profile, in the
    profile's order. *)
Theorem module_profile_decides_blocked_modules (c : Ctx) :
  returns (validate site) c -> module_profile (self c) <> "" ->
  exists rows,
    module_profile_doc site (module_profile (self c)) = Some rows
    /\ block_modules (self (fst (validate site c)))
       = map (fun d => {| module := module d |}) rows
    /\ get_blocked_modules (self (fst (validate site c))) = map module rows.
Proof.
  intros Hret Hset.
  assert (Ht : truthy (module_profile (self c)) = true)
    by (unfold truthy; apply negb_true_iff; apply String.eqb_neq; exact Hset).
  destruct (wp_returned _ _ _ _ (validate_checks_module_profile c c eq_refl) Hret)
    as [_ [_ Hdoc]].
  specialize (Hdoc Ht).
  destruct (module_profile_doc site (module_profile (self c))) as [rows | ] eqn:Hrows;
    [ | contradiction].
  destruct (wp_returned _ _ _ _ (validate_applies_module_profile c c eq_refl) Hret)
    as [_ [_ H]].
  specialize (H rows Ht Hrows). exists rows. split; [reflexivity | split; [exact H | ] ].
  unfold get_blocked_modules. rewrite H. rewrite map_map. simpl.
  destruct rows; reflexivity.
Qed.


(** What the last three statements of [validate] write. *)
Definition closing (u : User) (drawn : nat) : string * string * list UserSocialLogin * nat :=
  (time_zone u, language u, social_logins u, drawn).

(** Whether validation gives the user a login id of the framework's own. *)
Definition wants_login_id (u : User) : bool :=
  (negb (mem_str (name u) ["Administrator"; "Guest"])
   && negb (truthy_opt (get_social_login_userid "frappe" u)))%bool.

Ltac closing_side := solve [ intros; unfold closing, core in *; cbn in *; assumption ].

Lemma validate_closes c0 c :
  (closing (self c) (hashes_drawn (world c)), core c)
  = (closing (self c0) (hashes_drawn (world c0)), core c0) ->
  wp (validate site)
    (fun _ c' =>
       closing (self c') (hashes_drawn (world c'))
       = (if truthy (time_zone (self c0)) then time_zone (self c0)
          else get_system_timezone site,
          if language (self c0) =? "Loading..." then "" else language (self c0),
          if wants_login_id (self c0)
          then (social_logins (self c0)
                ++ [{| provider := "frappe";
                       userid := generate_hash site (hashes_drawn (world c0)) |}])%list
          else social_logins (self c0),
          if wants_login_id (self c0)
          then S (hashes_drawn (world c0)) else hashes_drawn (world c0)))
    (fun _ _ => True) c.
Proof.
  intro H. unfold validate.
  set (Inv := fun c : Ctx =>
                (closing (self c) (hashes_drawn (world c)), core c)
                = (closing (self c0) (hashes_drawn (world c0)), core c0)).
  change (Inv c) in H.
  keep_by Inv H closing_side. keep_by Inv H closing_side. wp_go. keep_by Inv H closing_side.
  keep_by Inv H closing_side. keep_by Inv H closing_side. keep_by Inv H closing_side.
  keep_by Inv H closing_side. keep_by Inv H closing_side. keep_by Inv H closing_side.
  keep_by Inv H closing_side. keep_by Inv H closing_side. keep_by Inv H closing_side.
  keep_by Inv H closing_side. keep_by Inv H closing_side. keep_by Inv H closing_side.
  wp_go. keep_by Inv H closing_side.
  keep_by Inv H closing_side. keep_by Inv H closing_side.
  match type of H with Inv ?s => rename s into cur end.
  unfold Inv in H.
  pose proof (f_equal fst H) as Hcl. pose proof (f_equal snd H) as Hc. simpl in Hcl, Hc.
  clear H. unfold closing in Hcl. injection Hcl as Htz Hlang Hsoc Hh.
  pose proof (core_name _ _ Hc) as Hn.
  unfold set_time_zone, set_social_login_userid, draw_hash, wants_login_id,
    get_social_login_userid, closing.
  wp_go. rewrite Htz.
  destruct (truthy (time_zone (self c0))); cbn [negb]; wp_go; rewrite Hlang;
    destruct (language (self c0) =? "Loading..."); wp_go; rewrite Hn, Hsoc;
    match goal with
    | |- wp (when ?b _) _ _ _ => destruct b
    end; wp_go; rewrite ?Htz, ?Hlang, ?Hsoc, ?Hh; reflexivity.
Qed.

(** X8.  Validation fills in the time zone of the system where the document has
    none and keeps the one it has; and it never stores the placeholder
    "Loading..." as the language. *)
Theorem time_zone_and_language_defaults (c : Ctx) :
  returns (validate site) c ->
  let c' := fst (validate site c) in
  time_zone (self c')
  = (if truthy (time_zone (self c)) then time_zone (self c) else get_system_timezone site)
  /\ language (self c')
     = (if language (self c) =? "Loading..." then "" else language (self c))
  /\ language (self c') <> "Loading...".
Proof.
  intros Hret c'.
  destruct (wp_returned _ _ _ _ (validate_closes c c eq_refl) Hret) as [_ [_ H]].
  fold c' in H. unfold closing in H. injection H as Htz Hlang _ _.
  split; [exact Htz | split; [exact Hlang | ] ].
  rewrite Hlang. destruct (language (self c) =? "Loading...") eqn:Hl; [discriminate | ].
  apply String.eqb_neq. exact Hl.
Qed.

Lemma find_append {A} (p : A -> bool) (l1 l2 : list A) :
  find p (l1 ++ l2) = match find p l1 with Some x => Some x | None => find p l2 end.
Proof.
  induction l1 as [ | a l1 IH]; simpl; [reflexivity | ].
  destruct (p a); [reflexivity | exact IH].
Qed.

(** X9.  Validation gives every user but Administrator and Guest a login id of
    the framework's own: a user without one gets a row for the provider
    "frappe" with a freshly drawn hash, appended after the existing
    logins; a user that has one, and the two reserved users, keep their
    logins as they are and no hash is drawn.  A user that had no "frappe"
    row is not given a second one by the next validation; a user whose
    first "frappe" row has an empty id is given a new row each time. *)
Theorem login_id_is_given (c : Ctx) :
  returns (validate site) c ->
  let c' := fst (validate site c) in
  let frappe_row u := find (fun p => provider p =? "frappe") (social_logins u) in
  (wants_login_id (self c) = true ->
   social_logins (self c')
   = (social_logins (self c)
      ++ [{| provider := "frappe";
             userid := generate_hash site (hashes_drawn (world c)) |}])%list
   /\ hashes_drawn (world c') = S (hashes_drawn (world c)))
  /\ (wants_login_id (self c) = false ->
      social_logins (self c') = social_logins (self c)
      /\ hashes_drawn (world c') = hashes_drawn (world c))
  /\ (frappe_row (self c) = None ->
      generate_hash site (hashes_drawn (world c)) <> "" ->
      wants_login_id (self c') = false)
  /\ (forall p, frappe_row (self c) = Some p -> userid p = "" ->
      wants_login_id (self c') = wants_login_id (self c)).
Proof.
  intros Hret c' frappe_row.
  destruct (wp_returned _ _ _ _ (validate_closes c c eq_refl) Hret) as [_ [_ H]].
  fold c' in H. unfold closing in H. injection H as _ _ Hsoc Hh.
  pose proof (core_validate_eq site c) as Hcore. fold c' in Hcore.
  pose proof (core_name _ _ Hcore) as Hname.
  split; [ | split; [ | split] ].
  - intro Hw. rewrite Hw in Hsoc, Hh. split; assumption.
  - intro Hw. rewrite Hw in Hsoc, Hh. split; assumption.
  - intros Hnone Hhash. unfold frappe_row in Hnone.
    assert (Hh' : truthy (generate_hash site (hashes_drawn (world c))) = true)
      by (unfold truthy; apply negb_true_iff; apply String.eqb_neq; exact Hhash).
    unfold wants_login_id, get_social_login_userid in *. rewrite Hname.
    rewrite Hnone in Hsoc.
    destruct (negb (mem_str (name (self c)) ["Administrator"; "Guest"])); [ | reflexivity].
    cbn [option_map truthy_opt negb andb] in Hsoc.
    rewrite Hsoc, find_append, Hnone. simpl. rewrite Hh'. reflexivity.
  - intros p Hp Hempty. unfold frappe_row in Hp.
    unfold wants_login_id, get_social_login_userid in *. rewrite Hname.
    rewrite Hp in Hsoc. cbn [option_map truthy_opt] in Hsoc. rewrite Hempty in Hsoc.
    destruct (negb (mem_str (name (self c)) ["Administrator"; "Guest"])); [ | reflexivity].
    cbn [truthy String.eqb negb andb] in Hsoc.
    rewrite Hsoc, find_append, Hp. reflexivity.
Qed.


(** ** Changing the password through a save *)

(** The stored state a save without mail leaves alone. *)
Definition calm (u : User) (x : _) (c : Ctx) : Prop :=
  self c = u
  /\ (tabUser (world c), auth (world c), mails_sent (world c), http_status_code (world c)) = x.

Ltac calm_side := solve [ intros ? [? ?]; split; cbn in *; assumption ].

Lemma on_update_stores_password u before pwd c :
  in_insert (flags u) = false -> __new_password u = Some pwd -> truthy pwd = true ->
  self c = u ->
  wp (on_update site before)
    (fun _ c' =>
       calm u (tabUser (world c),
               (name u, pwd) :: filter (fun e => negb (fst e =? name u)) (auth (world c)),
               mails_sent (world c), http_status_code (world c)) c'
       /\ (nonzero (logout_all_sessions u) = true -> In (ClearSessions (name u)) (log (world c'))))
    (fun _ _ => False) c.
Proof.
  intros Hin Hholder Hpwd Hself. unfold on_update. wp_go.
  set (x0 := (tabUser (world c), auth (world c), mails_sent (world c),
              http_status_code (world c))).
  apply wp_safe with (I := calm u x0); [safe_by calm_side | split; [exact Hself | reflexivity] | ].
  intros ? c1 H1. cbv beta. apply wp_bind.
  apply wp_safe with (I := calm u x0); [safe_by calm_side | exact H1 | ].
  intros ? c2 H2. cbv beta. apply wp_bind.
  apply wp_safe with (I := calm u x0); [safe_by calm_side | exact H2 | ].
  intros ? c3 [H3s H3w]. cbv beta. apply wp_bind.
  set (x1 := (tabUser (world c),
              (name u, pwd) :: filter (fun e => negb (fst e =? name u)) (auth (world c)),
              mails_sent (world c), http_status_code (world c))).
  set (Done := fun c' : Ctx =>
         calm u x1 c'
         /\ (nonzero (logout_all_sessions u) = true
             -> In (ClearSessions (name u)) (log (world c')))).
  eapply wp_conseq with (Q' := fun _ c' => Done c') (E' := fun _ _ => False);
    [ | | intros ? ? []].
  { unfold send_password_notification. apply wp_try_except. wp_go.
    rewrite H3s, Hin. unfold email_new_password. wp_go.
    rewrite H3s, Hself, Hholder, Hin. cbn [truthy_opt or_empty negb andb]. rewrite Hpwd.
    unfold _update_password, cint. wp_go. unfold x0 in H3w. injection H3w as Ht Ha Hm Hh.
    destruct (nonzero (logout_all_sessions u)) eqn:Hlogout; wp_go.
    - split; [split; [exact H3s | unfold x1; cbn; congruence] | ].
      intros _. apply in_or_app. right. left. reflexivity.
    - split; [split; [exact H3s | unfold x1; cbn; congruence] | discriminate]. }
  intros ? c4 H4. cbv beta.
  apply wp_safe with (I := Done); [ | exact H4 | auto].
  safe_by ltac:(solve [ intros ? [[? ?] ?]; split;
                        [ split; cbn in *; assumption
                        | intros ?; cbn in *;
                          first [solve [auto] | apply in_or_app; left; solve [auto]] ] ]).
Qed.


(** X10.  Saving a stored user with a new password changes the password: once
    the document has passed validation, the credential store holds the new
    password for the user (and that one only), the user's other sessions
    are cleared when [logout_all_sessions] is set, and no mail is sent. *)
Theorem save_changes_password (c : Ctx) (pwd : string) :
  is_new (self c) = false -> name (self c) <> "" -> in_insert (flags (self c)) = false ->
  new_password (self c) = Some pwd -> pwd <> "" ->
  returns (validate site) c ->
  exists c',
    save site c = (c', inr tt)
    /\ auth (world c')
       = (name (self c), pwd)
         :: filter (fun e => negb (fst e =? name (self c))) (auth (world c))
    /\ find (fun e => fst e =? name (self c)) (auth (world c')) = Some (name (self c), pwd)
    /\ mails_sent (world c') = mails_sent (world c)
    /\ (logout_all_sessions (self c) <> 0%Z ->
        In (ClearSessions (name (self c))) (log (world c'))).
Proof.
  intros Hold Hname Hin Hnew Hpwd [a Hret].
  assert (Hname' : truthy (name (self c)) = true)
    by (unfold truthy; apply negb_true_iff; apply String.eqb_neq; exact Hname).
  assert (Hpwd' : truthy pwd = true)
    by (unfold truthy; apply negb_true_iff; apply String.eqb_neq; exact Hpwd).
  pose proof (core_validate_eq site c) as Hcore.
  pose proof (validate_clears site c c eq_refl) as Hclear. unfold wp in Hclear.
  destruct (validate site c) as [c1 [e | []]] eqn:Hv; [discriminate | ].
  simpl in Hcore, Hclear. destruct Hclear as [_ Hholder]. rewrite Hnew in Hholder.
  assert (H : wp (save site)
                (fun _ c' =>
                   auth (world c')
                   = (name (self c), pwd)
                     :: filter (fun e => negb (fst e =? name (self c))) (auth (world c))
                   /\ mails_sent (world c') = mails_sent (world c)
                   /\ (logout_all_sessions (self c) <> 0%Z ->
                       In (ClearSessions (name (self c))) (log (world c'))))
                (fun _ _ => False) c).
  { unfold save. wp_go. rewrite Hold, Hname'. simpl. wp_go.
    eapply wp_of_run; [exact Hv | ]. cbv beta iota. wp_go.
    eapply wp_conseq;
      [ apply (on_update_stores_password (self c1) _ pwd);
        [ rewrite (core_flags _ _ Hcore); exact Hin | exact Hholder | exact Hpwd'
        | reflexivity ]
      | | intros ? ? [] ].
    cbv beta. fields. intros _ c' [[_ Hw] Hlogout].
    injection Hw as _ Ha Hm _.
    unfold core in Hcore. injection Hcore. intros.
    split; [ | split].
    - rewrite Ha, H18, H4. reflexivity.
    - congruence.
    - intro Hl. replace (name (self c)) with (name (self c1)) by congruence. apply Hlogout.
      unfold nonzero. apply negb_true_iff. apply Z.eqb_neq. congruence. }
  destruct (wp_returns _ _ _ H) as [c' [[] [Hrun (Ha & Hm & Hl)]]].
  exists c'. split; [exact Hrun | split; [exact Ha | split; [ | split; assumption] ] ].
  rewrite Ha. simpl. rewrite String.eqb_refl. reflexivity.
Qed.


(** ** The welcome mail of a new user *)

(** What the steps before the dispatch leave alone. *)
Definition before_mail (f : Flags) (n : string) (m : nat) (c : Ctx) : Prop :=
  flags (self c) = f /\ name (self c) = n /\ mails_sent (world c) = m.

Ltac before_mail_side := solve [ intros ? (? & ? & ?); repeat split; cbn in *; assumption ].

Lemma welcome_mail_run holder c :
  in_insert (flags (self c)) = true ->
  mem_str (name (self c)) STANDARD_USERS = false ->
  (negb (no_welcome_mail (flags (self c))) && nonzero (cint (send_welcome_email (self c)))
   && negb (email_sent (flags (self c))))%bool = true ->
  wp (send_password_notification site holder)
    (fun _ c' =>
       mails_sent (world c') = S (mails_sent (world c))
       /\ ((sendmail site (mails_sent (world c)) = None
            /\ email_sent (flags (self c')) = true)
           \/ (sendmail site (mails_sent (world c)) = Some OutgoingEmailError
               /\ email_sent (flags (self c')) = email_sent (flags (self c))
               /\ In (LogError "Unable to send new password notification") (log (world c')))))
    (fun e c' =>
       mails_sent (world c') = S (mails_sent (world c))
       /\ sendmail site (mails_sent (world c)) = Some e /\ e <> OutgoingEmailError)
    c.
Proof.
  intros Hin Hstd Hdue. unfold send_password_notification.
  apply wp_try_except. wp_go. rewrite Hin, Hstd. cbn [negb]. wp_go.
  set (Inv := before_mail (flags (self c)) (name (self c)) (mails_sent (world c))).
  apply wp_safe with (I := Inv); [safe_by before_mail_side | repeat split | ].
  intros ? c1 H1. cbv beta. rewrite Hdue. wp_go.
  unfold send_welcome_mail_to_user. wp_go.
  apply wp_safe with (I := Inv); [safe_by before_mail_side | exact H1 | ].
  intros link c2 (Hf & Hn & Hm). cbv beta. unfold send_login_mail, frappe_sendmail. wp_go.
  rewrite Hm. destruct (sendmail site (mails_sent (world c))) as [e | ] eqn:Hsend.
  - wp_go. destruct e; cbv beta iota; wp_go;
      try (split; [reflexivity | split; [reflexivity | discriminate] ]).
    split; [reflexivity | right]. split; [reflexivity | split; [rewrite Hf; reflexivity | ] ].
    apply in_or_app. right. left. reflexivity.
  - wp_go. wp_case; (split; [reflexivity | left; split; reflexivity]).
Qed.


(** X11.  When the welcome mail of a user being inserted is due, the dispatch
    decides how [send_password_notification] ends.  If it goes out, the
    document is marked [email_sent].  If there is no outgoing mail account,
    the error is logged, the document is not marked, and the step returns
    all the same.  Any other failure of the dispatch is raised. *)
Theorem welcome_mail_outcomes (holder : option string) (c : Ctx) :
  in_insert (flags (self c)) = true -> ~ In (name (self c)) STANDARD_USERS ->
  no_welcome_mail (flags (self c)) = false -> send_welcome_email (self c) <> 0%Z ->
  email_sent (flags (self c)) = false ->
  let run := send_password_notification site holder c in
  let dispatch := sendmail site (mails_sent (world c)) in
  mails_sent (world (fst run)) = S (mails_sent (world c))
  /\ (dispatch = None ->
      snd run = inr tt /\ email_sent (flags (self (fst run))) = true)
  /\ (dispatch = Some OutgoingEmailError ->
      snd run = inr tt /\ email_sent (flags (self (fst run))) = false
      /\ In (LogError "Unable to send new password notification") (log (world (fst run))))
  /\ (forall e, dispatch = Some e -> e <> OutgoingEmailError -> snd run = inl e).
Proof.
  intros Hin Hstd Hwelcome Hsend Hsent run dispatch.
  apply mem_str_false in Hstd.
  assert (Hdue : (negb (no_welcome_mail (flags (self c)))
                  && nonzero (cint (send_welcome_email (self c)))
                  && negb (email_sent (flags (self c))))%bool = true).
  { rewrite Hwelcome, Hsent. unfold nonzero, cint. apply Z.eqb_neq in Hsend. rewrite Hsend.
    reflexivity. }
  pose proof (welcome_mail_run holder c Hin Hstd Hdue) as H. unfold wp in H.
  fold run dispatch in H. destruct run as [c' [e | []]]; simpl.
  - destruct H as (Hm & Hd & He). split; [exact Hm | ]. rewrite Hd.
    split; [discriminate | split; [intros [= ->]; contradiction | ] ].
    intros e' [= ->] _. reflexivity.
  - destruct H as (Hm & [[Hd Hs] | (Hd & Hs & Hl)]); (split; [exact Hm | ]); rewrite Hd.
    + split; [auto | split; [discriminate | discriminate] ].
    + split; [discriminate | split; [ | intros e [= <-] He; contradiction ] ].
      intros _. rewrite Hs, Hsent. auto.
Qed.


(** ** Sign-up under load *)

(** X12.  With more users created in the last hour than [throttle_user_limit]
    allows (and no import under way), signing up with a novel address
    raises "Throttled" and creates no user and sends no mail.  The limit of
    300 that [sign_up] tests itself only puts the "Temporarily Disabled"
    page on record: it does not end the request. *)
Theorem sign_up_is_throttled (w : World)
    (email_arg first_name_arg last_name_arg redirect_to university_arg major_arg : string) :
  is_signup_disabled site = false ->
  find (fun r => email r =? email_arg) (tabUser w) = None ->
  in_import site = false ->
  (throttle_user_limit site < get_creation_count 60 w)%Z ->
  exists w',
    sign_up site email_arg first_name_arg last_name_arg redirect_to university_arg major_arg w
    = (w', inl (ValidationError "Throttled"))
    /\ tabUser w' = tabUser w /\ mails_sent w' = mails_sent w
    /\ log w' = (log w ++ if (300 <? get_creation_count 60 w)%Z
                          then [RespondAsWebPage "Temporarily Disabled" 429] else [])%list.
Proof.
  intros Hopen Hnone Himport Hover.
  set (page := if (300 <? get_creation_count 60 w)%Z
               then [RespondAsWebPage "Temporarily Disabled" 429%Z] else []).
  set (Inv := fun w' : World => as_found w w' /\ log w' = (log w ++ page)%list).
  assert (H : wp (sign_up site email_arg first_name_arg last_name_arg redirect_to
                    university_arg major_arg)
                (fun _ _ => False)
                (fun e w' => e = ValidationError "Throttled" /\ Inv w') w).
  { unfold sign_up. rewrite Hopen. wp_go. rewrite Hnone.
    apply wp_bind.
    apply wp_conseq with (Q' := fun _ w' => Inv w') (E' := fun _ _ => False);
      [ | | intros ? ? []].
    { unfold Inv, page. destruct (300 <? get_creation_count 60 w)%Z; wp_go.
      - split; [repeat split | reflexivity].
      - split; [repeat split | rewrite app_nil_r; reflexivity]. }
    intros ? w1 H1. cbv beta. apply wp_bind.
    apply wp_safe with (I := Inv);
      [ safe_by ltac:(solve [intros ? [(? & ? & ?) ?]; repeat split; cbn in *; assumption])
      | exact H1 | ].
    intros pwd w2 [(Hrows & Hnow & Hmails) Hlog]. cbv beta. apply wp_bind. apply wp_on_doc.
    unfold insert, before_insert, throttle_user_creation. wp_go. rewrite Himport. wp_go.
    unfold get_creation_count. fields. rewrite Hrows, Hnow.
    apply Z.ltb_lt in Hover. unfold get_creation_count in Hover. rewrite Hover. wp_go.
    split; [reflexivity | split; [repeat split; assumption | exact Hlog] ]. }
  unfold wp in H.
  destruct (sign_up site email_arg first_name_arg last_name_arg redirect_to university_arg
              major_arg w) as [w' [e | a]]; [ | contradiction].
  destruct H as [-> [(Hrows & _ & Hmails) Hlog]]. exists w'. auto.
Qed.


(** ** Asking for a reset link *)

(** X13.  The endpoint [reset_password] turns three requests down without
    issuing a token or sending mail: for a user that does not exist it
    answers "not found" with status 404, for Administrator "not allowed",
    and for a disabled user "disabled"; the last two leave the world
    exactly as it was. *)
Theorem reset_password_refusals (w : World) (user : string) :
  (lookup user (tabUser w) = None ->
   reset_password site user w
   = (with_log (log w ++ [ClearMessages])%list (with_http_status_code (Some 404%Z) w),
      inr (Some "not found")))
  /\ (forall r, lookup user (tabUser w) = Some r ->
        (user = "Administrator" -> reset_password site user w = (w, inr (Some "not allowed")))
        /\ (user <> "Administrator" -> enabled r = 0%Z ->
            reset_password site user w = (w, inr (Some "disabled")))).
Proof.
  split.
  - intro Hnone. unfold reset_password, try_except, get_doc, bind, gets. rewrite Hnone.
    reflexivity.
  - intros r Hr. pose proof (lookup_name _ _ _ Hr) as Hn. split.
    + intros ->. unfold reset_password, try_except, get_doc, bind, gets, ret. rewrite Hr.
      simpl. rewrite Hn. reflexivity.
    + intros Hother Hoff. apply String.eqb_neq in Hother.
      unfold reset_password, try_except, get_doc, bind, gets, ret. rewrite Hr.
      simpl. rewrite Hn, Hother, Hoff. reflexivity.
Qed.


Lemma reset_password_run w user r :
  lookup user (tabUser w) = Some r -> user <> "Administrator" -> enabled r <> 0%Z ->
  sendmail site (mails_sent w) = None ->
  let key := generate_hash site (hashes_drawn w) in
  let link := get_url site ("/update-password?key=" ++ key) in
  reset_password site user w
  = (with_log (log w ++ [SendMail (email r) "password_reset" link;
                         Msgprint ("Password reset instructions have been sent to "
                                   ++ full_name r ++ "'s email")])%list
       (with_mails_sent (S (mails_sent w))
          (with_tabUser (update_rows user (issued site w) (tabUser w))
             (with_hashes_drawn (S (hashes_drawn w)) w))),
     inr None).
Proof.
  intros Hr Hother Hon Hmail key link. pose proof (lookup_name _ _ _ Hr) as Hn.
  apply String.eqb_neq in Hother.
  assert (Hen : nonzero (enabled r) = true)
    by (unfold nonzero; apply negb_true_iff; apply Z.eqb_neq; exact Hon).
  set (w' := with_log (log w ++ [SendMail (email r) "password_reset" link;
                         Msgprint ("Password reset instructions have been sent to "
                                   ++ full_name r ++ "'s email")])%list
       (with_mails_sent (S (mails_sent w))
          (with_tabUser (update_rows user (issued site w) (tabUser w))
             (with_hashes_drawn (S (hashes_drawn w)) w)))).
  assert (H : wp (reset_password site user) (fun a s => a = None /\ s = w')
                (fun _ _ => False) w).
  { unfold reset_password, get_doc. apply wp_try_except. wp_go. rewrite Hr. wp_go.
    rewrite Hn, Hother, Hen. cbn [negb]. wp_go.
    unfold User_reset_password, db_set, draw_hash, db_set_value, password_reset_mail,
      send_login_mail, frappe_sendmail. wp_go. rewrite Hmail. wp_go.
    split; [reflexivity | ]. unfold w', link, key. rewrite Hn.
    rewrite update_rows_twice by reflexivity. rewrite <- app_assoc. reflexivity. }
  unfold wp in H. destruct (reset_password site user w) as [s [e | a]]; [contradiction | ].
  destruct H as [-> ->]. reflexivity.
Qed.


(** X14.  For an enabled user other than Administrator, [reset_password] stores
    the SHA-256 hash of a freshly drawn key on the user's row, with the
    time of the request, and mails the link that carries the key itself;
    no other row and no credential is touched.  When no row held that hash
    before, the key then identifies the user's row. *)
Theorem reset_link_carries_the_key (w : World) (user : string) (r : User) :
  lookup user (tabUser w) = Some r -> user <> "Administrator" -> enabled r <> 0%Z ->
  sendmail site (mails_sent w) = None ->
  let key := generate_hash site (hashes_drawn w) in
  let run := reset_password site user w in
  let stored := with_last_reset_password_key_generated_on (Some (now w))
                  (with_reset_password_key (sha256_hash site key) r) in
  snd run = inr None
  /\ lookup user (tabUser (fst run)) = Some stored
  /\ (forall x, In x (tabUser (fst run)) -> name x <> user -> In x (tabUser w))
  /\ In (SendMail (email r) "password_reset" (get_url site ("/update-password?key=" ++ key)))
        (log (fst run))
  /\ mails_sent (fst run) = S (mails_sent w)
  /\ auth (fst run) = auth w
  /\ ((forall x, In x (tabUser w) -> reset_password_key x <> sha256_hash site key) ->
      holder_of site key (fst run) = Some stored).
Proof.
  intros Hr Hother Hon Hmail key run stored.
  pose proof (reset_password_run w user r Hr Hother Hon Hmail) as Hrun.
  cbv zeta in Hrun. fold run in Hrun. rewrite Hrun. cbn [fst snd]. fields.
  split; [reflexivity | split; [ | split; [ | split; [ | split; [ | split ] ] ] ] ].
  - apply (lookup_update_rows user (issued site w) (tabUser w) r Hr). reflexivity.
  - intros x Hx Hn. apply In_update_rows_named in Hx.
    destruct Hx as [[y [_ [Hy ->]]] | [Hx _]]; [ | exact Hx].
    exfalso. apply Hn. exact Hy.
  - apply in_or_app. right. left. reflexivity.
  - reflexivity.
  - reflexivity.
  - intro Hfresh. unfold holder_of. fields.
    apply (find_update_rows _ user (issued site w) (tabUser w) r Hr).
    + intros x Hx. apply String.eqb_neq. exact (Hfresh x Hx).
    + apply String.eqb_refl.
Qed.

(** X15.  Asking for a second reset link retires the first: once both requests
    have gone through, redeeming the key of the first is answered with
    status 410 and the message that the link has been used before or is
    invalid, while the key of the second identifies the user. *)
Theorem second_reset_request_retires_first (w : World) (user : string) (r : User)
    (pwd : string) (logout : Z) (old : option string) :
  let key1 := generate_hash site (hashes_drawn w) in
  let key2 := generate_hash site (S (hashes_drawn w)) in
  let w1 := fst (reset_password site user w) in
  let w2 := fst (reset_password site user w1) in
  lookup user (tabUser w) = Some r -> user <> "Administrator" -> enabled r <> 0%Z ->
  sendmail site (mails_sent w) = None -> sendmail site (S (mails_sent w)) = None ->
  key1 <> "" -> sha256_hash site key1 <> sha256_hash site key2 ->
  (forall x, In x (tabUser w) ->
             reset_password_key x <> sha256_hash site key1
             /\ reset_password_key x <> sha256_hash site key2) ->
  accepted site w2 pwd ->
  update_password site pwd logout (Some key1) old w2
  = (with_http_status_code (Some 410%Z) w2, inr reset_link_invalid_message)
  /\ exists row, holder_of site key2 w2 = Some row /\ name row = user.
Proof.
  intros key1 key2 w1 w2 Hr Hother Hon Hmail1 Hmail2 Hkey Hdiff Hfresh Hacc.
  pose proof (reset_password_run w user r Hr Hother Hon Hmail1) as Hrun1.
  cbv zeta in Hrun1. fold key1 in Hrun1.
  assert (Hw1 : w1 = fst (reset_password site user w)) by reflexivity.
  rewrite Hrun1 in Hw1. cbn [fst] in Hw1.
  assert (Hr1 : lookup user (tabUser w1) = Some (issued site w r)).
  { rewrite Hw1. fields.
    apply (lookup_update_rows user (issued site w) (tabUser w) r Hr). reflexivity. }
  assert (Hm1 : mails_sent w1 = S (mails_sent w)) by (rewrite Hw1; reflexivity).
  assert (Hh1 : hashes_drawn w1 = S (hashes_drawn w)) by (rewrite Hw1; reflexivity).
  assert (Ht1 : tabUser w1 = update_rows user (issued site w) (tabUser w))
    by (rewrite Hw1; reflexivity).
  pose proof (reset_password_run w1 user (issued site w r) Hr1 Hother Hon) as Hrun2.
  rewrite Hm1 in Hrun2. specialize (Hrun2 Hmail2). cbv zeta in Hrun2.
  assert (Ht2 : tabUser w2 = update_rows user (issued site w1) (tabUser w1))
    by (unfold w2; rewrite Hrun2; reflexivity).
  clearbody w1 w2. clear Hrun1 Hrun2 Hw1.
  assert (Hkey1 : truthy key1 = true)
    by (unfold truthy; apply negb_true_iff; apply String.eqb_neq; exact Hkey).
  assert (Hrows : forall x, In x (tabUser w2) ->
            (name x = user /\ reset_password_key x = sha256_hash site key2)
            \/ (name x <> user /\ In x (tabUser w))).
  { intros x Hx. rewrite Ht2 in Hx. apply In_update_rows_named in Hx.
    destruct Hx as [[y [_ [Hy ->]]] | [Hx Hn]].
    - left. split; [exact Hy | ]. unfold issued. fields. rewrite Hh1. reflexivity.
    - right. split; [exact Hn | ]. rewrite Ht1 in Hx. apply In_update_rows_named in Hx.
      destruct Hx as [[y [_ [Hy ->]]] | [Hx _]]; [ | exact Hx].
      exfalso. apply Hn. exact Hy. }
  split.
  - apply update_password_rejects with (user := None); [exact Hacc | | reflexivity].
    apply token_check_unknown; [exact Hkey1 | ].
    unfold holder_of. apply find_none_intro. intros x Hx. apply String.eqb_neq.
    destruct (Hrows x Hx) as [[_ Hk] | [_ Hin]].
    + rewrite Hk. intro H. apply Hdiff. symmetry. exact H.
    + exact (proj1 (Hfresh x Hin)).
  - unfold holder_of.
    destruct (find (fun x => reset_password_key x =? sha256_hash site key2) (tabUser w2))
      as [row | ] eqn:Hfind.
    + exists row. split; [reflexivity | ]. apply find_some in Hfind.
      destruct Hfind as [Hin Hk]. apply String.eqb_eq in Hk.
      destruct (Hrows row Hin) as [[Hn _] | [_ Hold]]; [exact Hn | ].
      exfalso. exact (proj2 (Hfresh row Hold) Hk).
    + exfalso.
      assert (Hl : lookup user (tabUser w2) = Some (issued site w1 (issued site w r))).
      { rewrite Ht2. apply lookup_update_rows; [exact Hr1 | reflexivity]. }
      unfold lookup in Hl. apply find_some in Hl. destruct Hl as [Hin _].
      pose proof (find_none _ _ Hfind _ Hin) as Hf. simpl in Hf.
      unfold issued in Hf. fields_in Hf. rewrite Hh1 in Hf. fold key2 in Hf.
      rewrite String.eqb_refl in Hf. discriminate.
Qed.


(** ** Changing the password through the endpoint *)

(** The strength test reads; it writes nothing and does not raise. *)
Lemma test_password_strength_reads w pwd user_data :
  exists result, test_password_strength site pwd None None user_data w = (w, inr result).
Proof.
  unfold test_password_strength, bind, gets, when, ret. simpl.
  destruct (enable_password_policy site); simpl; [ | eexists; reflexivity].
  destruct (truthy pwd); eexists; reflexivity.
Qed.

Lemma check_feedback_reads {S : Type} (result : StrengthResult) (s : S) :
  exists r, check_feedback result s = (s, r).
Proof.
  unfold check_feedback, handle_password_test_fail, throw, raise, ret.
  destruct result as [ | | n feedback]; try (eexists; reflexivity).
  destruct (negb (password_policy_validation_passed feedback)); eexists; reflexivity.
Qed.

(** Without a key, [_get_user_for_update_password] names a user only on
    the strength of the old password. *)
Lemma no_key_no_user w key old :
  truthy_opt key = false ->
  (truthy_opt old = true ->
   forall n stored, find (fun e => fst e =? session_user w) (auth w) = Some (n, stored) ->
                    stored <> or_empty old) ->
  _get_user_for_update_password site key old w
  = (w, if truthy_opt old then inl AuthenticationError
        else inr {| found := None; message := None |}).
Proof.
  intros Hkey Hold. unfold _get_user_for_update_password, bind, gets, ret. simpl.
  rewrite Hkey. destruct (truthy_opt old) eqn:Ho; [ | reflexivity].
  unfold check_password, bind, gets, raise, ret. simpl.
  destruct (find (fun e => fst e =? session_user w) (auth w)) as [[n stored] | ] eqn:Hfind;
    [ | reflexivity].
  destruct (String.eqb_spec stored (or_empty old)) as [Heq | Hne]; [ | reflexivity].
  exfalso. exact (Hold eq_refl n stored eq_refl Heq).
Qed.

(** X16.  Nobody's password is changed on request alone.  Without a reset key,
    and without the old password of the session user, [update_password]
    raises and leaves the world exactly as it was: the credentials, the
    stored users and the session.  For a candidate password that passes the
    size and policy checks the error is [AuthenticationError] when an old
    password was given (and is wrong), and a [KeyError] when none was. *)
Theorem password_change_needs_key_or_old_password (w : World) (pwd : string) (logout : Z)
    (key old : option string) :
  truthy_opt key = false ->
  (truthy_opt old = true ->
   forall n stored, find (fun e => fst e =? session_user w) (auth w) = Some (n, stored) ->
                    stored <> or_empty old) ->
  exists e,
    update_password site pwd logout key old w = (w, inl e)
    /\ (accepted site w pwd ->
        e = if truthy_opt old then AuthenticationError else PythonError "KeyError").
Proof.
  intros Hkey Hold. pose proof (no_key_no_user w key old Hkey Hold) as Hcheck.
  unfold update_password. unfold bind at 1.
  destruct (MAX_PASSWORD_SIZE site <? len pwd)%Z eqn:Hsize.
  - eexists. split; [reflexivity | ]. intros [Hs _]. congruence.
  - simpl. unfold bind at 1.
    destruct (test_password_strength_reads w pwd None) as [result Htest]. rewrite Htest.
    unfold bind at 1. destruct (check_feedback_reads result w) as [[e | []] Hfeed];
      rewrite Hfeed.
    + eexists. split; [reflexivity | ]. intro Hacc.
      destruct (accepted_run site w pwd Hacc) as [result' [Htest' Hfeed']].
      rewrite Htest' in Htest. injection Htest as <-. rewrite Hfeed' in Hfeed. discriminate.
    + unfold bind at 1. rewrite Hcheck. destruct (truthy_opt old).
      * eexists. split; reflexivity.
      * eexists. split; reflexivity.
Qed.

Lemma test_password_strength_empty w user_data :
  enable_password_policy site = true ->
  test_password_strength site "" None None user_data w = (w, inr ReturnsNone).
Proof.
  intro Hon. unfold test_password_strength, bind, gets, when, ret. simpl. rewrite Hon.
  reflexivity.
Qed.

(** X17.  A candidate password that is turned down costs nothing: when it is
    oversized, or the policy is on and it is empty or too weak,
    [update_password] raises before it looks at the key or the old
    password and leaves the world exactly as it was, so that a reset link
    given with it is still good.  The empty password is not answered with a
    validation error but with the [AttributeError] of reading the feedback
    of a test that returned nothing. *)
Theorem refused_password_changes_nothing (w : World) (pwd : string) (logout : Z)
    (key old : option string) :
  let run := update_password site pwd logout key old w in
  ((MAX_PASSWORD_SIZE site < len pwd)%Z ->
   run = (w, inl (ValidationError "Password size exceeded the maximum allowed size.")))
  /\ ((len pwd <= MAX_PASSWORD_SIZE site)%Z -> enable_password_policy site = true ->
      (pwd = "" -> run = (w, inl (PythonError "AttributeError")))
      /\ (pwd <> "" -> meets_policy site (estimate site w pwd None) = false ->
          run = (w, inl (rejection (estimate site w pwd None))))).
Proof.
  intro run. unfold run, update_password. split.
  - intro Hbig. apply Z.ltb_lt in Hbig. unfold bind at 1. rewrite Hbig. reflexivity.
  - intros Hfits Hon. apply Z.ltb_ge in Hfits. split.
    + intros ->. unfold bind at 1. rewrite Hfits. unfold ret at 1.
      unfold bind at 1. rewrite (test_password_strength_empty w None Hon).
      reflexivity.
    + intros Hpwd Hweak.
      assert (Ht : truthy pwd = true)
        by (unfold truthy; apply negb_true_iff; apply String.eqb_neq; exact Hpwd).
      unfold bind at 1. rewrite Hfits. unfold ret at 1.
      unfold bind at 1. rewrite (test_password_strength_run site w pwd None Hon Ht).
      unfold bind at 1. unfold check_feedback. simpl. rewrite Hweak. reflexivity.
Qed.


(** The rows once [update_password] has stamped the day of the change and
    cleared the key on the row that the save wrote. *)
Lemma changed_rows user stored rows day x :
  name stored = user ->
  In x (update_rows user (with_reset_password_key "")
          (update_rows user (with_last_password_reset_date day) (put_row stored rows))) ->
  (name x = user -> reset_password_key x = "" /\ last_password_reset_date x = day)
  /\ (name x <> user -> In x rows).
Proof.
  intros Hstored Hx. apply In_update_rows_named in Hx.
  destruct Hx as [[y [Hy [Hn ->]]] | [Hx Hn]].
  - split; [intros _ | intro H; exfalso; apply H; exact Hn].
    apply In_update_rows_named in Hy. destruct Hy as [[z [_ [_ ->]]] | [_ Hy]].
    + split; reflexivity.
    + contradiction.
  - split; [intro H; contradiction | intros _].
    apply In_update_rows_named in Hx. destruct Hx as [[y [Hy [Hn' ->]]] | [Hx _]].
    + exfalso. apply Hn. exact Hn'.
    + apply In_put_row in Hx. destruct Hx as [-> | [Hx _]]; [contradiction | exact Hx].
Qed.

(** Where the user lands after the change. *)
Definition landing (saved_type : string) (cached : option string) (stored : string) : string :=
  if saved_type =? "System User" then por (get_default_path site) "/app"
  else por (if truthy_opt cached then or_empty cached else stored)
           (por (get_default_path site) (get_home_page site)).

(** [update_password] once the user is known. *)
Lemma update_password_changes w pwd logout key old r :
  accepted site w pwd ->
  _get_user_for_update_password site key old w
  = (w, inr {| found := Some (name r); message := None |}) ->
  truthy (name r) = true -> lookup (name r) (tabUser w) = Some r ->
  truthy_opt (new_password r) = false ->
  passes_validation site (tabUser w) (redeemed r) ->
  wp (update_password site pwd logout key old)
    (fun path w' =>
       (exists w1,
          tabUser w1 = tabUser w
          /\ path = landing (user_type (self (fst (validate site (on w1 (redeemed r))))))
                      (hget (name r) (redirect_after_login w)) (redirect_url r))
       /\ redirect_after_login w'
          = (if truthy_opt (hget (name r) (redirect_after_login w))
             then hdel (name r) (redirect_after_login w) else redirect_after_login w)
       /\ session_user w' = name r
       /\ In (LoginAs (name r)) (log w')
       /\ auth w' = (name r, pwd) :: filter (fun e => negb (fst e =? name r)) (auth w)
       /\ http_status_code w' = http_status_code w
       /\ (forall x, In x (tabUser w') -> name x = name r ->
                     reset_password_key x = "" /\ last_password_reset_date x = Some (today w))
       /\ (forall x, In x (tabUser w') -> name x <> name r -> In x (tabUser w)))
    (fun _ _ => False) w.
Proof.
  intros Hacc Hcheck Hname Hlookup Hnopwd Hvalid.
  destruct (accepted_run site w pwd Hacc) as [result [Htest Hfeed]].
  destruct Hacc as [Hsize _].
  unfold update_password. wp_go. rewrite Hsize. wp_go.
  eapply wp_of_run; [exact Htest | ]. cbv beta iota. wp_go.
  eapply wp_of_run; [apply Hfeed | ]. cbv beta iota. wp_go.
  eapply wp_of_run; [exact Hcheck | ]. cbv beta iota. simpl. wp_go.
  (* the credential is stored *)
  unfold _update_password. wp_go.
  apply wp_safe with
    (I := fun w1 => settled_world w1
                    = settled_world
                        (with_auth ((name r, pwd)
                                    :: filter (fun e => negb (fst e =? name r)) (auth w)) w));
    [ safe_by ltac:(solve [intros; unfold settled_world in *; cbn in *; assumption])
    | reflexivity | ].
  intros _ w1 H1. cbv beta.
  assert (Htab1 : tabUser w1 = tabUser w).
  { unfold settled_world in H1. cbn in H1. injection H1. intros. assumption. }
  (* the user's document is saved with the key and the redirect cleared *)
  unfold reset_user_data, get_doc. wp_go. rewrite Htab1, Hlookup. wp_go.
  change (with_redirect_url "" (with_reset_password_key "" (as_row r))) with (redeemed r).
  change {| self := redeemed r; world := w1; calls := [] |} with (on w1 (redeemed r)).
  eapply wp_conseq; [apply save_stored | | intros e s' []];
    [reflexivity | exact Hname | reflexivity | exact Hnopwd | exact (Hvalid w1 Htab1) | ].
  cbv beta. intros _ c2 [Hself Hsw].
  pose proof (core_validate_eq site (on w1 (redeemed r))) as Hcore.
  remember (fst (validate site (on w1 (redeemed r)))) as v eqn:Hv in *.
  assert (Hstored : name (as_row (self v)) = name r) by exact (core_name _ _ Hcore).
  assert (Hfacts : tabUser (world c2) = put_row (as_row (self v)) (tabUser w)
                   /\ auth (world c2)
                      = (name r, pwd) :: filter (fun e => negb (fst e =? name r)) (auth w)
                   /\ redirect_after_login (world c2) = redirect_after_login w
                   /\ now (world c2) = now w
                   /\ http_status_code (world c2) = http_status_code w).
  { unfold settled_world in Hsw, H1. cbn in Hsw, H1. rewrite Htab1 in Hsw.
    injection Hsw. injection H1. intros. repeat split; congruence. }
  destruct Hfacts as (Htab2 & Hauth2 & Hred2 & Hnow2 & Hhttp2). clear Hsw H1 Hcore.
  wp_go. rewrite Hred2, Hself. unfold db_set_value, today.
  assert (Hrows : forall x,
            In x (update_rows (name r) (with_reset_password_key "")
                    (update_rows (name r)
                       (with_last_password_reset_date (Some (now w / 86400000000)%Z))
                       (tabUser (world c2)))) ->
            (name x = name r ->
             reset_password_key x = ""
             /\ last_password_reset_date x = Some (now w / 86400000000)%Z)
            /\ (name x <> name r -> In x (tabUser w))).
  { intros x Hx. rewrite Htab2 in Hx. exact (changed_rows (name r) _ _ _ x Hstored Hx). }
  destruct (truthy_opt (hget (name r) (redirect_after_login w))) eqn:Hcached; wp_go.
  all: rewrite Hnow2; destruct (user_type (self v) =? "System User") eqn:Htype; wp_go;
    (split; [exists w1; split; [exact Htab1 | ];
             unfold landing; rewrite <- Hv, Htype, ?Hcached; reflexivity | ]);
    (split; [rewrite ?Hred2; reflexivity | ]);
    (split; [reflexivity | ]);
    (split; [apply in_or_app; right; left; reflexivity | ]);
    (split; [exact Hauth2 | ]);
    (split; [exact Hhttp2 | ]);
    split; intros x Hx; apply (Hrows x Hx).
Qed.


Lemma old_password_names_session_user w key old n :
  truthy_opt key = false -> truthy old = true ->
  find (fun e => fst e =? session_user w) (auth w) = Some (n, old) ->
  _get_user_for_update_password site key (Some old) w
  = (w, inr {| found := Some (session_user w); message := None |}).
Proof.
  intros Hkey Hold Hfind. unfold _get_user_for_update_password, bind, gets, ret. simpl.
  rewrite Hkey, Hold. unfold check_password, bind, gets, ret. simpl.
  rewrite Hfind, String.eqb_refl. reflexivity.
Qed.

(** X18.  The user in session changes the password by giving the old one.  With
    no key and the stored password of the session user as [old_password],
    [update_password] returns: the credential of that user, and of nobody
    else, is replaced by the new password, the session stays with the
    user, the user's row has its reset key cleared and carries the day of
    the change, and the other rows are as they were. *)
Theorem old_password_changes_password (w : World) (pwd old_pwd : string) (logout : Z)
    (key : option string) (r : User) :
  truthy_opt key = false -> old_pwd <> "" -> session_user w <> "" ->
  lookup (session_user w) (tabUser w) = Some r ->
  (exists n, find (fun e => fst e =? session_user w) (auth w) = Some (n, old_pwd)) ->
  accepted site w pwd -> truthy_opt (new_password r) = false ->
  passes_validation site (tabUser w) (redeemed r) ->
  exists w' path,
    update_password site pwd logout key (Some old_pwd) w = (w', inr path)
    /\ auth w'
       = (session_user w, pwd)
         :: filter (fun e => negb (fst e =? session_user w)) (auth w)
    /\ find (fun e => fst e =? session_user w) (auth w') = Some (session_user w, pwd)
    /\ session_user w' = session_user w
    /\ (forall x, In x (tabUser w') -> name x = session_user w ->
                  reset_password_key x = "" /\ last_password_reset_date x = Some (today w))
    /\ (forall x, In x (tabUser w') -> name x <> session_user w -> In x (tabUser w)).
Proof.
  intros Hkey Hold Huser Hlookup [n Hfind] Hacc Hnopwd Hvalid.
  pose proof (lookup_name _ _ _ Hlookup) as Hn.
  assert (Ht : truthy old_pwd = true)
    by (unfold truthy; apply negb_true_iff; apply String.eqb_neq; exact Hold).
  assert (Hname : truthy (name r) = true)
    by (rewrite Hn; unfold truthy; apply negb_true_iff; apply String.eqb_neq; exact Huser).
  pose proof (old_password_names_session_user w key old_pwd n Hkey Ht Hfind) as Hcheck.
  rewrite <- Hn in Hcheck, Hlookup.
  pose proof (update_password_changes w pwd logout key (Some old_pwd) r Hacc Hcheck Hname
                Hlookup Hnopwd Hvalid) as H.
  destruct (wp_returns _ _ _ H) as [w' [path [Hrun (_ & _ & Hs & _ & Ha & _ & Hrow & Hrest)]]].
  rewrite Hn in *. exists w', path.
  split; [exact Hrun | split; [exact Ha | split; [ | split; [exact Hs | split; assumption] ] ] ].
  rewrite Ha. simpl. rewrite String.eqb_refl. reflexivity.
Qed.

Lemma hget_hdel key cache : hget key (hdel key cache) = None.
Proof.
  unfold hget, hdel.
  destruct (find (fun e => fst e =? key) (filter (fun e => negb (fst e =? key)) cache))
    as [e | ] eqn:Hfind; [ | reflexivity].
  apply find_some in Hfind. destruct Hfind as [Hin He]. apply filter_In in Hin.
  rewrite He in Hin. destruct Hin as [_ Hin]. discriminate.
Qed.

(** X19.  Where a changed password leads, for a user like those [sign_up]
    makes.  The candidate password passes the size and policy checks,
    [update_password] knows the user by key or by old password, and the
    user is stored under a non-empty name, with no new password on the row.
    The user is [plain]: enabled, neither Administrator nor Guest, named by
    a valid e-mail address, of a user type that is unset or standard,
    without role profile, mailbox, module profile or image.  Then
    [update_password] logs the user in and returns the landing path: a user
    whose roles give desk access lands on the default path or "/app"; any
    other user on the page kept for them in the [redirect_after_login]
    cache, else on the [redirect_url] of the stored user, else on the
    default path, else on the home page.  A cached page is used once: the
    entry is gone afterwards.  (For another User Type the landing path
    follows the type the document is left with, and nothing is stated.) *)
Theorem landing_after_password_change (w : World) (pwd : string) (logout : Z)
    (key old : option string) (r : User) :
  accepted site w pwd ->
  _get_user_for_update_password site key old w
  = (w, inr {| found := Some (name r); message := None |}) ->
  name r <> "" -> lookup (name r) (tabUser w) = Some r ->
  truthy_opt (new_password r) = false -> plain site (redeemed r) ->
  let run := update_password site pwd logout key old w in
  let cached := hget (name r) (redirect_after_login w) in
  snd run
  = inr (if derived_type site (roles r) =? "System User"
         then por (get_default_path site) "/app"
         else por (if truthy_opt cached then or_empty cached else redirect_url r)
                  (por (get_default_path site) (get_home_page site)))
  /\ (truthy_opt cached = true -> hget (name r) (redirect_after_login (fst run)) = None)
  /\ (truthy_opt cached = false -> redirect_after_login (fst run) = redirect_after_login w)
  /\ session_user (fst run) = name r
  /\ In (LoginAs (name r)) (log (fst run)).
Proof.
  intros Hacc Hcheck Huser Hlookup Hnopwd Hplain run cached.
  assert (Hname : truthy (name r) = true)
    by (unfold truthy; apply negb_true_iff; apply String.eqb_neq; exact Huser).
  assert (Hvalid : passes_validation site (tabUser w) (redeemed r)).
  { intros w0 _. apply plain_validates. exact Hplain. }
  pose proof (update_password_changes w pwd logout key old r Hacc Hcheck Hname Hlookup Hnopwd
                Hvalid) as H.
  destruct (wp_returns _ _ _ H)
    as [w' [path [Hrun ([w1 [_ Hpath]] & Hcache & Hs & Hlog & _)]]].
  fold run in Hrun. rewrite Hrun. cbn [fst snd]. fold cached in Hcache, Hpath.
  destruct (plain_validated site (on w1 (redeemed r)) Hplain)
    as [c' [Hv (_ & _ & _ & Htype & _)]].
  rewrite Hv in Hpath. cbn [fst] in Hpath. rewrite Htype in Hpath.
  split; [rewrite Hpath; reflexivity | ].
  split; [intro Hc; rewrite Hcache, Hc; apply hget_hdel | ].
  split; [intro Hc; rewrite Hcache, Hc; reflexivity | ].
  split; assumption.
Qed.

(** ** Adding roles *)

Lemma append_roles_run new c :
  append_roles new c
  = (with_self (with_roles
                  (roles (self c)
                   ++ map (fun r => {| role := r |})
                        (filter (fun r => negb (mem_opt r (map role (roles (self c))))) new))%list
                  (self c)) c, inr tt).
Proof. reflexivity. Qed.

Lemma filter_none {A} (p : A -> bool) (l : list A) :
  (forall x, In x l -> p x = false) -> filter p l = [].
Proof.
  induction l as [ | a l IH]; simpl; intro H; [reflexivity | ].
  rewrite (H a (or_introl eq_refl)). apply IH. intros x Hx. apply H. right. exact Hx.
Qed.

(** X20.  [append_roles] never fails and touches the roles only.  The rows at
    hand stay, in their order, and rows for the roles asked for follow
    them, so that every role asked for is held afterwards; a role already
    held gets no second row, and asking again adds nothing.  The roles
    asked for are compared with the roles held before the call only: a
    role that is new and named twice gets two rows, one for each mention. *)
Theorem append_roles_adds_missing_roles (new : list (option string)) (c : Ctx) :
  let c' := fst (append_roles new c) in
  let held := map role (roles (self c)) in
  snd (append_roles new c) = inr tt
  /\ world c' = world c
  /\ (exists added, roles (self c') = (roles (self c) ++ added)%list
                    /\ map role added = filter (fun r => negb (mem_opt r held)) new)
  /\ (forall r, In r new -> In r (map role (roles (self c'))))
  /\ (NoDup held -> NoDup new -> NoDup (map role (roles (self c'))))
  /\ (forall r before between after,
        new = (before ++ r :: between ++ r :: after)%list -> ~ In r held ->
        ~ NoDup (map role (roles (self c'))))
  /\ roles (self (fst (append_roles new c'))) = roles (self c').
Proof.
  intros c' held. unfold c'. rewrite !append_roles_run. cbn [fst snd]. fields. fold held.
  set (missing := filter (fun r => negb (mem_opt r held)) new).
  assert (Hroles : map role (roles (self c) ++ map (fun r => {| role := r |}) missing)%list
                   = (held ++ missing)%list).
  { rewrite map_app, map_map. simpl. rewrite map_id. reflexivity. }
  assert (Hall : forall r, In r new -> In r (held ++ missing)%list).
  { intros r Hr. apply in_or_app. destruct (mem_opt r held) eqn:Hmem.
    - left. apply mem_opt_In. exact Hmem.
    - right. apply filter_In. split; [exact Hr | rewrite Hmem; reflexivity]. }
  split; [reflexivity | split; [reflexivity | split; [ | split; [ | split; [ | split] ] ] ] ].
  - exists (map (fun r => {| role := r |}) missing). split; [reflexivity | ].
    rewrite map_map. simpl. apply map_id.
  - intros r Hr. rewrite Hroles. apply Hall. exact Hr.
  - intros Hheld Hnew. rewrite Hroles. apply NoDup_app; [exact Hheld | | ].
    + apply NoDup_filter. exact Hnew.
    + intros r Hr Hm. apply filter_In in Hm. destruct Hm as [_ Hm].
      apply negb_true_iff in Hm. apply mem_opt_false in Hm. contradiction.
  - intros r before between after Hnew Hr Hnd. rewrite Hroles in Hnd.
    apply NoDup_app_remove_l in Hnd. unfold missing in Hnd. rewrite Hnew in Hnd.
    apply mem_opt_false in Hr.
    rewrite filter_app in Hnd. simpl in Hnd. rewrite Hr in Hnd. simpl in Hnd.
    rewrite filter_app in Hnd. simpl in Hnd. rewrite Hr in Hnd. simpl in Hnd.
    apply NoDup_remove_2 in Hnd. apply Hnd. apply in_or_app. right. apply in_or_app.
    right. left. reflexivity.
  - rewrite Hroles. rewrite filter_none; [simpl; apply app_nil_r | ].
    intros r Hr. apply negb_false_iff. apply mem_opt_In. apply Hall. exact Hr.
Qed.


(** X21.  [add_roles] on a stored user like those [sign_up] makes.  The
    document is not new, has a non-empty name, is not being inserted and
    carries no new password; the user is [plain]: enabled, neither
    Administrator nor Guest, named by a valid e-mail address, of a user
    type that is unset or standard, without role profile, mailbox, module
    profile or image.  Then [add_roles] returns, and what the save keeps of
    the roles is the roles held or asked for, less the empty references and
    the roles disabled in the catalogue, each once; a disabled role that is
    asked for is not held afterwards.  The user type follows the roles held
    and asked for, a disabled one with desk access included.  The user's
    row is written with the roles and the type, and no other row changes.
    (Guest keeps the role "Guest" alone, and nothing is stated here of the
    reserved identities.) *)
Theorem added_roles_are_stored (new : list (option string)) (c : Ctx) :
  plain site (self c) -> is_new (self c) = false -> name (self c) <> "" ->
  in_insert (flags (self c)) = false -> truthy_opt (new_password (self c)) = false ->
  exists c',
    add_roles site new c = (c', inr tt)
    /\ (forall r, In r (map role (roles (self c')))
                  <-> (In r (map role (roles (self c))) \/ In r new)
                      /\ truthy_opt r = true /\ is_disabled_role site r = false)
    /\ NoDup (map role (roles (self c')))
    /\ user_type (self c')
       = (if existsb (desk_role site) (map role (roles (self c)) ++ new)
          then "System User" else "Website User")
    /\ (forall x, In x (tabUser (world c')) -> name x = name (self c) ->
                  roles x = roles (self c') /\ user_type x = user_type (self c'))
    /\ (forall x, In x (tabUser (world c')) -> name x <> name (self c) ->
                  In x (tabUser (world c))).
Proof.
  intros Hplain Hold Hname Hin Hnopwd.
  assert (Hname' : truthy (name (self c)) = true)
    by (unfold truthy; apply negb_true_iff; apply String.eqb_neq; exact Hname).
  unfold add_roles, bind. rewrite append_roles_run.
  set (held := map role (roles (self c))).
  set (missing := filter (fun r => negb (mem_opt r held)) new).
  set (cs := with_self _ c).
  assert (Hroles : map role (roles (self cs)) = (held ++ missing)%list).
  { unfold cs. fields. rewrite map_app, map_map. simpl. rewrite map_id. reflexivity. }
  assert (Hasked : forall r, In r (held ++ missing)%list <-> In r held \/ In r new).
  { intro r. rewrite in_app_iff. unfold missing. rewrite filter_In, negb_true_iff, mem_opt_false.
    destruct (mem_opt r held) eqn:Hmem.
    - apply mem_opt_In in Hmem. tauto.
    - apply mem_opt_false in Hmem. tauto. }
  assert (Hplain' : plain site (self cs)) by exact Hplain.
  destruct (plain_validated site cs Hplain') as (c1 & Hrun & Hcore & _ & _ & Ht1 & Hr1 & _).
  assert (Hsave : wp (save site)
            (fun _ c' =>
               self c' = self c1
               /\ settled_world (world c')
                  = settled_world (with_tabUser (put_row (as_row (self c1)) (tabUser (world c)))
                                     (world c)))
            (fun _ _ => False) cs).
  { eapply wp_conseq; [apply save_stored | | intros ? ? []];
      [ exact Hold | exact Hname' | exact Hin | exact Hnopwd
      | apply plain_validates; exact Hplain' | ].
    cbv beta. rewrite Hrun. cbn [fst]. intros _ c' H. exact H. }
  destruct (wp_returns _ _ _ Hsave) as [c' [[] [Hsaved [Hself Hworld]]]].
  rewrite Hsaved. exists c'. split; [reflexivity | ]. rewrite Hself.
  assert (Hrows : tabUser (world c') = put_row (as_row (self c1)) (tabUser (world c))).
  { unfold settled_world in Hworld. injection Hworld. intros. assumption. }
  split; [ | split; [ | split; [ | split] ] ].
  - intro r. rewrite Hr1.
    rewrite (In_map_filter_role (fun x => negb (is_disabled_role site x))).
    rewrite (proj2 (unique_roles_spec (roles (self cs)) []) r), Hroles, Hasked.
    rewrite negb_true_iff. simpl. tauto.
  - rewrite Hr1. apply NoDup_map_filter. apply (unique_roles_spec (roles (self cs)) []).
  - rewrite Ht1. unfold derived_type. rewrite Hroles.
    replace (existsb (desk_role site) (held ++ missing)) with
      (existsb (desk_role site) (held ++ new)); [reflexivity | ].
    apply eq_true_iff_eq. rewrite !existsb_exists. split; intros [r [Hr Hd]]; exists r.
    + split; [apply Hasked; apply in_app_iff in Hr; exact Hr | exact Hd].
    + split; [apply in_app_iff; apply Hasked; exact Hr | exact Hd].
  - intros x Hx Hn. rewrite Hrows in Hx. apply In_put_row in Hx.
    destruct Hx as [-> | [_ Hx]]; [split; reflexivity | ].
    exfalso. apply Hx. rewrite Hn. symmetry. exact (core_name _ _ Hcore).
  - intros x Hx Hn. rewrite Hrows in Hx. apply In_put_row in Hx.
    destruct Hx as [-> | [Hx _]]; [ | exact Hx].
    exfalso. apply Hn. exact (core_name _ _ Hcore).
Qed.


(** ** The address and the full name *)

Definition identity (u : User) : string * string := (email u, full_name u).

Lemma validate_derives_identity c0 c :
  (identity (self c), core c) = (identity (self c0), core c0) ->
  wp (validate site)
    (fun _ c' =>
       (identity (self c'), core c')
       = ((if mem_str (name (self c0)) STANDARD_USERS then email (self c0)
           else name (self c0),
           join " " (filter truthy [first_name (self c0); last_name (self c0)])), core c0))
    (fun _ _ => True) c.
Proof.
  intro H. unfold validate.
  set (Inv := fun c : Ctx => (identity (self c), core c) = (identity (self c0), core c0)).
  change (Inv c) in H.
  keep_by Inv H plainly. keep_by Inv H plainly. wp_go.
  match type of H with Inv ?s => rename s into cur end.
  set (Inv1 := fun c : Ctx =>
         (identity (self c), core c)
         = ((if mem_str (name (self c0)) STANDARD_USERS then email (self c0)
             else name (self c0), full_name (self c0)), core c0)).
  eapply wp_conseq with (Q' := fun _ c' => Inv1 c') (E' := fun _ _ => True);
    [ | cbv beta; intros ? ? H1 | auto ].
  { unfold Inv in H. pose proof (f_equal fst H) as Hi. pose proof (f_equal snd H) as Hc.
    simpl in Hi, Hc. rewrite (core_name _ _ Hc). unfold Inv1.
    destruct (mem_str (name (self c0)) STANDARD_USERS); simpl negb.
    - apply wp_when_false. exact H.
    - apply wp_when_true. apply wp_bind. apply wp_assign. apply wp_call.
      unfold validate_email_type.
      destruct (validate_email_address site (strip (name (self c0))));
        [apply wp_ret | apply wp_raise; exact I].
      unfold identity in *. injection Hi as _ Hf. unfold core in *. cbn in *.
      rewrite Hf, Hc. reflexivity. }
  clear H. do 4 keep_by Inv1 H1 plainly.
  match type of H1 with Inv1 ?s => rename s into mid end.
  set (Inv2 := fun c : Ctx =>
         (identity (self c), core c)
         = ((if mem_str (name (self c0)) STANDARD_USERS then email (self c0)
             else name (self c0),
             join " " (filter truthy [first_name (self c0); last_name (self c0)])), core c0)).
  apply wp_bind. apply wp_call.
  eapply wp_conseq with (Q' := fun _ c' => Inv2 c') (E' := fun _ _ => True);
    [ | cbv beta; intros ? ? H2 | auto ].
  { unfold set_full_name. apply wp_assign. unfold Inv1 in H1. unfold Inv2.
    pose proof (f_equal fst H1) as Hi. pose proof (f_equal snd H1) as Hc. simpl in Hi, Hc.
    unfold identity in *. injection Hi as He _.
    assert (Hnames : first_name (self mid) = first_name (self c0)
                     /\ last_name (self mid) = last_name (self c0)).
    { unfold core in Hc. injection Hc. intros. split; assumption. }
    destruct Hnames as [Hfirst Hlast]. unfold core in *. cbn in *.
    rewrite Hc, He, Hfirst, Hlast. reflexivity. }
  clear H1.
  keep_by Inv2 H2 plainly. keep_by Inv2 H2 plainly. keep_by Inv2 H2 plainly.
  keep_by Inv2 H2 plainly. keep_by Inv2 H2 plainly. keep_by Inv2 H2 plainly.
  keep_by Inv2 H2 plainly. wp_go. keep_by Inv2 H2 plainly.
  do 3 keep_by Inv2 H2 plainly. wp_go. keep_by Inv2 H2 plainly. wp_go.
  eapply wp_conseq with (Q' := fun _ c' => Inv2 c') (E' := fun _ c' => Inv2 c');
    [ | auto | auto ].
  match goal with
  | |- wp ?m _ _ ?s =>
      assert (Hst : stable Inv2 m) by (stable_by plainly); exact (Hst s H2)
  end.
Qed.

(** X22.  Two fields of a validated document are derived, whatever they held
    before.  The full name is the first and the last name joined by a
    space, or the one of them that is not empty, or empty.  The [email] of
    a user that is not reserved is the name of the document; Administrator
    and Guest keep the [email] they have.  The first and the last name are
    not changed. *)
Theorem email_and_full_name_are_derived (c : Ctx) :
  returns (validate site) c ->
  let c' := fst (validate site c) in
  full_name (self c') = join " " (filter truthy [first_name (self c); last_name (self c)])
  /\ (~ In (name (self c)) STANDARD_USERS -> email (self c') = name (self c))
  /\ (In (name (self c)) STANDARD_USERS -> email (self c') = email (self c))
  /\ first_name (self c') = first_name (self c) /\ last_name (self c') = last_name (self c).
Proof.
  intros Hret c'.
  destruct (wp_returned _ _ _ _ (validate_derives_identity c c eq_refl) Hret) as [_ [_ H]].
  fold c' in H. pose proof (f_equal fst H) as Hi. pose proof (f_equal snd H) as Hc.
  cbn [fst snd] in Hi, Hc. unfold identity in Hi.
  pose proof (f_equal fst Hi) as He. pose proof (f_equal snd Hi) as Hf.
  cbn [fst snd] in He, Hf.
  split; [exact Hf | split; [ | split] ].
  - intro Hn. apply mem_str_false in Hn. rewrite Hn in He. exact He.
  - intro Hn. apply mem_str_In in Hn. rewrite Hn in He. exact He.
  - unfold core in Hc. injection Hc. intros. split; assumption.
Qed.


(** ** Suggested usernames *)

Lemma check_suggestion_fits u w suggestion s :
  _check_suggestion u w suggestion = Some s ->
  s = suggestion /\ username u <> s /\ username_taken s u w = false.
Proof.
  unfold _check_suggestion.
  destruct (username u =? suggestion) eqn:Hsame; simpl; [discriminate | ].
  destruct (username_taken suggestion u w) eqn:Htaken; simpl; [discriminate | ].
  intros [= <-]. apply String.eqb_neq in Hsame. auto.
Qed.

Lemma suggest_username_returns c :
  wp (suggest_username site)
    (fun a c' =>
       forall s, a = Some s -> truthy s = true ->
         (_check_suggestion (self c) (world c) (scrub site (first_name (self c))) = Some s
          \/ _check_suggestion (self c) (world c)
               (scrub site (first_name (self c) ++ " " ++ last_name (self c))) = Some s)
         /\ In (Msgprint ("Suggested Username: " ++ s)) (log (world c')))
    (fun _ _ => False) c.
Proof.
  unfold suggest_username. wp_go.
  destruct (_check_suggestion (self c) (world c) (scrub site (first_name (self c))))
    as [s1 | ] eqn:H1; cbn [truthy_opt negb].
  - destruct (truthy s1) eqn:Ht1; cbn [truthy_opt negb or_empty]; rewrite ?Ht1; cbn [negb].
    + wp_go. intros s [= ->] _. split; [left; reflexivity | ].
      apply in_or_app. right. left. reflexivity.
    + destruct (_check_suggestion (self c) (world c)
                  (scrub site (first_name (self c) ++ " " ++ last_name (self c))))
        as [s2 | ] eqn:H2; cbn [truthy_opt or_empty].
      * destruct (truthy s2) eqn:Ht2; rewrite ?Ht2; wp_go; intros s [= ->] Hs; [ | congruence].
        split; [right; reflexivity | ]. apply in_or_app. right. left. reflexivity.
      * wp_go. intros s [=].
  - destruct (_check_suggestion (self c) (world c)
                (scrub site (first_name (self c) ++ " " ++ last_name (self c))))
      as [s2 | ] eqn:H2; cbn [truthy_opt or_empty].
    + destruct (truthy s2) eqn:Ht2; rewrite ?Ht2; wp_go; intros s [= ->] Hs; [ | congruence].
      split; [right; reflexivity | ]. apply in_or_app. right. left. reflexivity.
    + wp_go. intros s [=].
Qed.

(** X23.  A username that [suggest_username] comes up with is the scrubbed first
    name or, failing that, the scrubbed first and last name; it is not the
    username the document has, no stored user with another name has it,
    and it is shown to the user.  (Stored users have names.) *)
Theorem suggested_username_is_free (c : Ctx) (s : string) :
  (forall r, In r (tabUser (world c)) -> truthy (name r) = true) ->
  snd (suggest_username site c) = inr (Some s) -> s <> "" ->
  (s = scrub site (first_name (self c))
   \/ s = scrub site (first_name (self c) ++ " " ++ last_name (self c)))
  /\ s <> username (self c)
  /\ (forall r, In r (tabUser (world c)) -> name r <> name (self c) -> username r <> s)
  /\ In (Msgprint ("Suggested Username: " ++ s)) (log (world (fst (suggest_username site c)))).
Proof.
  intros Hnamed Hrun Hs.
  assert (Ht : truthy s = true)
    by (unfold truthy; apply negb_true_iff; apply String.eqb_neq; exact Hs).
  pose proof (suggest_username_returns c) as H. unfold wp in H.
  destruct (suggest_username site c) as [c' [e | a]]; [contradiction | ].
  cbn [fst snd] in *. injection Hrun as ->.
  destruct (H s eq_refl Ht) as [Hfound Hshown]. clear H.
  assert (Hfits : exists suggestion,
            (suggestion = scrub site (first_name (self c))
             \/ suggestion = scrub site (first_name (self c) ++ " " ++ last_name (self c)))
            /\ _check_suggestion (self c) (world c) suggestion = Some s).
  { destruct Hfound as [H | H]; eexists; (split; [ | exact H]); auto. }
  destruct Hfits as [suggestion [Hwhich Hcheck]].
  apply check_suggestion_fits in Hcheck. destruct Hcheck as [<- [Hown Hfree]].
  split; [exact Hwhich | split; [intro H; apply Hown; symmetry; exact H | split] ];
    [ | exact Hshown].
  intros r Hr Hother Hsame.
  unfold username_taken, username_exists in Hfree. rewrite Ht in Hfree.
  destruct (find (fun r0 => ((username r0 =? s) && negb (name r0 =? name (self c)))%bool)
              (tabUser (world c))) as [r' | ] eqn:Hfind.
  - apply find_some in Hfind. simpl in Hfree. rewrite (Hnamed r' (proj1 Hfind)) in Hfree.
    discriminate.
  - pose proof (find_none _ _ Hfind r Hr) as Hf. simpl in Hf.
    rewrite Hsame, String.eqb_refl in Hf. apply String.eqb_neq in Hother.
    rewrite Hother in Hf. discriminate.
Qed.

End Further.

(** * The order of the pipeline on the sample data *)

(** The order shows on the stranded user: with distinct mailboxes
    validation stops for the missing Module Profile, the disabled role gone;
    with a mailbox listed twice it stops at the mailbox check, the disabled
    role gone and the block list as it was. *)
Lemma validate_order_witness :
  (snd (validate acme (stranded [])) = inl (DoesNotExistError "Module Profile" "Gone")
   /\ distinct_mailboxes (self (stranded []))
   /\ no_disabled_role acme (self (fst (validate acme (stranded [])))))
  /\ (~ distinct_mailboxes (self (stranded ["inbox"; "inbox"]))
      /\ exists e,
           snd (validate acme (stranded ["inbox"; "inbox"])) = inl e
           /\ is_module_profile_error e = false
           /\ block_modules (self (fst (validate acme (stranded ["inbox"; "inbox"]))))
              = block_modules (self (stranded ["inbox"; "inbox"])))
  /\ (policy_worded_apart acme (stranded ["inbox"; "inbox"])
      /\ snd (validate acme (stranded ["inbox"; "inbox"]))
         = inl (ValidationError "Email Account added multiple times")
      /\ no_disabled_role acme (self (fst (validate acme (stranded ["inbox"; "inbox"]))))).
Proof.
  assert (Hgone : snd (validate acme (stranded []))
                  = inl (DoesNotExistError "Module Profile" "Gone"))
    by (vm_compute; reflexivity).
  assert (Hstop : snd (validate acme (stranded ["inbox"; "inbox"]))
                  = inl (ValidationError "Email Account added multiple times"))
    by (vm_compute; reflexivity).
  assert (Htwice : ~ distinct_mailboxes (self (stranded ["inbox"; "inbox"]))).
  { intro H. inversion H as [ | x l Hin _]. apply Hin. left. reflexivity. }
  assert (Hpw : policy_worded_apart acme (stranded ["inbox"; "inbox"])).
  { intros pwd Hp. vm_compute in Hp. injection Hp as <-. vm_compute. reflexivity. }
  pose proof (validate_order acme (stranded [])) as (_ & _ & _ & _ & _ & Hmp & _ & _).
  pose proof (validate_order acme (stranded ["inbox"; "inbox"]))
    as (_ & _ & _ & _ & _ & _ & Hbox & Hdrop).
  split; [ | split].
  - destruct (Hmp "Gone" Hgone) as (_ & _ & Hd & Hr).
    split; [exact Hgone | split; [exact Hd | exact Hr] ].
  - destruct (Hbox Htwice) as (e & He & Hne & Hb).
    split; [exact Htwice | ]. exists e.
    split; [exact He | split; [exact Hne | exact (Hb eq_refl)] ].
  - split; [exact Hpw | split; [exact Hstop | exact (proj2 (Hdrop Hpw Hstop))] ].
Defined.

(** * The further properties on the sample data *)

(** Ann at her desk: the document of the stored user. *)
Definition desk : Ctx := on (office [ann] 0) ann.

(** A portal user with nothing set beyond the name and one role, who is to
    be welcomed by mail. *)
Definition cleo : User :=
  {| name := "cleo@acme.test"; email := "cleo@acme.test"; first_name := "Cleo";
     middle_name := ""; last_name := "Hill"; full_name := ""; username := ""; birth_date := "";
     new_password := Some ""; enabled := 1; user_type := "Website User";
     role_profile_name := ""; role_profiles := []; roles := [ {| role := Some "Customer" |} ];
     module_profile := ""; block_modules := []; user_emails := []; user_image := "";
     time_zone := ""; language := "Loading..."; social_logins := []; thread_notify := 1;
     send_me_a_copy := 0; allowed_in_mentions := 1; send_welcome_email := 1;
     logout_all_sessions := 1; reset_password_key := "";
     last_reset_password_key_generated_on := None; last_password_reset_date := None;
     redirect_url := "/orders"; university := ""; major := ""; creation := 0;
     is_admin := false; is_guest := false; __new_password := None; flags := no_flags |}.

Lemma desk_validates : returns (validate acme) desk.
Proof. exists tt. vm_compute. reflexivity. Qed.

Lemma cleo_is_plain : plain acme cleo.
Proof.
  unfold plain. split; [right; right; reflexivity | ].
  repeat split; reflexivity.
Qed.


Definition guest_with_roles : Ctx :=
  on (office [] 0)
    (person "Guest" "Website User" 1 ["Staff"] [Some "Guest"; Some "Customer"; Some "Guest"] []).

Lemma guest_keeps_only_guest_role_witness :
  returns (validate acme) guest_with_roles
  /\ (forall d, In d (roles (self (fst (validate acme guest_with_roles)))) ->
                role d = Some "Guest")
  /\ (List.length (roles (self (fst (validate acme guest_with_roles)))) <= 1)%nat.
Proof.
  assert (H : returns (validate acme) guest_with_roles) by (exists tt; vm_compute; reflexivity).
  split; [exact H | ]. exact (guest_keeps_only_guest_role acme guest_with_roles H eq_refl).
Defined.

Definition ann_with_legacy_profile : Ctx :=
  on (office [ann] 0) (with_role_profile_name "Staff" ann).

Lemma legacy_profile_is_migrated_witness :
  returns (validate acme) ann_with_legacy_profile
  /\ role_profile_name (self (fst (validate acme ann_with_legacy_profile))) = ""
  /\ In "Staff"
        (map role_profile (role_profiles (self (fst (validate acme ann_with_legacy_profile))))).
Proof.
  assert (H : returns (validate acme) ann_with_legacy_profile)
    by (exists tt; vm_compute; reflexivity).
  split; [exact H | ].
  destruct (legacy_profile_is_migrated acme ann_with_legacy_profile H) as [Hempty Hmoved].
  split; [exact Hempty | ]. apply Hmoved.
  - vm_compute. intros [E | [E | []]]; discriminate.
  - discriminate.
Defined.

Definition ann_disabled : Ctx :=
  on (office [ann] 0) (person "ann@acme.test" "Website User" 0 [] [Some "Customer"] []).

Lemma disabling_switches_mail_off_witness :
  returns (validate acme) ann_disabled
  /\ thread_notify (self (fst (validate acme ann_disabled))) = 0%Z
  /\ send_me_a_copy (self (fst (validate acme ann_disabled))) = 0%Z
  /\ allowed_in_mentions (self (fst (validate acme ann_disabled))) = 0%Z
  /\ In (Logout "ann@acme.test") (log (world (fst (validate acme ann_disabled))))
  /\ In (ToggleNotifications "ann@acme.test" 0) (log (world (fst (validate acme ann_disabled)))).
Proof.
  assert (H : returns (validate acme) ann_disabled) by (exists tt; vm_compute; reflexivity).
  split; [exact H | ].
  destruct (disabling_switches_mail_off acme ann_disabled H) as [Htoggle [Hoff _]].
  destruct (Hoff eq_refl) as (H1 & H2 & H3 & Hlogout).
  split; [exact H1 | split; [exact H2 | split; [exact H3 | split; [ | exact Htoggle] ] ] ].
  apply Hlogout. reflexivity.
Defined.

Lemma username_is_not_shared_witness :
  returns (validate acme) ann_again
  /\ (username (self (fst (validate acme ann_again))) = ""
      \/ forall r, In r (tabUser (world ann_again)) -> name r <> name (self ann_again) ->
                   username r <> username (self (fst (validate acme ann_again)))).
Proof.
  assert (H : returns (validate acme) ann_again) by (exists tt; vm_compute; reflexivity).
  split; [exact H | ].
  apply (username_is_not_shared acme ann_again H).
  intros r [<- | []]. reflexivity.
Defined.

Lemma module_profile_decides_blocked_modules_witness :
  exists rows,
    module_profile_doc acme (module_profile (self desk)) = Some rows
    /\ block_modules (self (fst (validate acme desk)))
       = map (fun d => {| module := module d |}) rows
    /\ get_blocked_modules (self (fst (validate acme desk))) = map module rows.
Proof.
  apply (module_profile_decides_blocked_modules acme desk desk_validates). discriminate.
Defined.

Definition cleo_arrives : Ctx := on (office [] 0) cleo.

Lemma cleo_validates : returns (validate acme) cleo_arrives.
Proof. exists tt. vm_compute. reflexivity. Qed.

Lemma time_zone_and_language_defaults_witness :
  time_zone (self (fst (validate acme cleo_arrives))) = get_system_timezone acme
  /\ language (self (fst (validate acme cleo_arrives))) = ""
  /\ language (self (fst (validate acme cleo_arrives))) <> "Loading...".
Proof.
  exact (time_zone_and_language_defaults acme cleo_arrives cleo_validates).
Defined.

Lemma login_id_is_given_witness :
  social_logins (self (fst (validate acme cleo_arrives)))
  = [ {| provider := "frappe"; userid := generate_hash acme 0 |} ]
  /\ hashes_drawn (world (fst (validate acme cleo_arrives))) = 1%nat
  /\ wants_login_id (self (fst (validate acme cleo_arrives))) = false.
Proof.
  destruct (login_id_is_given acme cleo_arrives cleo_validates) as (Hnew & _ & Honce & _).
  destruct (Hnew eq_refl) as [Hrow Hdrawn].
  split; [exact Hrow | split; [exact Hdrawn | ] ].
  apply Honce; [reflexivity | vm_compute; discriminate].
Defined.

Definition ann_changes_password : Ctx :=
  on (office [ann] 0) (with_new_password (Some "correct horse battery") ann).

Lemma save_changes_password_witness :
  exists c',
    save acme ann_changes_password = (c', inr tt)
    /\ auth (world c') = [("ann@acme.test", "correct horse battery")]
    /\ mails_sent (world c') = 0%nat.
Proof.
  assert (H : returns (validate acme) ann_changes_password)
    by (exists tt; vm_compute; reflexivity).
  destruct (save_changes_password acme ann_changes_password "correct horse battery")
    as [c' (Hrun & Hauth & _ & Hmails & _)];
    [reflexivity | discriminate | reflexivity | reflexivity | discriminate | exact H | ].
  exists c'. split; [exact Hrun | split; [exact Hauth | exact Hmails] ].
Defined.

Definition cleo_inserted : Ctx :=
  on (office [] 0) (with_flags (with_in_insert true no_flags) cleo).

Lemma welcome_mail_outcomes_witness :
  let sent := send_password_notification acme None cleo_inserted in
  let lost := send_password_notification flaky None
                (on (with_mails_sent 1 (office [] 0)) (self cleo_inserted)) in
  (mails_sent (world (fst sent)) = 1%nat /\ snd sent = inr tt
   /\ email_sent (flags (self (fst sent))) = true)
  /\ snd lost = inl (PythonError "SMTPServerDisconnected").
Proof.
  split.
  - destruct (welcome_mail_outcomes acme None cleo_inserted) as (Hcount & Hsent & _);
      [ reflexivity | vm_compute; intros [E | [E | []]]; discriminate | reflexivity
      | discriminate | reflexivity | ].
    destruct (Hsent eq_refl) as [Hrun Hmark]. auto.
  - destruct (welcome_mail_outcomes flaky None
                (on (with_mails_sent 1 (office [] 0)) (self cleo_inserted)))
      as (_ & _ & _ & Hlost);
      [ reflexivity | vm_compute; intros [E | [E | []]]; discriminate | reflexivity
      | discriminate | reflexivity | ].
    apply Hlost; [reflexivity | discriminate].
Defined.

(** Sixty-one users created within the hour. *)
Definition crowded : World := office (repeat ann 61) 0.

Lemma sign_up_is_throttled_witness :
  exists w',
    sign_up acme "eve@acme.test" "Eve" "Hill" "" "" "" crowded
    = (w', inl (ValidationError "Throttled"))
    /\ tabUser w' = tabUser crowded /\ mails_sent w' = mails_sent crowded
    /\ log w' = log crowded.
Proof.
  destruct (sign_up_is_throttled acme crowded "eve@acme.test" "Eve" "Hill" "" "" "")
    as [w' (Hrun & Hrows & Hmails & Hlog)];
    [reflexivity | vm_compute; reflexivity | reflexivity | vm_compute; reflexivity | ].
  exists w'. split; [exact Hrun | split; [exact Hrows | split; [exact Hmails | ] ] ].
  rewrite Hlog. vm_compute. reflexivity.
Defined.

Lemma reset_link_carries_the_key_witness :
  let run := reset_password acme "ann@acme.test" (office [ann] 0) in
  snd run = inr None
  /\ lookup "ann@acme.test" (tabUser (fst run))
     = Some (with_last_reset_password_key_generated_on (Some 0%Z)
               (with_reset_password_key (sha256_hash acme (generate_hash acme 0)) ann))
  /\ In (SendMail "ann@acme.test" "password_reset"
           (get_url acme ("/update-password?key=" ++ generate_hash acme 0)))
        (log (fst run))
  /\ holder_of acme (generate_hash acme 0) (fst run)
     = Some (with_last_reset_password_key_generated_on (Some 0%Z)
               (with_reset_password_key (sha256_hash acme (generate_hash acme 0)) ann)).
Proof.
  destruct (reset_link_carries_the_key acme (office [ann] 0) "ann@acme.test" ann)
    as (Hrun & Hrow & _ & Hmail & _ & _ & Hholder);
    [reflexivity | discriminate | discriminate | reflexivity | ].
  split; [exact Hrun | split; [exact Hrow | split; [exact Hmail | ] ] ].
  apply Hholder. intros x [<- | []]. discriminate.
Defined.

Lemma second_reset_request_retires_first_witness :
  let w1 := fst (reset_password acme "ann@acme.test" (office [ann] 0)) in
  let w2 := fst (reset_password acme "ann@acme.test" w1) in
  update_password acme "correct horse battery" 0 (Some (generate_hash acme 0)) None w2
  = (with_http_status_code (Some 410%Z) w2, inr reset_link_invalid_message)
  /\ exists row, holder_of acme (generate_hash acme 1) w2 = Some row
                 /\ name row = "ann@acme.test".
Proof.
  apply (second_reset_request_retires_first acme (office [ann] 0) "ann@acme.test" ann
           "correct horse battery" 0 None).
  - reflexivity.
  - discriminate.
  - discriminate.
  - reflexivity.
  - reflexivity.
  - vm_compute. discriminate.
  - vm_compute. discriminate.
  - intros x [<- | []]. split; vm_compute; discriminate.
  - split; [vm_compute; reflexivity | right; split; vm_compute; reflexivity].
Defined.

Lemma password_change_needs_key_or_old_password_witness :
  exists e,
    update_password acme "correct horse battery" 0 None (Some "a guess") (office [ann] 0)
    = (office [ann] 0, inl e)
    /\ e = AuthenticationError.
Proof.
  destruct (password_change_needs_key_or_old_password acme (office [ann] 0)
              "correct horse battery" 0 None (Some "a guess"))
    as [e [Hrun He]]; [reflexivity | intros _ n stored H; discriminate H | ].
  exists e. split; [exact Hrun | ]. apply He.
  split; [vm_compute; reflexivity | right; split; vm_compute; reflexivity].
Defined.

(** Ann in session, with a password on record. *)
Definition ann_in_session : World :=
  with_auth [("ann@acme.test", "old secret"); ("bob@acme.test", "hunter2")]
    (with_session_user "ann@acme.test" (office [ann; bob] 0)).

Lemma old_password_changes_password_witness :
  exists w' path,
    update_password acme "correct horse battery" 0 None (Some "old secret") ann_in_session
    = (w', inr path)
    /\ auth w' = [("ann@acme.test", "correct horse battery"); ("bob@acme.test", "hunter2")]
    /\ session_user w' = "ann@acme.test"
    /\ (forall x, In x (tabUser w') -> name x = "ann@acme.test" ->
                  reset_password_key x = "" /\ last_password_reset_date x = Some 0%Z)
    /\ (forall x, In x (tabUser w') -> name x <> "ann@acme.test" -> x = bob).
Proof.
  destruct (old_password_changes_password acme ann_in_session "correct horse battery"
              "old secret" 0 None ann)
    as [w' [path (Hrun & Hauth & _ & Hsession & Hrow & Hrest)]].
  - reflexivity.
  - discriminate.
  - discriminate.
  - reflexivity.
  - exists "ann@acme.test". reflexivity.
  - split; [vm_compute; reflexivity | right; split; vm_compute; reflexivity].
  - reflexivity.
  - intros w Hw. destruct w as [rows ? ? ? ? ? ? ? ?]. simpl in Hw. subst rows.
    exists tt. vm_compute. reflexivity.
  - exists w', path.
    split; [exact Hrun | split; [exact Hauth | split; [exact Hsession | split] ] ].
    + exact Hrow.
    + intros x Hx Hn. destruct (Hrest x Hx Hn) as [<- | [<- | []]]; [ | reflexivity].
      exfalso. apply Hn. reflexivity.
Defined.

(** Cleo in session, with a page kept for her after the login. *)
Definition cleo_in_session : World :=
  with_redirect_after_login [("cleo@acme.test", "/cart")]
    (with_auth [("cleo@acme.test", "old secret")]
       (with_session_user "cleo@acme.test" (office [cleo] 0))).

Lemma landing_after_password_change_witness :
  let run := update_password acme "correct horse battery" 0 None (Some "old secret")
               cleo_in_session in
  snd run = inr "/cart"
  /\ hget "cleo@acme.test" (redirect_after_login (fst run)) = None
  /\ session_user (fst run) = "cleo@acme.test"
  /\ In (LoginAs "cleo@acme.test") (log (fst run)).
Proof.
  destruct (landing_after_password_change acme cleo_in_session "correct horse battery" 0 None
              (Some "old secret") cleo)
    as (Hpath & Hused & _ & Hsession & Hlogin).
  - split; [vm_compute; reflexivity | right; split; vm_compute; reflexivity].
  - reflexivity.
  - discriminate.
  - reflexivity.
  - reflexivity.
  - exact cleo_is_plain.
  - split; [exact Hpath | split; [apply Hused; reflexivity | split; assumption] ].
Defined.

Definition cleo_stored : Ctx := on (office [ann; cleo] 0) cleo.

Lemma added_roles_are_stored_witness :
  exists c',
    add_roles acme [Some "Auditor"; Some "System Manager"; None] cleo_stored = (c', inr tt)
    /\ In (Some "System Manager") (map role (roles (self c')))
    /\ ~ In (Some "Auditor") (map role (roles (self c')))
    /\ ~ In None (map role (roles (self c')))
    /\ user_type (self c') = "System User"
    /\ (forall x, In x (tabUser (world c')) -> name x <> "cleo@acme.test" -> x = ann).
Proof.
  destruct (added_roles_are_stored acme [Some "Auditor"; Some "System Manager"; None]
              cleo_stored)
    as [c' (Hrun & Hroles & _ & Htype & _ & Hrest)];
    [exact cleo_is_plain | reflexivity | discriminate | reflexivity | reflexivity | ].
  exists c'. split; [exact Hrun | ].
  split; [ | split; [ | split; [ | split; [exact Htype | ] ] ] ].
  - apply Hroles. split; [right; right; left; reflexivity | split; reflexivity].
  - intro H. apply Hroles in H. destruct H as (_ & _ & H). discriminate H.
  - intro H. apply Hroles in H. destruct H as (_ & H & _). discriminate H.
  - intros x Hx Hn. destruct (Hrest x Hx Hn) as [<- | [<- | []]]; [reflexivity | ].
    exfalso. apply Hn. reflexivity.
Defined.

Definition ann_with_stale_fields : Ctx :=
  on (office [ann] 0) (with_full_name "Somebody Else" (with_email "old@acme.test" ann)).

Lemma email_and_full_name_are_derived_witness :
  full_name (self (fst (validate acme ann_with_stale_fields))) = "Ann Lee"
  /\ email (self (fst (validate acme ann_with_stale_fields))) = "ann@acme.test".
Proof.
  assert (H : returns (validate acme) ann_with_stale_fields)
    by (exists tt; vm_compute; reflexivity).
  destruct (email_and_full_name_are_derived acme ann_with_stale_fields H)
    as (Hfull & Hemail & _).
  split; [exact Hfull | ].
  apply Hemail. vm_compute. intros [E | [E | []]]; discriminate.
Defined.

Lemma suggested_username_is_free_witness :
  snd (suggest_username acme ann_again) = inr (Some "ann lee")
  /\ (forall r, In r (tabUser (world ann_again)) -> name r <> name (self ann_again) ->
                username r <> "ann lee")
  /\ In (Msgprint "Suggested Username: ann lee")
        (log (world (fst (suggest_username acme ann_again)))).
Proof.
  assert (H : snd (suggest_username acme ann_again) = inr (Some "ann lee"))
    by (vm_compute; reflexivity).
  split; [exact H | ].
  destruct (suggested_username_is_free acme ann_again "ann lee") as (_ & _ & Hfree & Hshown);
    [intros r [<- | []]; reflexivity | exact H | discriminate | ].
  split; [exact Hfree | exact Hshown].
Defined.
